(* ===== verification/_CoqProject ===== *)
-Q . S2P
Prelude.v
Dates.v
PandasDates.v
Validator.v
Numeric.v
Store.v
Materializer.v
Chart.v
App.v
