(* ===== verification/Prelude.v ===== *)
(** * VitalSignsTracker: a verification development

    The program ([src/AddData.py], [src/main.py]) records daily vital-sign
    readings (blood pressure, pulse, weight, temperature, notes) in a CSV
    file and shows a date range of them.  Its parts, leaf first:

    - the prompts of [src/AddData.py]: [get_date] (a [strptime] parse of
      [mm/dd/yyyy] with an optional "use today" default), [get_bp] (the
      ["sys/dia"] parser, its range guard and its five-way warning),
      [validate_numeric_input] with [get_pulse_rate], [get_weight],
      [get_temp] (a [float()] parse and an inclusive range test), and
      [get_notes];
    - the record store of [src/main.py]: [csv_source.get_data] (load with
      [parse_dates=["date"]], or create an empty file) and
      [add_or_update_record] (upsert by date, then rewrite the whole file,
      catching [PermissionError]);
    - the range view [csv_source.show_range]: filter by date, resample to
      one row per day over the filtered extent, mark all-zero rows as
      ["missing day"], print the last ten rows, offer the chart;
    - [new_entry] (the six prompts, then the upsert) and the menu loop
      [main]; [vitals_display] draws the chart.

    Data flow: input lines -> prompts -> store (upsert) -> on a query the
    materializer reads the store -> dense daily rows -> table and chart.

    ** Files, in dependency order
    - [Prelude] (this file): the [vitals_scope] notation, the record [io]
      (value, unread input, printed lines) threaded by the prompting loops,
      the ASCII character classes of Python's [str] methods ([isnumeric],
      [isspace], [strip], [split]), decimal digit strings and their round
      trip, the [vitals] hint database and the [zbool], [char_codes] and
      [enum_Z] tactics.
    - [Dates]: module [Calendar] is CPython's [datetime] calendar
      ([_is_leap], [_days_in_month], [_days_before_year], [_ymd2ord],
      [_check_date_fields]); module [Strptime] is [strptime] with the format
      ["%m/%d/%Y"] as the regular expression CPython compiles for it (the
      alternatives tried in order, the end-of-input check, the field check)
      and [strftime] with that format.  Theorems: parsing yields valid
      dates, printing then parsing is the identity, the ordinal is strictly
      monotone in calendar order.
    - [PandasDates]: module [Timestamps] is what pandas 2 does with the
      [date] column: [read_csv(parse_dates=["date"])] guesses the format
      from the first text and converts the whole column to [datetime64],
      or leaves it as text when a text does not match or a date is outside
      the [Timestamp] range (1677-09-22 to 2262-04-11); the membership test
      of line 134 on a cell; [to_csv] of a [Timestamp] as
      ["YYYY-MM-DD 00:00:00"]; line 65 on a cell.
    - [Validator]: modules [BloodPressure] ([read_bp] is lines 64-72 on one
      line, [bp_warning_level] the chain of lines 77-86, [get_bp] the
      recursive retry), [DateInput] ([get_date], lines 23-40) and [Notes]
      ([get_notes]).  Theorems: the classification regions (diastolic 80
      to 90 is stage 1 whatever the systolic value), the dead crisis
      branch, the retry behaviour of both loops, and that [get_date]
      returns normalized valid dates.
    - [Numeric]: module [PyFloat] is [float(str)]: the literal grammar after
      [strip()] (underscores between digits, [inf], [infinity], [nan]) and
      the correctly rounded conversion to binary64 (round half to even,
      subnormals, overflow to infinity); module [NumericInput] is
      [validate_numeric_input] and its three callers.  Theorems: the
      conversion is within half a unit in the last place, integers of up
      to 53 bits read exactly, the values returned are within their
      bounds, the retry behaviour.
    - [Store]: module [Table] is a line of the file ([rec string]), a row
      of the loaded table ([rec dcell]) and [read_csv] with [DATA_DICT]
      (the integer [weight] column refuses a fractional value, pandas'
      missing-value texts in [notes] read as missing) and [to_csv]; module
      [CsvSource] is the file (optional lines and a writable flag),
      [get_data], [add_or_update_record], and the step relation
      [reachable] of the file states the program can produce.  Theorems:
      loading is idempotent; a fractional weight appended makes the file
      unreadable; on a file of [get_date] texts (every file the program
      has written once) the update path of line 134 is never taken: the
      entry is appended even when its date is already there, and the old
      dates are rewritten as ["YYYY-MM-DD 00:00:00"].
    - [Materializer]: the class [DatedRow] is what the pipeline reads of a
      row ([Store.Table.lrow] is an instance, its date converted by line
      65); module [Resample] is lines 63-105 ([materialize], [view_of]),
      generic in the row type through a [Section]; module [ShowRange]
      composes it with [get_data].  Theorems: one slot per day from the
      least to the greatest kept day, rows kept with their values, gaps as
      zero rows marked ["missing day"], empty exactly when no row is in the
      window, an exception exactly on a repeated day once the dates parse;
      and, composed with the store, that after an entry is added to a
      non-empty file of [get_date] texts every view raises the
      [ValueError] of line 65.
    - [Chart]: module [Figure] is [vitals_display] (lines 178-242): every
      matplotlib call it makes as an update of a [figure] value (four
      panels with a shared day ticker, the lines [plot] adds with their
      style, colour and label, [set_label], [grid], [legend],
      [autofmt_xdate]).  Theorems: the figure meets the presentation
      contract of spec 4.4 (four panels, the five series against the days,
      markers exactly for one row).
    - [App]: module [Session] is [new_entry], lines 94-111 of [show_range]
      (the table, the visualization prompt and the chart), one pass [menu_step] of [main]'s loop and the run
      [main].  Theorems: the rows of every file a run leaves satisfy the
      record invariant of the spec (systolic above diastolic, every field
      in range), and its dates are of the two forms the program writes;
      every chart a run shows is drawn from the whole frame of its
      [show_range], while the table shows its last ten rows.

    ** Modelling choices
    - Integers are [Z] (Python integers are unbounded).  A finite float is
      its exact value in [Q], computed by rounding the decimal input to
      binary64, so the range tests compare the same numbers Python does.
    - Strings are [String.string], parsed as [list ascii]; only ASCII input
      is modelled (Python's [\d], [isnumeric] and [isspace] also accept
      other characters).
    - Every prompting loop reads from an explicit list of input lines; the
      loop is a [Fixpoint] on that list, and running out of lines ([None])
      is Python's [EOFError].  The theorems state that a loop returns when
      the list holds an acceptable line.  [main] runs on fuel: one pass per
      input line and one more, which suffices because every pass that
      continues reads a line ([App.Session.main_terminates]); any larger
      fuel gives the same run.  Prompts written by [input()] are not
      recorded; [print()]ed lines are.  On [EOFError] the lines printed by
      the interrupted prompt are not recorded.
    - [datetime.today()] is a parameter of a run, a valid date.
    - [strftime("%Y")] is modelled zero-padded to four digits (CPython 3.13
      and later on Linux; earlier versions print years below 1000 with
      fewer digits).
    - The file holds the rows as [to_csv] wrote them; reading it back
      applies [read_csv]'s conversions, the date column included (pandas
      2: a [datetime64] column when every text converts with the format
      guessed from the first, text otherwise).  A [Timestamp] is a date at
      midnight, which is all the program stores.

    ** Not modelled
    - What matplotlib does with the figure after the calls of
      [vitals_display]: [tight_layout], the margin [autofmt_xdate] sets and
      the pixels [plt.show()] draws; the figure itself is the event
      [ShowChart].
    - The text layout of the table [show_range] prints; the rows it prints
      ([tail(10)]) are the event [ShowTable].
    - [parse_dates] on a first text of neither form the program writes:
      pandas then falls back to [dateutil]'s parser, which is not modelled
      (such a column is read as text).  Times other than midnight.
    - [get_bp] retries by recursion: after about a thousand refused lines
      Python raises [RecursionError]; the model retries without bound.
    - Concurrent access to the file (the spec excludes it).
*)

From Stdlib Require Export ZArith Ascii String List Bool Lia.
Export ListNotations.

Declare Scope vitals_scope.
Delimit Scope vitals_scope with vt.

(** Option bind, used by the parsers. *)
Notation "'let?' x ':=' c 'in' k" :=
  (match c with Some x => k | None => None end)
  (at level 10, x name, c at level 100, k at level 200) : vitals_scope.

Open Scope vitals_scope.

(** ** Input and output of the prompting loops *)

(** The result of a prompting loop: its value, the input lines it left
    unread and the lines it printed, in order. *)
Record io (A : Type) := IO { io_val : A; io_rest : list string; io_out : list string }.
Arguments IO {A} _ _ _.
Arguments io_val {A} _.
Arguments io_rest {A} _.
Arguments io_out {A} _.

(** Prefix printed lines to the output of a loop that continues. *)
Definition io_print {A} (msgs : list string) (r : option (io A)) : option (io A) :=
  match r with
  | Some (IO v rest out) => Some (IO v rest (msgs ++ out))
  | None => None
  end.

(** Apply a conversion to the value a loop returns ([int(...)] of a
    prompt's result). *)
Definition io_map {A B} (f : A -> B) (r : option (io A)) : option (io B) :=
  match r with
  | Some (IO v rest out) => Some (IO (f v) rest out)
  | None => None
  end.

(** ** ASCII character classes of Python's [str] *)

Local Open Scope char_scope.

Definition char_code (c : ascii) : Z := Z.of_nat (nat_of_ascii c).

Definition char_between (lo hi c : ascii) : bool :=
  ((char_code lo <=? char_code c) && (char_code c <=? char_code hi))%Z.

(** [\d] and [str.isdigit] on ASCII. *)
Definition is_digit (c : ascii) : bool := char_between "0" "9" c.

Definition digit_val (c : ascii) : Z := (char_code c - 48)%Z.

Definition digit_char (n : Z) : ascii := ascii_of_nat (Z.to_nat (48 + n)).

(** [str.isnumeric] on ASCII: non-empty and only digits. *)
Definition isnumeric (l : list ascii) : bool :=
  match l with [] => false | _ => forallb is_digit l end.

(** [int(s)] for a string of ASCII digits: the decimal value, most
    significant digit first. *)
Definition digits_value (l : list ascii) : Z :=
  fold_left (fun acc c => 10 * acc + digit_val c)%Z l 0%Z.

(** [str.isspace] on one ASCII character: space, \t \n \v \f \r and the
    four separators \x1c-\x1f. *)
Definition py_isspace (c : ascii) : bool :=
  (c =? " ") || char_between "009" "013" c || char_between "028" "031" c.

(** [s.strip()] is non-empty iff [s] has a non-space character. *)
Definition strip_nonempty (l : list ascii) : bool :=
  existsb (fun c => negb (py_isspace c)) l.

(** [s.lstrip()] *)
Fixpoint lstrip (l : list ascii) : list ascii :=
  match l with c :: r => if py_isspace c then lstrip r else l | [] => [] end.

(** [s.strip()] *)
Definition py_strip (l : list ascii) : list ascii := rev (lstrip (rev (lstrip l))).

(** [s.split(sep)]: the fields between occurrences of [sep], empty fields
    included; ["".split(sep)] is [[""]]. *)
Fixpoint py_split (sep : ascii) (l : list ascii) : list (list ascii) :=
  match l with
  | [] => [[]]
  | c :: r =>
      if c =? sep then [] :: py_split sep r
      else match py_split sep r with
           | f :: fs => (c :: f) :: fs
           | [] => [[c]]
           end
  end.

(** Exactly [w] decimal digits of [n] (zero-padded on the left), as
    [strftime] prints [%m], [%d] and [%Y]. *)
Fixpoint digits_fixed (w : nat) (n : Z) : list ascii :=
  match w with
  | O => []
  | S w' => digits_fixed w' (n / 10) ++ [digit_char (n mod 10)]
  end.

(** [str(n)] for a natural number [n]: its decimal digits, no padding. *)
Fixpoint digits_of_pos_aux (fuel : nat) (n : Z) (acc : list ascii) : list ascii :=
  match fuel with
  | O => acc
  | S f => if (n <? 10)%Z then digit_char n :: acc
           else digits_of_pos_aux f (n / 10) (digit_char (n mod 10) :: acc)
  end.

Definition py_str_nat (n : Z) : list ascii := digits_of_pos_aux (S (Z.to_nat n)) n [].

Close Scope char_scope.

(** ** Automation *)

Create HintDb vitals discriminated.

(** Turn the boolean comparisons of the code into propositions. *)
Ltac zbool :=
  repeat first
    [ rewrite !andb_true_iff in *
    | rewrite !andb_false_iff in *
    | rewrite !orb_true_iff in *
    | rewrite !orb_false_iff in *
    | rewrite !negb_true_iff in *
    | rewrite !negb_false_iff in *
    | rewrite !Z.leb_le in *
    | rewrite !Z.leb_gt in *
    | rewrite !Z.ltb_lt in *
    | rewrite !Z.ltb_ge in *
    | rewrite !Z.eqb_eq in *
    | rewrite !Z.eqb_neq in * ].

(** Replace the code of each character literal by its value. *)
Ltac char_codes :=
  repeat match goal with
  | |- context [char_code (Ascii ?b0 ?b1 ?b2 ?b3 ?b4 ?b5 ?b6 ?b7)] =>
      let v := eval vm_compute in (char_code (Ascii b0 b1 b2 b3 b4 b5 b6 b7)) in
      change (char_code (Ascii b0 b1 b2 b3 b4 b5 b6 b7)) with v
  | H : context [char_code (Ascii ?b0 ?b1 ?b2 ?b3 ?b4 ?b5 ?b6 ?b7)] |- _ =>
      let v := eval vm_compute in (char_code (Ascii b0 b1 b2 b3 b4 b5 b6 b7)) in
      change (char_code (Ascii b0 b1 b2 b3 b4 b5 b6 b7)) with v in H
  end.

(** Case analysis of an integer in a concrete interval: [enum_Z x tac]
    replaces [x] by each value of the interval in turn and runs [tac]. *)
Ltac enum_Z x tac :=
  match goal with
  | H : (?lo <= x <= ?hi)%Z |- _ =>
      first
        [ exfalso; lia
        | let E := fresh "E" in
          destruct (Z.eq_dec x lo) as [E|E];
          [ subst x; clear H; tac
          | let lo' := eval vm_compute in (lo + 1)%Z in
            assert (lo' <= x <= hi)%Z by lia; clear H E; enum_Z x tac ] ]
  end.

(** ** Shared lemmas on digits and splitting *)

Section Digits.
Local Open Scope Z_scope.

Lemma digit_char_spec n :
  0 <= n < 10 -> is_digit (digit_char n) = true /\ digit_val (digit_char n) = n.
Proof.
  intros Hn. unfold is_digit, digit_val, char_between, char_code, digit_char.
  rewrite nat_ascii_embedding by lia. rewrite Z2Nat.id by lia.
  change (Z.of_nat (nat_of_ascii "0")) with 48. change (Z.of_nat (nat_of_ascii "9")) with 57.
  split; [zbool|]; lia.
Qed.

Lemma is_digit_val c : is_digit c = true -> 0 <= digit_val c < 10.
Proof.
  unfold is_digit, char_between, digit_val, char_code.
  change (Z.of_nat (nat_of_ascii "0")) with 48. change (Z.of_nat (nat_of_ascii "9")) with 57.
  intros. zbool. lia.
Qed.

Lemma fold_digits_acc (l : list ascii) (a : Z) :
  fold_left (fun acc c => 10 * acc + digit_val c) l a
  = a * 10 ^ Z.of_nat (List.length l) + digits_value l.
Proof.
  unfold digits_value. revert a. induction l as [|c l IH]; intros a; cbn [fold_left List.length].
  - lia.
  - rewrite IH, (IH (10 * 0 + digit_val c)). rewrite Nat2Z.inj_succ, Z.pow_succ_r by lia. lia.
Qed.

Lemma digits_value_app (l r : list ascii) :
  digits_value (l ++ r) = digits_value l * 10 ^ Z.of_nat (List.length r) + digits_value r.
Proof. unfold digits_value at 1. rewrite fold_left_app. apply fold_digits_acc. Qed.

Lemma digits_value_snoc (l : list ascii) c :
  digits_value (l ++ [c]) = 10 * digits_value l + digit_val c.
Proof.
  rewrite digits_value_app. change (digits_value [c]) with (10 * 0 + digit_val c).
  replace (10 ^ Z.of_nat (List.length [c])) with 10 by reflexivity. lia.
Qed.

Lemma digits_fixed_spec w n :
  0 <= n < 10 ^ Z.of_nat w ->
  List.length (digits_fixed w n) = w /\ forallb is_digit (digits_fixed w n) = true
  /\ digits_value (digits_fixed w n) = n.
Proof.
  revert n. induction w as [|w IH]; intros n Hn; cbn [digits_fixed].
  - cbn in *. repeat split; lia.
  - rewrite Nat2Z.inj_succ, Z.pow_succ_r in Hn by lia.
    destruct (IH (n / 10)) as (Hl & Hd & Hv).
    { split; [apply Z.div_pos|apply Z.div_lt_upper_bound]; lia. }
    destruct (digit_char_spec (n mod 10)) as [Hc Hcv]. { apply Z.mod_pos_bound. lia. }
    rewrite List.length_app, forallb_app, digits_value_snoc, Hl, Hd, Hv, Hcv.
    cbn [forallb List.length]. rewrite Hc.
    split; [lia|]. split; [reflexivity|]. pose proof (Z.div_mod n 10). lia.
Qed.

Lemma digits_value_cons c (l : list ascii) :
  digits_value (c :: l) = digit_val c * 10 ^ Z.of_nat (List.length l) + digits_value l.
Proof.
  change (c :: l) with ([c] ++ l). rewrite digits_value_app. reflexivity.
Qed.

Lemma digits_of_pos_aux_spec f n acc :
  0 <= n < 10 ^ Z.of_nat f ->
  forallb is_digit (digits_of_pos_aux f n acc) = forallb is_digit acc
  /\ digits_value (digits_of_pos_aux f n acc)
     = n * 10 ^ Z.of_nat (List.length acc) + digits_value acc
  /\ (digits_of_pos_aux f n acc <> [] \/ f = O).
Proof.
  revert n acc. induction f as [|f IH]; intros n acc Hn; cbn [digits_of_pos_aux].
  - cbn in Hn. assert (n = 0) as -> by lia. auto.
  - rewrite Nat2Z.inj_succ, Z.pow_succ_r in Hn by lia.
    destruct (Z.ltb_spec n 10) as [Hlt|Hge].
    + destruct (digit_char_spec n) as [Hc Hcv]; [lia|].
      rewrite digits_value_cons, Hcv. cbn [forallb]. rewrite Hc.
      split; [reflexivity|]. split; [lia|left; discriminate].
    + destruct (digit_char_spec (n mod 10)) as [Hc Hcv]. { apply Z.mod_pos_bound. lia. }
      destruct (IH (n / 10) (digit_char (n mod 10) :: acc)) as (Hd & Hv & Hne).
      { split; [apply Z.div_pos|apply Z.div_lt_upper_bound]; lia. }
      rewrite Hd, Hv, digits_value_cons, Hcv. cbn [forallb List.length]. rewrite Hc.
      split; [reflexivity|]. split.
      * rewrite Nat2Z.inj_succ, Z.pow_succ_r by lia. pose proof (Z.div_mod n 10). nia.
      * destruct Hne as [Hne| ->]; [left; exact Hne|].
        left. cbn. discriminate.
Qed.

(** [str(n)] is a numeric string whose [int] is [n]. *)
Lemma py_str_nat_spec n :
  0 <= n -> isnumeric (py_str_nat n) = true /\ digits_value (py_str_nat n) = n.
Proof.
  intros Hn. unfold py_str_nat.
  destruct (digits_of_pos_aux_spec (S (Z.to_nat n)) n []) as (Hd & Hv & Hne).
  { split; [lia|]. rewrite Nat2Z.inj_succ, Z2Nat.id by lia.
    pose proof (Z.pow_gt_lin_r 10 (Z.succ n)). lia. }
  rewrite Hv. cbn [forallb] in Hd. unfold isnumeric.
  destruct (digits_of_pos_aux (S (Z.to_nat n)) n []) eqn:E.
  - destruct Hne as [Hne|Hf]; [congruence|discriminate].
  - split; [exact Hd|]. cbn. lia.
Qed.
(** Floor division steps up by one exactly at the multiples. *)
Lemma div_pred_step d y :
  0 < d -> y / d = (y - 1) / d + (if y mod d =? 0 then 1 else 0).
Proof.
  intros Hd. pose proof (Z.div_mod y d ltac:(lia)). pose proof (Z.mod_pos_bound y d Hd).
  destruct (Z.eqb_spec (y mod d) 0) as [E|E]; cbv beta iota.
  - rewrite E in *. replace (y - 1) with ((y / d - 1) * d + (d - 1)) by nia.
    rewrite Z.div_add_l by lia. rewrite (Z.div_small (d - 1) d) by lia. lia.
  - replace (y - 1) with ((y / d) * d + (y mod d - 1)) by nia.
    rewrite Z.div_add_l by lia. rewrite (Z.div_small (y mod d - 1) d) by lia. lia.
Qed.
Lemma mod_mul_zero a b y : 0 < a -> 0 < b -> y mod (a * b) = 0 -> y mod a = 0.
Proof.
  intros Ha Hb H. apply Z.mod_divide in H; [|lia]. destruct H as [k ->].
  replace (k * (a * b)) with ((k * b) * a) by ring. apply Z.mod_mul. lia.
Qed.
Lemma is_digit_not_space c : is_digit c = true -> py_isspace c = false.
Proof.
  unfold is_digit, py_isspace, char_between. intros H.
  destruct (Ascii.eqb_spec c " ") as [->|_]; [discriminate H|]. cbn [orb].
  rewrite <- not_true_iff_false. intros Hs. char_codes. zbool. lia.
Qed.

Lemma lstrip_digits_id (l : list ascii) : forallb is_digit l = true -> lstrip l = l.
Proof.
  destruct l as [|c l]; [reflexivity|]. cbn. intros [Hc _]%andb_true_iff.
  rewrite (is_digit_not_space c Hc). reflexivity.
Qed.

Lemma py_strip_digits (l : list ascii) : forallb is_digit l = true -> py_strip l = l.
Proof.
  intros H. unfold py_strip. rewrite (lstrip_digits_id l H), lstrip_digits_id, rev_involutive;
    [reflexivity|].
  apply forallb_forall. intros c Hc%in_rev. exact (proj1 (forallb_forall _ _) H c Hc).
Qed.
End Digits.

Section Split.
Lemma py_split_no_sep sep (l : list ascii) :
  forallb (fun c => negb (c =? sep)%char) l = true -> py_split sep l = [l].
Proof.
  induction l as [|c l IH]; cbn; [reflexivity|].
  intros [Hc Hl]%andb_true_iff. apply negb_true_iff in Hc. rewrite Hc, IH by exact Hl.
  reflexivity.
Qed.

Lemma py_split_app sep (l1 l2 : list ascii) :
  forallb (fun c => negb (c =? sep)%char) l1 = true ->
  py_split sep (l1 ++ sep :: l2) = l1 :: py_split sep l2.
Proof.
  induction l1 as [|c l1 IH]; cbn.
  - rewrite Ascii.eqb_refl. reflexivity.
  - intros [Hc Hl]%andb_true_iff. apply negb_true_iff in Hc. rewrite Hc, IH by exact Hl.
    reflexivity.
Qed.
End Split.

(** Induction on a list that may drop several elements per step, as the
    prompting loops do. *)
Lemma list_length_ind {A} (P : list A -> Prop) :
  (forall l, (forall l', (List.length l' < List.length l)%nat -> P l') -> P l) -> forall l, P l.
Proof.
  intros H l. remember (List.length l) as n eqn:E. revert l E.
  induction n as [n IH] using (well_founded_induction Wf_nat.lt_wf).
  intros l ->. apply H. intros l' Hl'. exact (IH _ Hl' l' eq_refl).
Qed.

#[export] Hint Resolve digit_char_spec is_digit_val : vitals.
