(* ===== verification/Dates.v ===== *)
(** * Dates: the calendar and the [mm/dd/yyyy] parser and printer

    [get_date] ([src/AddData.py]) validates a date with
    [datetime.strptime(my_date, "%m/%d/%Y")] and returns
    [valid_date.strftime("%m/%d/%Y")]; [show_range] ([src/main.py]) parses
    its bounds the same way and compares timestamps.  This file models the
    parts of CPython's [datetime] and [_strptime] that these calls run:

    - [Calendar]: the date record, [_is_leap], [_days_in_month],
      [_check_date_fields] and the proleptic Gregorian ordinal [_ymd2ord]
      (the day number that timestamp comparison and daily resampling use);
    - [Strptime]: the regular expression that [_strptime] compiles for
      ["%m/%d/%Y"] (alternatives tried left to right with backtracking, the
      first match kept, then the "unconverted data remains" check and the
      date check), and [strftime] with the same format. *)

From S2P Require Import Prelude.

Module Calendar.
Local Open Scope Z_scope.

Record date := mkdate { year : Z; month : Z; day : Z }.

Definition date_eq_dec (a b : date) : {a = b} + {a <> b}.
Proof. decide equality; apply Z.eq_dec. Defined.

Definition MINYEAR : Z := 1.
Definition MAXYEAR : Z := 9999.

(** [_is_leap(year)] *)
Definition is_leap (y : Z) : bool :=
  (y mod 4 =? 0) && (negb (y mod 100 =? 0) || (y mod 400 =? 0)).

(** [_DAYS_IN_MONTH[month]] for a month in 1..12 (the table's unused
    index 0 holds -1). *)
Definition DAYS_IN_MONTH (m : Z) : Z :=
  match m with
  | 1 => 31 | 2 => 28 | 3 => 31 | 4 => 30 | 5 => 31 | 6 => 30
  | 7 => 31 | 8 => 31 | 9 => 30 | 10 => 31 | 11 => 30 | 12 => 31
  | _ => -1
  end.

(** [_DAYS_BEFORE_MONTH[month]]: the running sums of [DAYS_IN_MONTH]. *)
Definition DAYS_BEFORE_MONTH (m : Z) : Z :=
  match m with
  | 1 => 0 | 2 => 31 | 3 => 59 | 4 => 90 | 5 => 120 | 6 => 151
  | 7 => 181 | 8 => 212 | 9 => 243 | 10 => 273 | 11 => 304 | 12 => 334
  | _ => -1
  end.

(** [_days_in_month(year, month)] *)
Definition days_in_month (y m : Z) : Z :=
  if (m =? 2) && is_leap y then 29 else DAYS_IN_MONTH m.

(** [_days_before_month(year, month)] *)
Definition days_before_month (y m : Z) : Z :=
  DAYS_BEFORE_MONTH m + (if (2 <? m) && is_leap y then 1 else 0).

(** [_days_before_year(year)] *)
Definition days_before_year (y : Z) : Z :=
  let y' := y - 1 in y' * 365 + y' / 4 - y' / 100 + y' / 400.

(** [_ymd2ord(year, month, day)]: day 1 is 0001-01-01. *)
Definition ymd2ord (dt : date) : Z :=
  days_before_year (year dt) + days_before_month (year dt) (month dt) + day dt.

(** [_check_date_fields]: the dates [datetime.date] accepts. *)
Definition valid_date (dt : date) : bool :=
  (MINYEAR <=? year dt) && (year dt <=? MAXYEAR)
  && (1 <=? month dt) && (month dt <=? 12)
  && (1 <=? day dt) && (day dt <=? days_in_month (year dt) (month dt)).

(** Calendar order: year, then month, then day. *)
Definition date_lt (a b : date) : Prop :=
  year a < year b
  \/ (year a = year b /\ month a < month b)
  \/ (year a = year b /\ month a = month b /\ day a < day b).

(** ** Lemmas *)

Lemma valid_date_iff dt :
  valid_date dt = true <->
  1 <= year dt <= 9999 /\ 1 <= month dt <= 12 /\ 1 <= day dt <= days_in_month (year dt) (month dt).
Proof. unfold valid_date, MINYEAR, MAXYEAR. split; intros; zbool; lia. Qed.

Lemma days_in_month_bounds y m : 1 <= m <= 12 -> 28 <= days_in_month y m <= 31.
Proof. intros Hm. unfold days_in_month. enum_Z m ltac:(destruct (is_leap y); cbn; lia). Qed.

(** The months of a year end where the next one starts. *)
Lemma days_before_month_mono y m m' :
  1 <= m < m' -> m' <= 12 ->
  days_before_month y m + days_in_month y m <= days_before_month y m'.
Proof.
  intros Hm Hm'. assert (Hm1 : 1 <= m <= 11) by lia. assert (Hm2 : 2 <= m' <= 12) by lia.
  assert (Hlt : m < m') by lia. clear Hm Hm'. unfold days_before_month, days_in_month.
  enum_Z m ltac:(idtac; enum_Z m' ltac:(destruct (is_leap y); cbn; lia)).
Qed.

Lemma days_before_month_bounds y m :
  1 <= m <= 12 -> 0 <= days_before_month y m /\
  days_before_month y m + days_in_month y m <= 365 + (if is_leap y then 1 else 0).
Proof.
  intros Hm. unfold days_before_month, days_in_month.
  enum_Z m ltac:(destruct (is_leap y); cbn; lia).
Qed.

Lemma days_before_year_succ y :
  1 <= y -> days_before_year (y + 1) = days_before_year y + 365 + (if is_leap y then 1 else 0).
Proof.
  intros Hy. unfold days_before_year, is_leap.
  replace (y + 1 - 1) with y by lia.
  rewrite (div_pred_step 4 y), (div_pred_step 100 y), (div_pred_step 400 y) by lia.
  assert (y mod 400 = 0 -> y mod 100 = 0) by exact (mod_mul_zero 100 4 y ltac:(lia) ltac:(lia)).
  assert (y mod 100 = 0 -> y mod 4 = 0) by exact (mod_mul_zero 4 25 y ltac:(lia) ltac:(lia)).
  destruct (Z.eqb_spec (y mod 4) 0), (Z.eqb_spec (y mod 100) 0), (Z.eqb_spec (y mod 400) 0);
    cbv beta iota; cbn [andb orb negb]; lia.
Qed.

Lemma days_before_year_mono y y' :
  1 <= y < y' -> days_before_year (y + 1) <= days_before_year y'.
Proof.
  intros Hy.
  assert (exists k : nat, y' = y + 1 + Z.of_nat k) as [k ->] by (exists (Z.to_nat (y' - y - 1)); lia).
  assert (Hy1 : 1 <= y) by lia. clear Hy.
  induction k as [|k IH]; [change (Z.of_nat 0) with 0; rewrite Z.add_0_r; lia|].
  rewrite Nat2Z.inj_succ. replace (y + 1 + Z.succ (Z.of_nat k)) with (y + 1 + Z.of_nat k + 1) by lia.
  rewrite (days_before_year_succ (y + 1 + Z.of_nat k)) by lia. destruct (is_leap _); lia.
Qed.

(** A valid date's ordinal lies inside its year. *)
Lemma ymd2ord_in_year dt :
  valid_date dt = true ->
  days_before_year (year dt) < ymd2ord dt <= days_before_year (year dt + 1).
Proof.
  intros (Hy & Hm & Hd)%valid_date_iff. unfold ymd2ord.
  rewrite days_before_year_succ by lia.
  pose proof (days_before_month_bounds (year dt) (month dt) Hm). lia.
Qed.

(** The ordinal is strictly monotone in calendar order. *)
Theorem ymd2ord_lt a b :
  valid_date a = true -> valid_date b = true -> date_lt a b -> ymd2ord a < ymd2ord b.
Proof.
  intros Ha Hb Hlt.
  pose proof (ymd2ord_in_year a Ha) as Ia. pose proof (ymd2ord_in_year b Hb) as Ib.
  apply valid_date_iff in Ha as (Hya & Hma & Hda). apply valid_date_iff in Hb as (Hyb & Hmb & Hdb).
  destruct Hlt as [Hy | [[Hy Hm] | (Hy & Hm & Hd)]].
  - pose proof (days_before_year_mono (year a) (year b) ltac:(lia)). lia.
  - pose proof (days_before_month_mono (year a) (month a) (month b) ltac:(lia) ltac:(lia)).
    unfold ymd2ord. rewrite Hy in *. lia.
  - unfold ymd2ord. rewrite Hy, Hm. lia.
Qed.

Lemma date_lt_total a b : a <> b -> date_lt a b \/ date_lt b a.
Proof.
  destruct a as [ya ma da], b as [yb mb db]. unfold date_lt. cbn. intros Hne.
  destruct (Z.eq_dec ya yb), (Z.eq_dec ma mb), (Z.eq_dec da db); subst; try congruence; lia.
Qed.

(** Distinct valid dates have distinct ordinals. *)
Lemma ymd2ord_inj a b :
  valid_date a = true -> valid_date b = true -> ymd2ord a = ymd2ord b -> a = b.
Proof.
  intros Ha Hb He. destruct (date_eq_dec a b) as [|Hne]; [assumption|].
  destruct (date_lt_total a b Hne) as [H|H].
  - pose proof (ymd2ord_lt a b Ha Hb H). lia.
  - pose proof (ymd2ord_lt b a Hb Ha H). lia.
Qed.

End Calendar.

Module Strptime.
Import Calendar.
Local Open Scope char_scope.

(** A regular-expression piece: every way it can match a prefix of the
    input, in the order [re] tries them, as (matched text, rest). *)
Definition matcher := list ascii -> list (list ascii * list ascii).

(** One character of a class. *)
Definition re_class (p : ascii -> bool) : matcher :=
  fun s => match s with c :: r => if p c then [([c], r)] else [] | [] => [] end.

(** Two characters, each of its class. *)
Definition re_class2 (p q : ascii -> bool) : matcher :=
  fun s => match s with
           | c :: c' :: r => if p c && q c' then [([c; c'], r)] else []
           | _ => []
           end.

Definition re_lit (c0 : ascii) : ascii -> bool := fun c => (c =? c0).

(** Alternation [a|b|...]: the alternatives' matches in order. *)
Definition re_alt (ms : list matcher) : matcher :=
  fun s => flat_map (fun m => m s) ms.

(** [TimeRE['m'] = r"(?P<m>1[0-2]|0[1-9]|[1-9])"] *)
Definition re_m : matcher :=
  re_alt [re_class2 (re_lit "1") (char_between "0" "2");
          re_class2 (re_lit "0") (char_between "1" "9");
          re_class (char_between "1" "9")].

(** [TimeRE['d'] = r"(?P<d>3[01]|[12]\d|0[1-9]|[1-9]| [1-9])"] *)
Definition re_d : matcher :=
  re_alt [re_class2 (re_lit "3") (char_between "0" "1");
          re_class2 (char_between "1" "2") is_digit;
          re_class2 (re_lit "0") (char_between "1" "9");
          re_class (char_between "1" "9");
          re_class2 (re_lit " ") (char_between "1" "9")].

(** [TimeRE['Y'] = r"(?P<Y>\d\d\d\d)"] *)
Definition re_Y : matcher :=
  fun s => match s with
           | a :: b :: c :: d :: r =>
               if is_digit a && is_digit b && is_digit c && is_digit d
               then [([a; b; c; d], r)] else []
           | _ => []
           end.

(** The literal ["/"] of the format. *)
Definition re_slash : matcher := re_class (re_lit "/").

(** The compiled pattern [m/d/Y], matched from the start of the input
    ([re.match]): every match as (m, d, Y, unconverted rest), in the order
    the backtracking engine finds them. *)
Definition match_mdY (s : list ascii) : list (list ascii * list ascii * list ascii * list ascii) :=
  flat_map (fun '(m, r1) =>
    flat_map (fun '(_, r2) =>
      flat_map (fun '(d, r3) =>
        flat_map (fun '(_, r4) =>
          map (fun '(y, r5) => (m, d, y, r5)) (re_Y r4))
        (re_slash r3))
      (re_d r2))
    (re_slash r1))
  (re_m s).

(** [int(found_dict[...])]: [int] ignores the leading space that the
    [" [1-9]"] alternative of [%d] admits. *)
Fixpoint lstrip_spaces (l : list ascii) : list ascii :=
  match l with c :: r => if py_isspace c then lstrip_spaces r else l | [] => [] end.

Definition group_int (g : list ascii) : Z := digits_value (lstrip_spaces g).

(** [datetime.strptime(s, "%m/%d/%Y")]: [None] where Python raises
    [ValueError] (no match, unconverted data remains, or a day the month
    does not have). *)
Definition strptime_mdY (s : string) : option date :=
  match match_mdY (list_ascii_of_string s) with
  | (m, d, y, []) :: _ =>
      let dt := mkdate (group_int y) (group_int m) (group_int d) in
      if valid_date dt then Some dt else None
  | _ => None
  end.

(** [dt.strftime("%m/%d/%Y")] *)
Definition strftime_mdY (dt : date) : string :=
  string_of_list_ascii
    (digits_fixed 2 (month dt) ++ "/" :: digits_fixed 2 (day dt) ++ "/" :: digits_fixed 4 (year dt)).

(** [strptime] only returns dates that [datetime.date] accepts. *)
Lemma strptime_valid s dt : strptime_mdY s = Some dt -> valid_date dt = true.
Proof.
  unfold strptime_mdY. destruct (match_mdY _) as [|[[[m d] y] [|c r]] tl]; try discriminate.
  destruct (valid_date _) eqn:E; intros H; inversion H; subst; exact E.
Qed.

(** ** Parsing what [strftime] prints *)

Lemma re_m_fixed m r :
  (1 <= m <= 12)%Z -> exists tl, re_m (digits_fixed 2 m ++ r) = (digits_fixed 2 m, r) :: tl.
Proof. intros Hm. enum_Z m ltac:(eexists; reflexivity). Qed.

Lemma re_d_fixed d r :
  (1 <= d <= 31)%Z -> exists tl, re_d (digits_fixed 2 d ++ r) = (digits_fixed 2 d, r) :: tl.
Proof. intros Hd. enum_Z d ltac:(eexists; reflexivity). Qed.

Lemma re_Y_digits (Y r : list ascii) :
  List.length Y = 4%nat -> forallb is_digit Y = true -> re_Y (Y ++ r) = [(Y, r)].
Proof.
  intros Hl Hd. destruct Y as [|a [|b [|c [|e [|]]]]]; try discriminate.
  cbn in Hd |- *.
  destruct (is_digit a), (is_digit b), (is_digit c), (is_digit e); try discriminate; reflexivity.
Qed.

Lemma lstrip_digits (l : list ascii) : forallb is_digit l = true -> lstrip_spaces l = l.
Proof.
  destruct l as [|c l]; [reflexivity|]. cbn. intros [Hc _]%andb_true_iff.
  destruct (py_isspace c) eqn:Hs; [|reflexivity].
  revert Hc Hs. unfold is_digit, py_isspace, char_between.
  destruct (Ascii.eqb_spec c " ") as [->|]; [discriminate|]. cbn [orb].
  intros. char_codes. zbool. lia.
Qed.

Lemma group_int_fixed w n :
  (0 <= n < 10 ^ Z.of_nat w)%Z -> group_int (digits_fixed w n) = n.
Proof.
  intros Hn. destruct (digits_fixed_spec w n Hn) as (_ & Hd & Hv).
  unfold group_int. rewrite lstrip_digits by exact Hd. exact Hv.
Qed.

Lemma match_mdY_fixed m d y :
  (1 <= m <= 12)%Z -> (1 <= d <= 31)%Z -> (0 <= y < 10000)%Z ->
  exists tl, match_mdY (digits_fixed 2 m ++ "/" :: digits_fixed 2 d ++ "/" :: digits_fixed 4 y)
             = (digits_fixed 2 m, digits_fixed 2 d, digits_fixed 4 y, []) :: tl.
Proof.
  intros Hm Hd Hy. unfold match_mdY.
  destruct (re_m_fixed m ("/" :: digits_fixed 2 d ++ "/" :: digits_fixed 4 y) Hm) as [tl1 ->].
  destruct (re_d_fixed d ("/" :: digits_fixed 4 y) Hd) as [tl2 E2].
  destruct (digits_fixed_spec 4 y ltac:(cbn; lia)) as (Hl & Hdig & _).
  pose proof (re_Y_digits (digits_fixed 4 y) [] Hl Hdig) as E3. rewrite app_nil_r in E3.
  cbn [flat_map re_slash re_class]. unfold re_lit at 1. rewrite Ascii.eqb_refl.
  cbn [flat_map app]. rewrite E2. cbn [flat_map re_slash re_class]. unfold re_lit at 1.
  rewrite Ascii.eqb_refl. cbn [flat_map app]. rewrite E3. cbn [map app].
  eexists. reflexivity.
Qed.

Lemma strptime_round_trip dt :
  valid_date dt = true -> strptime_mdY (strftime_mdY dt) = Some dt.
Proof.
  intros Hv. pose proof Hv as (Hy & Hm & Hd)%valid_date_iff.
  pose proof (days_in_month_bounds (year dt) (month dt) Hm).
  unfold strptime_mdY, strftime_mdY. rewrite list_ascii_of_string_of_list_ascii.
  destruct (match_mdY_fixed (month dt) (day dt) (year dt) Hm ltac:(lia) ltac:(lia)) as [tl ->].
  rewrite !group_int_fixed by (cbn; lia).
  destruct dt as [y m d]. cbn in Hv |- *. rewrite Hv. reflexivity.
Qed.

(** C16. Round trip: [strptime] reads back every valid date that [strftime]
    prints. *)
Theorem strptime_strftime dt :
  valid_date dt = true -> strptime_mdY (strftime_mdY dt) = Some dt.
Proof. exact (strptime_round_trip dt). Qed.

(** What [datetime.strptime(s, "%m/%d/%Y")] accepts and refuses, on the
    inputs of the specification: a month 13, the ISO form, a 29 February
    outside a leap year, the year 0 and trailing text are refused; one
    digit month and day, and a day padded with a space, are accepted. *)
Example strptime_cases :
  strptime_mdY "13/01/2024" = None
  /\ strptime_mdY "2024-01-13" = None
  /\ strptime_mdY "02/29/2023" = None
  /\ strptime_mdY "01/01/0000" = None
  /\ strptime_mdY "10/10/2024x" = None
  /\ strptime_mdY "" = None
  /\ strptime_mdY "02/29/2024" = Some (mkdate 2024 2 29)
  /\ strptime_mdY "1/5/2024" = Some (mkdate 2024 1 5)
  /\ strptime_mdY "01/ 5/2024" = Some (mkdate 2024 1 5)
  /\ strptime_mdY "12/31/9999" = Some (mkdate 9999 12 31).
Proof. vm_compute. repeat split. Qed.

(** ** Witnesses *)

Lemma strptime_strftime_witness :
  strptime_mdY (strftime_mdY (mkdate 2024 2 29)) = Some (mkdate 2024 2 29).
Proof. apply strptime_strftime. vm_compute. reflexivity. Defined.
End Strptime.
