(* ===== verification/PandasDates.v ===== *)
(** * PandasDates: the [date] column as pandas reads, compares and writes it

    [csv_source.get_data] reads [vitals.csv] with [parse_dates=["date"]]
    ([src/main.py] line 41), [add_or_update_record] tests
    [date in df['date'].values] (line 134) and writes the table back with
    [to_csv] (line 148), and [show_range] converts the column again with
    [pd.to_datetime(df["date"], format="%m/%d/%Y")] (line 65).  This file
    models what pandas 2 does in these four places:

    - [parse_dates]: the format is guessed from the first text of the
      column and every text is then parsed with it; a text that does not
      match, or a date outside the range of a nanosecond [Timestamp]
      (1677-09-22 to 2262-04-11 at midnight), makes the conversion fail, and
      [read_csv] then returns the column unconverted, as text;
    - line 134: a text compared with a [datetime64] array is never equal
      to any of its elements; compared with a text column, it is equal to
      the equal texts;
    - [to_csv] after [pd.concat] of a [datetime64] column with the text of a
      new record: the column is an object column holding [Timestamp]s,
      written as [str(Timestamp)], ["YYYY-MM-DD 00:00:00"];
    - line 65: a [datetime64] column is kept; a text column is parsed with
      ["%m/%d/%Y"] (pandas' copy of CPython's [_strptime] pattern) and a
      text that does not match, or a date out of range, raises
      [ValueError].

    The two text forms the program writes are the [strftime] form of
    [get_date] and [str(Timestamp)].  The format guess is modelled on
    them; for a first text of another form pandas falls back to
    [dateutil], which is not modelled (the column is then read as text). *)

From S2P Require Import Prelude Dates.

Module Timestamps.
Import Calendar Strptime.
Local Open Scope Z_scope.

(** A cell of the loaded [date] column: a text (an unconverted column) or
    a [Timestamp] at midnight (a [datetime64] column). *)
Inductive dcell := DText (s : string) | DStamp (dt : date).

(** The formats [guess_datetime_format] finds for the two forms. *)
Inductive date_format := FmtMDY | FmtISO.

(** [pd.Timestamp.min] and [pd.Timestamp.max], at day resolution. *)
Definition TS_MIN : Z := ymd2ord (mkdate 1677 9 22).
Definition TS_MAX : Z := ymd2ord (mkdate 2262 4 11).

Definition ts_in_bounds (dt : date) : bool := (TS_MIN <=? ymd2ord dt) && (ymd2ord dt <=? TS_MAX).

(** [str(Timestamp(dt))] *)
Definition ts_str (dt : date) : string :=
  string_of_list_ascii
    (digits_fixed 4 (year dt) ++ "-"%char :: digits_fixed 2 (month dt) ++ "-"%char :: digits_fixed 2 (day dt)
     ++ list_ascii_of_string " 00:00:00"%string).

(** The ISO parser of pandas with the format ["%Y-%m-%d %H:%M:%S"], on
    texts at midnight. *)
Definition parse_iso_ts (s : string) : option date :=
  match list_ascii_of_string s with
  | y1 :: y2 :: y3 :: y4 :: c5 :: m1 :: m2 :: c8 :: d1 :: d2 :: rest =>
      if String.eqb (string_of_list_ascii rest) " 00:00:00"%string && (c5 =? "-"%char)%char && (c8 =? "-"%char)%char
         && forallb is_digit [y1; y2; y3; y4; m1; m2; d1; d2]
      then let dt := mkdate (digits_value [y1; y2; y3; y4]) (digits_value [m1; m2])
                            (digits_value [d1; d2]) in
           if valid_date dt then Some dt else None
      else None
  | _ => None
  end.

(** [guess_datetime_format] on the first text of the column. *)
Definition guess_format (s : string) : option date_format :=
  match strptime_mdY s with
  | Some _ => Some FmtMDY
  | None => match parse_iso_ts s with Some _ => Some FmtISO | None => None end
  end.

(** One text converted with a format: a parse error or an out-of-range
    date is [None]. *)
Definition to_datetime_with (fmt : date_format) (s : string) : option date :=
  match (match fmt with FmtMDY => strptime_mdY s | FmtISO => parse_iso_ts s end) with
  | Some dt => if ts_in_bounds dt then Some dt else None
  | None => None
  end.

Fixpoint parse_all (fmt : date_format) (ts : list string) : option (list date) :=
  match ts with
  | [] => Some []
  | s :: ts' =>
      match to_datetime_with fmt s, parse_all fmt ts' with
      | Some dt, Some ds => Some (dt :: ds)
      | _, _ => None
      end
  end.

(** [read_csv(..., parse_dates=["date"])] on the column's texts: a
    [datetime64] column, or the texts when the conversion fails. *)
Definition parse_date_column (ts : list string) : list dcell :=
  match ts with
  | [] => []
  | t0 :: _ =>
      match guess_format t0 with
      | Some fmt => match parse_all fmt ts with Some ds => map DStamp ds | None => map DText ts end
      | None => map DText ts
      end
  end.

(** Line 65, [pd.to_datetime(df["date"], format=DATE_FORMAT)], on a cell. *)
Definition cell_to_datetime (c : dcell) : option date :=
  match c with DStamp dt => Some dt | DText s => to_datetime_with FmtMDY s end.

(** Line 134, [date in df['date'].values], on one cell. *)
Definition cell_is (d : string) (c : dcell) : bool :=
  match c with DText s => String.eqb s d | DStamp _ => false end.

(** [to_csv] of a cell: a text as it is, a [Timestamp] of the object
    column [pd.concat] makes as [str(Timestamp)]. *)
Definition write_cell (c : dcell) : string :=
  match c with DText s => s | DStamp dt => ts_str dt end.

Definition is_stamp (c : dcell) : bool := match c with DStamp _ => true | DText _ => false end.

(** The texts the program writes in the [date] column: [get_date]'s form,
    or [str(Timestamp)] of a date in range. *)
Definition mdY_text (s : string) : Prop := exists dt, valid_date dt = true /\ s = strftime_mdY dt.

Definition date_text_ok (s : string) : Prop :=
  mdY_text s \/ (exists dt, valid_date dt = true /\ ts_in_bounds dt = true /\ s = ts_str dt).

(** A text [get_date] returns for a date [parse_dates] can represent. *)
Definition mdY_in_bounds (s : string) : Prop :=
  exists dt, valid_date dt = true /\ ts_in_bounds dt = true /\ s = strftime_mdY dt.

(** ** Lemmas *)

Lemma digits_fixed_length w n : List.length (digits_fixed w n) = w.
Proof.
  revert n. induction w as [|w IH]; intros n; [reflexivity|]. cbn [digits_fixed].
  rewrite length_app, IH. cbn. lia.
Qed.

Lemma digits_fixed_2 n : exists a b, digits_fixed 2 n = [a; b].
Proof.
  pose proof (digits_fixed_length 2 n) as L.
  destruct (digits_fixed 2 n) as [|a [|b [|]]]; try discriminate. eauto.
Qed.

Lemma digits_fixed_4' n : exists a b c e, digits_fixed 4 n = [a; b; c; e].
Proof.
  pose proof (digits_fixed_length 4 n) as L.
  destruct (digits_fixed 4 n) as [|a [|b [|c [|e [|]]]]]; try discriminate. eauto.
Qed.

Lemma digits_fixed_4 n :
  0 <= n < 10000 -> exists a b c e, digits_fixed 4 n = [a; b; c; e] /\ forallb is_digit [a; b; c; e] = true.
Proof.
  intros Hn. destruct (digits_fixed_spec 4 n ltac:(cbn; lia)) as (L & D & _).
  destruct (digits_fixed 4 n) as [|a [|b [|c [|e [|]]]]]; try discriminate. eauto 6.
Qed.

Lemma digit_not_slash c : is_digit c = true -> (c =? "/"%char)%char = false.
Proof. destruct (Ascii.eqb_spec c "/"%char) as [->|]; [discriminate|reflexivity]. Qed.

(** The pattern of ["%m/%d/%Y"] needs a slash among the first three
    characters. *)
Lemma match_mdY_no_slash a b c r :
  (b =? "/"%char)%char = false -> (c =? "/"%char)%char = false -> match_mdY (a :: b :: c :: r) = [].
Proof.
  intros Hb Hc. unfold match_mdY, re_m, re_alt, re_class2, re_class, re_slash, re_lit.
  cbn [app flat_map].
  repeat match goal with |- context [if ?x then _ else _] =>
    lazymatch x with
    | (c =? _)%char => fail
    | (b =? _)%char => fail
    | _ => destruct x
    end end;
  cbn -[Ascii.eqb]; rewrite ?Hb, ?Hc; reflexivity.
Qed.

(** [str(Timestamp)] is not read by ["%m/%d/%Y"]. *)
Lemma strptime_ts_str dt : valid_date dt = true -> strptime_mdY (ts_str dt) = None.
Proof.
  intros (Hy & _ & _)%valid_date_iff. unfold strptime_mdY, ts_str.
  rewrite list_ascii_of_string_of_list_ascii.
  destruct (digits_fixed_4 (year dt) ltac:(lia)) as (a & b & c & e & -> & D).
  cbn in D. apply andb_prop in D as [_ D]. apply andb_prop in D as [Db D].
  apply andb_prop in D as [Dc _]. cbn [app]. rewrite match_mdY_no_slash; [reflexivity| |];
    apply digit_not_slash; assumption.
Qed.

(** The [strftime] form is not read by the ISO parser. *)
Lemma parse_iso_strftime dt : parse_iso_ts (strftime_mdY dt) = None.
Proof.
  unfold parse_iso_ts, strftime_mdY. rewrite list_ascii_of_string_of_list_ascii.
  destruct (digits_fixed_2 (month dt)) as (a & b & ->).
  destruct (digits_fixed_2 (day dt)) as (c & e & ->).
  destruct (digits_fixed_4' (year dt)) as (f & g & h & i & ->). reflexivity.
Qed.

Lemma parse_iso_valid s dt : parse_iso_ts s = Some dt -> valid_date dt = true.
Proof.
  unfold parse_iso_ts. destruct (list_ascii_of_string s) as [|y1 [|y2 [|y3 [|y4 [|c5 [|m1 [|m2 [|c8 [|d1 [|d2 rest]]]]]]]]]];
    try discriminate.
  destruct (_ && _); [|discriminate]. destruct (valid_date _) eqn:E; intros H; inversion H; subst; exact E.
Qed.

(** A converted date is valid and a [Timestamp]. *)
Lemma to_datetime_with_ok fmt s dt :
  to_datetime_with fmt s = Some dt -> valid_date dt = true /\ ts_in_bounds dt = true.
Proof.
  unfold to_datetime_with.
  destruct (match fmt with FmtMDY => strptime_mdY s | FmtISO => parse_iso_ts s end) as [dt'|] eqn:E;
    [|discriminate].
  destruct (ts_in_bounds dt') eqn:B; intros H; inversion H; subst. split; [|exact B].
  destruct fmt; [exact (strptime_valid _ _ E)|exact (parse_iso_valid _ _ E)].
Qed.

Lemma parse_all_ok fmt ts ds :
  parse_all fmt ts = Some ds ->
  Forall (fun dt => valid_date dt = true /\ ts_in_bounds dt = true) ds /\ List.length ds = List.length ts.
Proof.
  revert ds. induction ts as [|s ts IH]; intros ds; cbn; [intros H; inversion H; auto|].
  destruct (to_datetime_with fmt s) as [dt|] eqn:E; [|discriminate].
  destruct (parse_all fmt ts) as [ds'|]; [|discriminate]. intros H; inversion H; subst.
  destruct (IH ds' eq_refl) as [F L]. split; [constructor; [exact (to_datetime_with_ok _ _ _ E)|exact F]|cbn; lia].
Qed.

(** [parse_dates] gives a [datetime64] column of valid dates in range, or
    the texts. *)
Lemma parse_date_column_cases ts :
  (exists ds, parse_date_column ts = map DStamp ds
              /\ Forall (fun dt => valid_date dt = true /\ ts_in_bounds dt = true) ds
              /\ List.length ds = List.length ts)
  \/ parse_date_column ts = map DText ts.
Proof.
  unfold parse_date_column. destruct ts as [|t0 ts']; [left; exists []; auto|].
  destruct (guess_format t0) as [fmt|]; [|right; reflexivity].
  destruct (parse_all fmt (t0 :: ts')) as [ds|] eqn:E; [|right; reflexivity].
  left. exists ds. destruct (parse_all_ok _ _ _ E). auto.
Qed.

Lemma parse_date_column_length ts : List.length (parse_date_column ts) = List.length ts.
Proof.
  destruct (parse_date_column_cases ts) as [(ds & E & _ & L)|E]; rewrite E, length_map;
    [exact L|reflexivity].
Qed.

(** A column of [get_date] texts of dates in range is read as
    [datetime64]. *)
Lemma mdY_column_parses ts :
  Forall mdY_in_bounds ts ->
  exists ds, parse_date_column ts = map DStamp ds /\ ts = map strftime_mdY ds
    /\ Forall (fun dt => valid_date dt = true /\ ts_in_bounds dt = true) ds.
Proof.
  intros Hts.
  assert (Hall : exists ds, parse_all FmtMDY ts = Some ds /\ ts = map strftime_mdY ds
                   /\ Forall (fun dt => valid_date dt = true /\ ts_in_bounds dt = true) ds).
  { induction Hts as [|s ts Hs _ IH]; [exists []; auto|].
    destruct Hs as (dt & Hv & Hb & ->). destruct IH as (ds & E & -> & F).
    exists (dt :: ds). cbn [parse_all map]. unfold to_datetime_with at 1. rewrite strptime_round_trip, Hb, E by exact Hv.
    auto. }
  destruct Hall as (ds & E & Hds & F). exists ds. split; [|split; [exact Hds|exact F]].
  unfold parse_date_column. destruct ts as [|t0 ts']; [destruct ds; [reflexivity|discriminate]|].
  inversion Hts as [|? ? Ht0 _]; subst. destruct Ht0 as (dt & Hv & _ & ->).
  unfold guess_format. rewrite strptime_round_trip by exact Hv. rewrite E. reflexivity.
Qed.

Lemma parse_all_snoc_none fmt ts x : to_datetime_with fmt x = None -> parse_all fmt (ts ++ [x]) = None.
Proof.
  intros Hx. induction ts as [|s ts IH]; cbn; [rewrite Hx; reflexivity|].
  rewrite IH. destruct (to_datetime_with fmt s); reflexivity.
Qed.

(** After a [Timestamp] was written back as text, a [get_date] text
    appended to the column makes [parse_dates] fail: the column is read as
    text. *)
Lemma mixed_column_text d0 ts dt :
  valid_date d0 = true ->
  parse_date_column (ts_str d0 :: ts ++ [strftime_mdY dt]) = map DText (ts_str d0 :: ts ++ [strftime_mdY dt]).
Proof.
  intros Hv. unfold parse_date_column, guess_format. rewrite strptime_ts_str by exact Hv.
  destruct (parse_iso_ts (ts_str d0)); [|reflexivity].
  rewrite app_comm_cons, parse_all_snoc_none; [reflexivity|].
  unfold to_datetime_with. rewrite parse_iso_strftime. reflexivity.
Qed.

(** Line 65 refuses [str(Timestamp)]. *)
Lemma cell_to_datetime_ts_str dt : valid_date dt = true -> cell_to_datetime (DText (ts_str dt)) = None.
Proof. intros Hv. unfold cell_to_datetime, to_datetime_with. rewrite strptime_ts_str by exact Hv. reflexivity. Qed.

End Timestamps.
