(* ===== verification/Validator.v ===== *)
(** * Validator: the input functions of [src/AddData.py]

    - [BloodPressure]: [get_bp] (lines 44-92): split the line on ["/"],
      require two numeric fields, check the ranges and [bpsys > bpdia]
      (line 72), print a warning chosen by the [if]/[elif] chain of lines
      77-86, and on failure call itself again on the next line.
    - [DateInput]: [get_date] (lines 11-40): the [while True] loop with the
      "use today's date" default for an empty line and the [strptime] check.
    - [Notes]: [get_notes] (lines 130-132).

    The loops read an explicit list of input lines (one per [input()]
    call); [None] is the [EOFError] of an exhausted input. *)

From S2P Require Import Prelude Dates.

Module BloodPressure.
Local Open Scope Z_scope.

Definition BP_SYS_MIN : Z := 50.
Definition BP_SYS_MAX : Z := 250.
Definition BP_DIA_MIN : Z := 30.
Definition BP_DIA_MAX : Z := 150.

(** The five warnings of lines 77-86, in the order they are tested. *)
Inductive bp_level := Elevated | Stage1 | Stage2 | Crisis | Normal.

(** The [if]/[elif] chain of lines 77-86. *)
Definition bp_warning_level (bpsys bpdia : Z) : bp_level :=
  if (120 <=? bpsys) && (bpsys <=? 129) && (bpdia <? 80) then Elevated
  else if ((130 <=? bpsys) && (bpsys <=? 139)) || ((80 <=? bpdia) && (bpdia <=? 90)) then Stage1
  else if (140 <=? bpsys) || (90 <=? bpdia) then Stage2
  else if (180 <? bpsys) || (120 <? bpdia) then Crisis
  else Normal.

(** The message printed for each level. *)
Definition bp_warning (l : bp_level) : string :=
  match l with
  | Elevated => "Just saying your BP is slightly elevated"
  | Stage1 => "High BP. Possibly hypertension stage 1"
  | Stage2 => "High BP. Possibly hypertension stage 2"
  | Crisis => "High BP. Possibly hypertensive crisis. Please consult a doctor."
  | Normal => "Great. Looks normal."
  end%string.

(** The fate of one input line in [get_bp]: the [ValueError] raised at
    line 66, the "unrealistic" branch of line 72, or an accepted pair. *)
Inductive bp_reading := BPValueError | BPUnrealistic | BPAccepted (bpsys bpdia : Z).

(** The guard of line 72. *)
Definition bp_realistic (bpsys bpdia : Z) : bool :=
  (BP_SYS_MIN <=? bpsys) && (bpsys <=? BP_SYS_MAX)
  && (BP_DIA_MIN <=? bpdia) && (bpdia <=? BP_DIA_MAX) && (bpdia <? bpsys).

(** Lines 64-72 on one input line. *)
Definition read_bp (line : string) : bp_reading :=
  match py_split "/"%char (list_ascii_of_string line) with
  | [a; b] =>
      if isnumeric a && isnumeric b then
        let bpsys := digits_value a in
        let bpdia := digits_value b in
        if bp_realistic bpsys bpdia then BPAccepted bpsys bpdia else BPUnrealistic
      else BPValueError
  | _ => BPValueError
  end.

(** [get_bp()]: the recursive retry of lines 74 and 92 consumes one line
    per call. *)
Fixpoint get_bp (inp : list string) : option (io (Z * Z)) :=
  match inp with
  | [] => None
  | line :: rest =>
      match read_bp line with
      | BPValueError => get_bp rest
      | BPUnrealistic => io_print ["Please enter some realistic values"%string] (get_bp rest)
      | BPAccepted bpsys bpdia =>
          Some (IO (bpsys, bpdia) rest [bp_warning (bp_warning_level bpsys bpdia)])
      end
  end.

Definition bp_accepted (r : bp_reading) : bool :=
  match r with BPAccepted _ _ => true | _ => false end.

(** What [get_bp] prints for lines it refuses: one complaint per
    unrealistic pair, nothing for a malformed line. *)
Definition bp_retry_msgs (pre : list string) : list string :=
  flat_map (fun l => match read_bp l with
                     | BPUnrealistic => ["Please enter some realistic values"%string]
                     | _ => []
                     end) pre.

(** ** Classification *)

(** Case analysis on the tests of the [if]/[elif] chain, each turned into
    arithmetic facts. *)
Ltac bp_cases :=
  unfold bp_warning_level;
  repeat match goal with
  | |- context [if ?c then _ else _] =>
      lazymatch c with
      | true => fail
      | false => fail
      | _ => let E := fresh "E" in destruct c eqn:E
      end
  end; zbool.

(** C2. The "hypertensive crisis" branch of line 83 is dead: every reading it
    would catch has already been caught by the stage 2 test of line 81. *)
Theorem bp_crisis_unreachable bpsys bpdia : bp_warning_level bpsys bpdia <> Crisis.
Proof. bp_cases; first [discriminate | exfalso; lia]. Qed.

(** C1. The decision regions of the chain. *)
Theorem bp_warning_level_regions bpsys bpdia :
  (bp_warning_level bpsys bpdia = Normal <-> bpsys < 120 /\ bpdia < 80)
  /\ (bp_warning_level bpsys bpdia = Elevated <-> 120 <= bpsys <= 129 /\ bpdia < 80)
  /\ (bp_warning_level bpsys bpdia = Stage1 <-> 130 <= bpsys <= 139 \/ 80 <= bpdia <= 90)
  /\ (bp_warning_level bpsys bpdia = Stage2 <->
        (140 <= bpsys \/ 90 < bpdia) /\ ~ (130 <= bpsys <= 139) /\ ~ (80 <= bpdia <= 90)).
Proof. bp_cases; repeat split; intros; try discriminate; lia. Qed.

(** ** Parsing one line *)

Lemma digits_no_slash (l : list ascii) :
  forallb is_digit l = true -> forallb (fun c => negb (c =? "/")%char) l = true.
Proof.
  induction l as [|c l IH]; [reflexivity|]. cbn. intros [Hc Hl]%andb_true_iff.
  rewrite IH by exact Hl. destruct (Ascii.eqb_spec c "/"); [subst; discriminate|reflexivity].
Qed.

Lemma isnumeric_digits (l : list ascii) : isnumeric l = true -> forallb is_digit l = true.
Proof. destruct l; [discriminate|exact id]. Qed.

Lemma read_bp_accepted line bpsys bpdia :
  read_bp line = BPAccepted bpsys bpdia -> bp_realistic bpsys bpdia = true.
Proof.
  unfold read_bp. destruct (py_split _ _) as [|a [|b [|]]]; try discriminate.
  destruct (isnumeric a && isnumeric b); [|discriminate].
  destruct (bp_realistic _ _) eqn:E; intros H; inversion H; subst; exact E.
Qed.

(** Reading back [f"{bpsys}/{bpdia}"]: the pair is accepted exactly when
    the guard of line 72 holds, and refused as unrealistic otherwise. *)
Theorem read_bp_printed bpsys bpdia :
  0 <= bpsys -> 0 <= bpdia ->
  read_bp (string_of_list_ascii (py_str_nat bpsys ++ "/"%char :: py_str_nat bpdia))
  = if bp_realistic bpsys bpdia then BPAccepted bpsys bpdia else BPUnrealistic.
Proof.
  intros Hs Hd. destruct (py_str_nat_spec bpsys Hs) as [Ns Vs].
  destruct (py_str_nat_spec bpdia Hd) as [Nd Vd].
  unfold read_bp. rewrite list_ascii_of_string_of_list_ascii.
  rewrite py_split_app by exact (digits_no_slash _ (isnumeric_digits _ Ns)).
  rewrite py_split_no_sep by exact (digits_no_slash _ (isnumeric_digits _ Nd)).
  rewrite Ns, Nd, Vs, Vd. reflexivity.
Qed.

(** ** The retry loop *)

(** The pair [get_bp] returns passes the guard of line 72. *)
Lemma get_bp_realistic inp r :
  get_bp inp = Some r -> bp_realistic (fst (io_val r)) (snd (io_val r)) = true.
Proof.
  revert r. induction inp as [|l inp IH]; intros r; cbn; [discriminate|].
  destruct (read_bp l) as [| |bs bd] eqn:E; [exact (IH r)| |].
  - destruct (get_bp inp) as [[v rest out]|] eqn:G; cbn; [|discriminate].
    intros H; inversion H; subst. exact (IH _ eq_refl).
  - intros H; inversion H; subst. exact (read_bp_accepted l bs bd E).
Qed.

(** [get_bp] returns the first acceptable line, after printing one
    complaint per unrealistic line before it and then the warning. *)
Theorem get_bp_first_accepted pre line post bpsys bpdia :
  Forall (fun l => bp_accepted (read_bp l) = false) pre ->
  read_bp line = BPAccepted bpsys bpdia ->
  get_bp (pre ++ line :: post)
  = Some (IO (bpsys, bpdia) post
             (bp_retry_msgs pre ++ [bp_warning (bp_warning_level bpsys bpdia)])).
Proof.
  intros Hpre Hline. induction Hpre as [|l pre Hl Hpre IH]; cbn.
  - rewrite Hline. reflexivity.
  - destruct (read_bp l); try discriminate; rewrite IH; reflexivity.
Qed.

(** C21. Without an acceptable line the loop never returns: it runs to the end
    of the input. *)
Theorem get_bp_no_accepted inp :
  Forall (fun l => bp_accepted (read_bp l) = false) inp -> get_bp inp = None.
Proof.
  induction 1 as [|l inp Hl Hinp IH]; cbn; [reflexivity|].
  destruct (read_bp l); try discriminate; rewrite IH; reflexivity.
Qed.

(** C20. Whatever [get_bp] returns passes the guard of line 72 and comes from
    the first acceptable line. *)
Theorem get_bp_sound inp r :
  get_bp inp = Some r ->
  exists pre line,
    inp = pre ++ line :: io_rest r
    /\ Forall (fun l => bp_accepted (read_bp l) = false) pre
    /\ read_bp line = BPAccepted (fst (io_val r)) (snd (io_val r))
    /\ bp_realistic (fst (io_val r)) (snd (io_val r)) = true.
Proof.
  revert r. induction inp as [|l inp IH]; intros r; cbn; [discriminate|].
  destruct (read_bp l) as [| |bs bd] eqn:E.
  - intros H. destruct (IH r H) as (pre & line & -> & Hf & Hl & Hr).
    exists (l :: pre), line. repeat split; auto. constructor; [rewrite E; reflexivity|exact Hf].
  - destruct (get_bp inp) as [[v rest out]|] eqn:G; cbn; [|discriminate].
    intros H. inversion H; subst. destruct (IH _ eq_refl) as (pre & line & -> & Hf & Hl & Hr).
    exists (l :: pre), line. repeat split; auto. constructor; [rewrite E; reflexivity|exact Hf].
  - intros H. inversion H; subst. exists [], l. cbn. repeat split; auto.
    exact (read_bp_accepted l bs bd E).
Qed.

(** ** Witnesses *)

Lemma read_bp_printed_witness :
  read_bp (string_of_list_ascii (py_str_nat 120 ++ "/"%char :: py_str_nat 80))
  = BPAccepted 120 80.
Proof. exact (read_bp_printed 120 80 ltac:(lia) ltac:(lia)). Defined.

Lemma get_bp_first_accepted_witness :
  get_bp (["abc"%string; "300/80"%string] ++ "125/85"%string :: ["90/60"%string])
  = Some (IO (125, 85) ["90/60"%string]
             (bp_retry_msgs ["abc"%string; "300/80"%string] ++ [bp_warning (bp_warning_level 125 85)])).
Proof.
  apply get_bp_first_accepted.
  - repeat constructor.
  - vm_compute. reflexivity.
Defined.

Lemma get_bp_no_accepted_witness : get_bp ["x"; "10/10"; "120/"]%string = None.
Proof. apply get_bp_no_accepted. repeat constructor. Defined.

Lemma get_bp_sound_witness :
  exists pre line,
    ["300/80"; "125/85"; "z"]%string = pre ++ line :: ["z"%string]
    /\ Forall (fun l => bp_accepted (read_bp l) = false) pre
    /\ read_bp line = BPAccepted 125 85
    /\ bp_realistic 125 85 = true.
Proof.
  exact (get_bp_sound ["300/80"; "125/85"; "z"]%string
           (IO (125, 85) ["z"%string] ["Please enter some realistic values"%string;
                                       bp_warning Stage1])
           ltac:(vm_compute; reflexivity)).
Defined.
End BloodPressure.

Module DateInput.
Import Calendar Strptime.
Local Open Scope string_scope.

(** [s.upper()] on ASCII letters. *)
Definition upper_char (c : ascii) : ascii :=
  if char_between "a"%char "z"%char c then ascii_of_nat (nat_of_ascii c - 32) else c.

(** [useToday.strip().upper() == 'Y'] *)
Definition answers_yes (line : string) : bool :=
  match map upper_char (py_strip (list_ascii_of_string line)) with
  | [c] => (c =? "Y")%char
  | _ => false
  end.

(** [get_date(which_date, this_df, allow_default)] with [today] the date
    [datetime.today()] returns: lines 23-40. *)
Fixpoint get_date (today : date) (allow_default : bool) (inp : list string) : option (io string) :=
  match inp with
  | [] => None
  | my_date :: rest =>
      if allow_default && String.eqb my_date "" then
        match rest with
        | [] => None
        | useToday :: rest' =>
            if answers_yes useToday then Some (IO (strftime_mdY today) rest' [])
            else get_date today allow_default rest'
        end
      else
        match strptime_mdY my_date with
        | Some valid_date => Some (IO (strftime_mdY valid_date) rest [])
        | None => io_print ["Invalid date"] (get_date today allow_default rest)
        end
  end.

(** The dates [get_date] returns are [strftime] forms of valid dates. *)
Lemma get_date_valid today allow_default inp r :
  valid_date today = true ->
  get_date today allow_default inp = Some r ->
  exists dt, valid_date dt = true /\ io_val r = strftime_mdY dt.
Proof.
  intros Ht. revert r. induction inp as [inp IH] using list_length_ind. intros r.
  destruct inp as [|my_date rest]; cbn [get_date]; [discriminate|].
  destruct (allow_default && String.eqb my_date "").
  - destruct rest as [|useToday rest']; [discriminate|].
    destruct (answers_yes useToday).
    + intros H. inversion H; subst. exists today. auto.
    + apply IH. cbn. lia.
  - destruct (strptime_mdY my_date) as [dt|] eqn:E.
    + intros H. inversion H; subst. exists dt. split; [exact (strptime_valid _ _ E)|reflexivity].
    + destruct (get_date today allow_default rest) as [[v rest'' out]|] eqn:G; cbn [io_print]; [|discriminate].
      intros H. inversion H; subst. exact (IH rest ltac:(cbn; lia) _ G).
Qed.

(** C22. Every date [get_date] returns is the [strftime] form of a valid date,
    which [strptime] reads back. *)
Theorem get_date_normalized today allow_default inp r :
  valid_date today = true ->
  get_date today allow_default inp = Some r ->
  exists dt, valid_date dt = true /\ io_val r = strftime_mdY dt
             /\ strptime_mdY (io_val r) = Some dt.
Proof.
  intros Ht H. destruct (get_date_valid today allow_default inp r Ht H) as (dt & Hv & Hs).
  exists dt. rewrite Hs. auto using strptime_round_trip.
Qed.

(** Without the default, [get_date] returns the first line that parses,
    in normal form, after one ["Invalid date"] per line before it. *)
Theorem get_date_first_valid today pre line post dt :
  Forall (fun l => strptime_mdY l = None) pre ->
  strptime_mdY line = Some dt ->
  get_date today false (pre ++ line :: post)
  = Some (IO (strftime_mdY dt) post (map (fun _ => "Invalid date") pre)).
Proof.
  intros Hpre Hline. induction Hpre as [|l pre Hl Hpre IH]; cbn.
  - rewrite Hline. reflexivity.
  - rewrite Hl, IH. reflexivity.
Qed.

(** An empty line with the default allowed asks whether to use today's
    date: an answer that strips and upper-cases to ["Y"] returns today's
    date in normal form, any other answer asks for the date again. *)
Theorem get_date_default today ans rest :
  (answers_yes ans = true ->
   get_date today true ("" :: ans :: rest) = Some (IO (strftime_mdY today) rest []))
  /\ (answers_yes ans = false -> get_date today true ("" :: ans :: rest) = get_date today true rest).
Proof. split; intros H; cbn [get_date andb String.eqb]; rewrite H; reflexivity. Qed.

(** ** Witnesses *)

Lemma get_date_normalized_witness :
  exists dt, valid_date dt = true /\ "01/05/2024" = strftime_mdY dt
             /\ strptime_mdY "01/05/2024" = Some dt.
Proof.
  exact (get_date_normalized (mkdate 2024 11 9) true ["13/01/2024"; "1/5/2024"]
           (IO "01/05/2024" [] ["Invalid date"])
           ltac:(vm_compute; reflexivity) ltac:(vm_compute; reflexivity)).
Defined.

Lemma get_date_default_witness :
  answers_yes " y " = true
  /\ get_date (mkdate 2024 11 9) true ("" :: " y " :: ["x"]) = Some (IO (strftime_mdY (mkdate 2024 11 9)) ["x"] []).
Proof.
  split; [reflexivity|]. apply (proj1 (get_date_default (mkdate 2024 11 9) " y " ["x"])). reflexivity.
Defined.

Lemma get_date_first_valid_witness :
  get_date (mkdate 2024 11 9) false ((["2024-01-13"; "02/29/2023"] ++ "2/29/2024" :: ["x"])%list)
  = Some (IO (strftime_mdY (mkdate 2024 2 29)) ["x"] (map (fun _ => "Invalid date") ["2024-01-13"; "02/29/2023"])).
Proof.
  apply get_date_first_valid.
  - repeat constructor.
  - vm_compute. reflexivity.
Defined.
End DateInput.

Module Notes.
(** [get_notes()]: the line itself when it has a non-space character,
    otherwise the empty string. *)
Definition get_notes (inp : list string) : option (io string) :=
  match inp with
  | [] => None
  | notes :: rest =>
      Some (IO (if strip_nonempty (list_ascii_of_string notes) then notes else ""%string) rest [])
  end.

(** The note is kept as typed, surrounding spaces included; only a line
    of spaces becomes the empty note. *)
Example get_notes_untrimmed :
  get_notes [" slept badly  "%string] = Some (IO " slept badly  "%string [] [])
  /\ get_notes ["   "%string; "next"%string] = Some (IO ""%string ["next"%string] []).
Proof. split; reflexivity. Qed.
End Notes.
