(* ===== verification/Numeric.v ===== *)
(** * Numeric: [float()] and the numeric prompts of [src/AddData.py]

    [validate_numeric_input(prompt, min_val, max_val)] (lines 94-115)
    reads a line, converts it with [float()], and returns the value when
    [min_val <= value <= max_val]; [get_pulse_rate], [get_weight] and
    [get_temp] (lines 118-127) call it with the bounds of lines 6-8, the
    first one truncating the result with [int()].

    Module [PyFloat] models CPython's [float(str)]: the literal grammar
    after [strip()] (sign, digits with single underscores between them,
    optional point and fraction, optional exponent, and the words [inf],
    [infinity], [nan] in any case), and the correctly rounded conversion of
    the decimal value to binary64 (round half to even, subnormals, overflow
    to infinity).  A finite float is kept as its exact rational value.

    Module [NumericInput] models the prompting loop and its three callers
    over an explicit list of input lines, as the loops of [Validator]. *)

From S2P Require Import Prelude.
From Stdlib Require Import QArith Qround Qpower Qabs.

Module PyFloat.
Local Open Scope Z_scope.

(** A Python [float]: a finite binary64 number (its exact value), an
    infinity, or NaN. *)
Inductive pyfloat := Finite (q : Q) | PosInf | NegInf | NaN.

(** binary64: 53 bits of precision, least normal exponent -1022, and
    [2^1024] is the first power of two that overflows. *)
Definition PREC : Z := 53.
Definition EMIN : Z := -1022.
Definition EMAX : Z := 1024.

(** [floor (log2 (n / d))] for [n, d > 0]. *)
Definition log2_floor (n d : Z) : Z :=
  let e := Z.log2 n - Z.log2 d in
  if 0 <=? e then (if n <? Z.shiftl d e then e - 1 else e)
  else (if Z.shiftl n (- e) <? d then e - 1 else e).

(** [num / den] rounded to the nearest integer, ties to even. *)
Definition div_round_even (num den : Z) : Z :=
  let q := num / den in
  match Z.compare (2 * (num mod den)) den with
  | Lt => q
  | Gt => q + 1
  | Eq => if Z.even q then q else q + 1
  end.

(** The exponent of the last bit kept when rounding [n / d]. *)
Definition ulp_exp (n d : Z) : Z := Z.max (log2_floor n d) EMIN - (PREC - 1).

(** [n / d > 0] rounded to binary64: [None] is an overflow. *)
Definition round_pos (n d : Z) : option Q :=
  let E := ulp_exp n d in
  if E <? 0 then
    Some (Qred (div_round_even (Z.shiftl n (- E)) d # Z.to_pos (Z.shiftl 1 (- E))))
  else
    let v := Z.shiftl (div_round_even n (Z.shiftl d E)) E in
    if v <? Z.shiftl 1 EMAX then Some (inject_Z v) else None.

(** The decimal [M * 10^x] (with [L] digits typed for [M]) as a float,
    negated when [neg].  Exponents beyond the cut-offs are decided without
    computing [10^x]: [M * 10^x >= 10^309] overflows, and
    [M * 10^x < 10^(L + x) <= 10^-324 < 2^-1075] rounds to zero. *)
Definition decimal_to_float (neg : bool) (M x L : Z) : pyfloat :=
  let inf := if neg then NegInf else PosInf in
  let fin q := Finite (if neg then Qopp q else q) in
  if M =? 0 then Finite 0
  else if 308 <? x then inf
  else if L + x <=? -324 then Finite 0
  else match (if 0 <=? x then round_pos (M * 10 ^ x) 1 else round_pos M (10 ^ (- x))) with
       | Some q => fin q
       | None => inf
       end.

Local Open Scope char_scope.

(** [str.lower] on ASCII letters. *)
Definition lower_char (c : ascii) : ascii :=
  if char_between "A" "Z" c then ascii_of_nat (nat_of_ascii c + 32) else c.

(** An optional sign. *)
Definition split_sign (l : list ascii) : bool * list ascii :=
  match l with
  | s :: r => if s =? "-" then (true, r) else if s =? "+" then (false, r) else (false, l)
  | [] => (false, [])
  end.

(** After a first digit: further digits, each optionally preceded by one
    underscore ([digitpart ::= digit (["_"] digit)*]). *)
Fixpoint digitpart_tail (l : list ascii) : list ascii * list ascii :=
  match l with
  | c :: r =>
      if is_digit c then let '(ds, rest) := digitpart_tail r in (c :: ds, rest)
      else if c =? "_" then
        match r with
        | d :: r' =>
            if is_digit d then let '(ds, rest) := digitpart_tail r' in (d :: ds, rest)
            else ([], l)
        | [] => ([], l)
        end
      else ([], l)
  | [] => ([], [])
  end.

(** [digitpart]: its digits (underscores dropped) and the rest. *)
Definition digitpart (l : list ascii) : option (list ascii * list ascii) :=
  match l with
  | c :: r => if is_digit c then let '(ds, rest) := digitpart_tail r in Some (c :: ds, rest) else None
  | [] => None
  end.

(** [digitpart], [digitpart "."], [[digitpart] "." digitpart]: the digits
    before and after the point, and the rest. *)
Definition mantissa (l : list ascii) : option (list ascii * list ascii * list ascii) :=
  match digitpart l with
  | Some (ip, r) =>
      match r with
      | c :: r' =>
          if c =? "." then
            match digitpart r' with
            | Some (fp, r'') => Some (ip, fp, r'')
            | None => Some (ip, [], r')
            end
          else Some (ip, [], r)
      | [] => Some (ip, [], [])
      end
  | None =>
      match l with
      | c :: r' =>
          if c =? "." then
            match digitpart r' with Some (fp, r'') => Some ([], fp, r'') | None => None end
          else None
      | [] => None
      end
  end.

(** What may follow the mantissa: nothing, or an exponent
    [("e" | "E") ["+" | "-"] digitpart] that ends the text. *)
Definition parse_exponent (l : list ascii) : option Z :=
  match l with
  | [] => Some 0%Z
  | c :: r =>
      if lower_char c =? "e" then
        let '(neg, r') := split_sign r in
        match digitpart r' with
        | Some (ds, []) => Some (if neg then (- digits_value ds)%Z else digits_value ds)
        | _ => None
        end
      else None
  end.

Close Scope char_scope.

(** [float(s)] for a [str] argument: [None] is the [ValueError]. *)
Definition float_of_string (s : string) : option pyfloat :=
  let '(neg, body) := split_sign (py_strip (list_ascii_of_string s)) in
  let low := string_of_list_ascii (map lower_char body) in
  if String.eqb low "inf" || String.eqb low "infinity" then Some (if neg then NegInf else PosInf)
  else if String.eqb low "nan" then Some NaN
  else
    match mantissa body with
    | Some (ip, fp, r) =>
        match parse_exponent r with
        | Some x =>
            Some (decimal_to_float neg (digits_value (ip ++ fp))
                    (x - Z.of_nat (List.length fp)) (Z.of_nat (List.length (ip ++ fp))))
        | None => None
        end
    | None => None
    end.

(** [int(x)] on a finite float: truncation toward zero. *)
Definition py_int (q : Q) : Z := if Qle_bool 0 q then Qfloor q else Qceiling q.

(** ** Lemmas *)

Lemma py_int_Z z : py_int (inject_Z z) = z.
Proof. unfold py_int. destruct (Qle_bool 0 _); [apply Qfloor_Z|apply Qceiling_Z]. Qed.

Lemma log2_floor_int n : 1 <= n -> log2_floor n 1 = Z.log2 n.
Proof.
  intros Hn. unfold log2_floor. cbn [Z.log2]. rewrite Z.sub_0_r.
  pose proof (Z.log2_nonneg n). pose proof (Z.log2_spec n ltac:(lia)) as [Hlo _].
  rewrite Z.shiftl_1_l. destruct (0 <=? Z.log2 n) eqn:E; zbool; [|lia].
  destruct (n <? 2 ^ Z.log2 n) eqn:F; zbool; lia.
Qed.

Lemma Qred_inject_Z n : Qred (inject_Z n) = inject_Z n.
Proof.
  unfold Qred, inject_Z. cbn [Qnum Qden]. destruct (Z.ggcd n 1) as [g [a b]] eqn:E.
  pose proof (Z.ggcd_gcd n 1) as G. rewrite E, Z.gcd_1_r in G. cbn in G. subst g.
  pose proof (Z.ggcd_correct_divisors n 1) as H. rewrite E in H. destruct H as [H1 H2].
  replace a with n by lia. replace b with 1 by lia. reflexivity.
Qed.

Lemma div_round_even_1 x : div_round_even x 1 = x.
Proof. unfold div_round_even. rewrite Z.div_1_r, Z.mod_1_r. reflexivity. Qed.

(** Integers of at most 53 bits are floats: rounding them is exact. *)
Lemma round_pos_int n : 1 <= n < 2 ^ 53 -> round_pos n 1 = Some (inject_Z n).
Proof.
  intros Hn. unfold round_pos, ulp_exp, EMIN, PREC. rewrite log2_floor_int by lia.
  assert (Hk : Z.log2 n < 53) by (apply Z.log2_lt_pow2; lia).
  pose proof (Z.log2_nonneg n).
  rewrite Z.max_l by lia.
  destruct (Z.log2 n - (53 - 1) <? 0) eqn:E; zbool.
  - rewrite div_round_even_1, Z.shiftl_mul_pow2, Z.shiftl_1_l by lia. f_equal.
    set (j := - (Z.log2 n - (53 - 1))).
    assert (Hj : 0 < 2 ^ j) by (apply Z.pow_pos_nonneg; lia).
    rewrite <- Qred_inject_Z.
    apply Qred_complete. unfold Qeq, inject_Z. cbn [Qnum Qden].
    rewrite Z2Pos.id by exact Hj. lia.
  - replace (Z.log2 n - (53 - 1)) with 0 by lia.
    rewrite !Z.shiftl_0_r, div_round_even_1. unfold EMAX.
    destruct (n <? Z.shiftl 1 1024) eqn:F; [reflexivity|]. zbool.
    rewrite Z.shiftl_1_l in F. assert (2 ^ 53 <= 2 ^ 1024) by (apply Z.pow_le_mono_r; lia). lia.
Qed.

Lemma digitpart_tail_digits (l : list ascii) : forallb is_digit l = true -> digitpart_tail l = (l, []).
Proof.
  induction l as [|c l IH]; [reflexivity|]. cbn. intros [Hc Hl]%andb_true_iff.
  rewrite Hc, IH by exact Hl. reflexivity.
Qed.

Lemma mantissa_digits (l : list ascii) : isnumeric l = true -> mantissa l = Some (l, [], []).
Proof.
  destruct l as [|c l]; [discriminate|]. cbn [isnumeric forallb]. intros [Hc Hl]%andb_true_iff.
  unfold mantissa, digitpart. rewrite Hc, digitpart_tail_digits by exact Hl. reflexivity.
Qed.

Lemma digit_not_char c ch : is_digit c = true -> is_digit ch = false -> (c =? ch)%char = false.
Proof. intros Hc Hch. destruct (Ascii.eqb_spec c ch) as [->|]; congruence. Qed.

Lemma lower_char_digit c : is_digit c = true -> lower_char c = c.
Proof.
  intros H. unfold lower_char. destruct (char_between "A" "Z" c) eqn:E; [|reflexivity].
  unfold is_digit, char_between in *. char_codes. zbool. lia.
Qed.

Lemma map_lower_digits (l : list ascii) : forallb is_digit l = true -> map lower_char l = l.
Proof.
  induction l as [|c l IH]; [reflexivity|]. cbn. intros [Hc Hl]%andb_true_iff.
  rewrite lower_char_digit, IH by assumption. reflexivity.
Qed.
Lemma div_round_even_spec num den : 0 < den -> 2 * Z.abs (div_round_even num den * den - num) <= den.
Proof.
  intros Hd. unfold div_round_even.
  pose proof (Z.div_mod num den ltac:(lia)) as Hdm. pose proof (Z.mod_pos_bound num den Hd) as Hr.
  set (q := num / den) in *. set (r := num mod den) in *. rewrite Hdm.
  destruct (Z.compare_spec (2 * r) den) as [E|E|E]; [destruct (Z.even q)|..]; lia.
Qed.

Lemma Qinv_Z_pos x : 0 < x -> (/ inject_Z x == 1 # Z.to_pos x)%Q.
Proof. destruct x as [|p|p]; intros H; [lia| |lia]. reflexivity. Qed.

Lemma Qdiff_abs_le q a b c e :
  0 < b -> 0 < e -> (q == a # Z.to_pos b)%Q -> (2 * Z.abs (a * e - c * b) <= e)%Z ->
  ((2 # 1) * Qabs (q - (c # Z.to_pos e)) <= 1 # Z.to_pos b)%Q.
Proof.
  destruct q as [qn qd]. intros Hb He Hq H. unfold Qeq in Hq. unfold Qle, Qminus, Qplus, Qopp, Qabs, Qmult.
  cbn [Qnum Qden] in *. rewrite !Pos2Z.inj_mul, !Z2Pos.id in * by assumption.
  assert (Hqd : 0 < Z.pos qd) by lia.
  replace (Z.abs (qn * e + - c * Z.pos qd)) with (Z.abs (qn * e - c * Z.pos qd)) by (f_equal; ring).
  assert (Habs : Z.abs (qn * e - c * Z.pos qd) * b = Z.pos qd * Z.abs (a * e - c * b)).
  { rewrite <- (Z.abs_eq b) at 1 by lia. rewrite <- (Z.abs_eq (Z.pos qd)) by lia. rewrite <- !Z.abs_mul.
    f_equal. nia. }
  nia.
Qed.



Lemma Qpower2_neg k : 0 < k -> ((2 # 1) ^ (- k) == 1 # Z.to_pos (2 ^ k))%Q.
Proof.
  intros Hk. eapply Qeq_trans; [apply Qpower_opp|].
  eapply Qeq_trans; [apply Qinv_comp; symmetry; apply (Zpower_Qpower 2 k); lia|].
  apply Qinv_Z_pos, Z.pow_pos_nonneg; lia.
Qed.

Lemma Qdiff_abs_le_int x c e P :
  0 < e -> (2 * Z.abs (x * e - c) <= P * e)%Z ->
  ((2 # 1) * Qabs (inject_Z x - (c # Z.to_pos e)) <= inject_Z P)%Q.
Proof.
  intros He H. unfold Qle, Qminus, Qplus, Qopp, Qabs, Qmult, inject_Z. cbn [Qnum Qden].
  rewrite !Pos2Z.inj_mul, !Z2Pos.id by assumption.
  replace (x * e + - c * 1) with (x * e - c) by ring. nia.
Qed.

(** The two bounds [log2_floor] computes, in integers. *)
Lemma log2_floor_bounds n d : 0 < n -> 0 < d ->
  (if 0 <=? log2_floor n d then d * 2 ^ log2_floor n d <= n else d <= n * 2 ^ (- log2_floor n d))
  /\ (if 0 <=? log2_floor n d + 1 then n < d * 2 ^ (log2_floor n d + 1)
      else n * 2 ^ (- (log2_floor n d + 1)) < d).
Proof.
  intros Hn Hd. unfold log2_floor.
  destruct (Z.log2_spec n Hn) as [Hn1 Hn2]. destruct (Z.log2_spec d Hd) as [Hd1 Hd2].
  pose proof (Z.log2_nonneg n). pose proof (Z.log2_nonneg d).
  rewrite Z.pow_succ_r in Hn2, Hd2 by lia.
  set (a := Z.log2 n) in *. set (b := Z.log2 d) in *. set (k := a - b).
  destruct (0 <=? k) eqn:E0; zbool.
  - rewrite Z.shiftl_mul_pow2 by lia.
    assert (Ha : 2 ^ a = 2 ^ b * 2 ^ k) by (rewrite <- Z.pow_add_r by lia; f_equal; lia).
    assert (Hk1 : 2 ^ (k + 1) = 2 * 2 ^ k) by (rewrite Z.pow_add_r by lia; lia).
    destruct (n <? d * 2 ^ k) eqn:E1; zbool.
    + replace (k - 1 + 1) with k by lia.
      destruct (Z.eq_dec k 0) as [Hz|Hnz].
      * rewrite Hz in *. cbn -[Z.pow]. rewrite Z.pow_0_r in *. split; lia.
      * assert (Hk : 2 ^ k = 2 * 2 ^ (k - 1)) by (rewrite <- Z.pow_succ_r by lia; f_equal; lia).
        destruct (0 <=? k - 1) eqn:E2; zbool; [|lia].
        destruct (0 <=? k) eqn:E3; zbool; [|lia]. split; nia.
    + destruct (0 <=? k) eqn:E3; zbool; [|lia]. destruct (0 <=? k + 1) eqn:E4; zbool; [|lia].
      split; nia.
  - rewrite Z.shiftl_mul_pow2 by lia.
    assert (Hb : 2 ^ b = 2 ^ a * 2 ^ (- k)) by (rewrite <- Z.pow_add_r by lia; f_equal; lia).
    destruct (n * 2 ^ (- k) <? d) eqn:E1; zbool.
    + replace (k - 1 + 1) with k by lia.
      assert (Hk : 2 ^ (- (k - 1)) = 2 * 2 ^ (- k)) by (rewrite <- Z.pow_succ_r by lia; f_equal; lia).
      destruct (0 <=? k - 1) eqn:E2; zbool; [lia|]. destruct (0 <=? k) eqn:E3; zbool; [lia|].
      split; nia.
    + destruct (0 <=? k) eqn:E3; zbool; [lia|].
      destruct (Z.eq_dec k (-1)) as [Hm|Hm].
      * rewrite Hm in *. cbn -[Z.pow]. split; [lia|]. rewrite Z.pow_0_r. change (2 ^ (- -1)) with 2 in *. nia.
      * destruct (0 <=? k + 1) eqn:E4; zbool; [lia|].
        assert (Hk : 2 ^ (- k) = 2 * 2 ^ (- (k + 1))) by (rewrite <- Z.pow_succ_r by lia; f_equal; lia).
        split; nia.
Qed.

Lemma Qle_pow2 e n d : 0 < d ->
  (if 0 <=? e then d * 2 ^ e <= n else d <= n * 2 ^ (- e)) -> ((2 # 1) ^ e <= n # Z.to_pos d)%Q.
Proof.
  intros Hd H. destruct (0 <=? e) eqn:E; zbool.
  - eapply Qle_trans; [apply Qle_lteq; right; symmetry; apply (Zpower_Qpower 2 e); exact E|].
    unfold Qle, inject_Z. cbn [Qnum Qden]. rewrite Z2Pos.id by exact Hd. lia.
  - pose proof (Qpower2_neg (- e) ltac:(lia)) as HP. rewrite Z.opp_involutive in HP. rewrite HP.
    unfold Qle. cbn [Qnum Qden]. rewrite !Z2Pos.id by (try apply Z.pow_pos_nonneg; lia). lia.
Qed.

Lemma Qlt_pow2 e n d : 0 < d ->
  (if 0 <=? e then n < d * 2 ^ e else n * 2 ^ (- e) < d) -> (n # Z.to_pos d < (2 # 1) ^ e)%Q.
Proof.
  intros Hd H. destruct (0 <=? e) eqn:E; zbool.
  - eapply Qlt_le_trans; [|apply Qle_lteq; right; apply (Zpower_Qpower 2 e); exact E].
    unfold Qlt, inject_Z. cbn [Qnum Qden]. rewrite Z2Pos.id by exact Hd. lia.
  - pose proof (Qpower2_neg (- e) ltac:(lia)) as HP. rewrite Z.opp_involutive in HP. rewrite HP.
    unfold Qlt. cbn [Qnum Qden]. rewrite !Z2Pos.id by (try apply Z.pow_pos_nonneg; lia). lia.
Qed.

(** [log2_floor n d] is the binary exponent of [n / d]. *)
Lemma log2_floor_spec n d : 0 < n -> 0 < d ->
  ((2 # 1) ^ log2_floor n d <= n # Z.to_pos d < (2 # 1) ^ (log2_floor n d + 1))%Q.
Proof.
  intros Hn Hd. destruct (log2_floor_bounds n d Hn Hd) as [H1 H2].
  split; [exact (Qle_pow2 _ _ _ Hd H1)|exact (Qlt_pow2 _ _ _ Hd H2)].
Qed.

(** The rounding error against the exponent [round_pos] computes. *)
Lemma round_pos_half_ulp_exp n d q :
  0 < n -> 0 < d -> round_pos n d = Some q ->
  ((2 # 1) * Qabs (q - (n # Z.to_pos d)) <= (2 # 1) ^ ulp_exp n d)%Q.
Proof.
  intros Hn Hd. unfold round_pos. set (E := ulp_exp n d).
  destruct (E <? 0) eqn:HE; zbool.
  - intros H; inversion H; subst q; clear H.
    assert (Hk : 0 < - E) by lia.
    rewrite Z.shiftl_1_l.
    apply Qle_trans with (1 # Z.to_pos (2 ^ (- E)))%Q.
    2:{ apply Qle_lteq. right. pose proof (Qpower2_neg (- E) Hk) as HP.
        rewrite Z.opp_involutive in HP. symmetry. exact HP. }
    apply (Qdiff_abs_le _ (div_round_even (Z.shiftl n (- E)) d)); [apply Z.pow_pos_nonneg; lia|exact Hd|exact (Qred_correct _)|].
    pose proof (div_round_even_spec (Z.shiftl n (- E)) d Hd) as Hs.
    rewrite Z.shiftl_mul_pow2 in * by lia. exact Hs.
  - destruct (_ <? _); intros H; inversion H; subst q; clear H.
    apply Qle_trans with (inject_Z (2 ^ E)).
    2:{ apply Qle_lteq. right. apply (Zpower_Qpower 2 E). lia. }
    apply Qdiff_abs_le_int; [exact Hd|].
    pose proof (div_round_even_spec n (Z.shiftl d E) ltac:(rewrite Z.shiftl_mul_pow2 by lia;
                  pose proof (Z.pow_pos_nonneg 2 E); nia)) as Hs.
    rewrite !Z.shiftl_mul_pow2 in * by lia.
    replace (div_round_even n (d * 2 ^ E) * 2 ^ E * d) with (div_round_even n (d * 2 ^ E) * (d * 2 ^ E))
      by ring. lia.
Qed.

(** C17. [float()] is correctly rounded to binary64: for [n / d] with
    binary exponent [e] ([2^e <= n/d < 2^(e+1)]), the value returned is
    within half a unit in the last place of [n / d], the unit being
    [2^(max e (-1022) - 52)]: 53 bits of precision, subnormals below
    [2^-1022]. *)
Theorem round_pos_half_ulp n d q :
  0 < n -> 0 < d -> round_pos n d = Some q ->
  exists e, ((2 # 1) ^ e <= n # Z.to_pos d < (2 # 1) ^ (e + 1))%Q
    /\ ((2 # 1) * Qabs (q - (n # Z.to_pos d)) <= (2 # 1) ^ (Z.max e (-1022) - 52))%Q.
Proof.
  intros Hn Hd H. exists (log2_floor n d). split; [exact (log2_floor_spec n d Hn Hd)|].
  exact (round_pos_half_ulp_exp n d q Hn Hd H).
Qed.

(** A line of decimal digits whose value has at most 53 bits reads as
    exactly that integer. *)
Lemma float_of_string_digits (l : list ascii) :
  isnumeric l = true -> 0 <= digits_value l < 2 ^ 53 ->
  float_of_string (string_of_list_ascii l) = Some (Finite (inject_Z (digits_value l))).
Proof.
  intros Hn Hv. unfold float_of_string. rewrite list_ascii_of_string_of_list_ascii.
  destruct l as [|c l']; [discriminate|]. pose proof Hn as Hall. cbn [isnumeric] in Hall.
  pose proof Hall as Hc. cbn [forallb] in Hc. apply andb_true_iff in Hc as [Hc _].
  rewrite py_strip_digits by exact Hall. cbn [split_sign].
  rewrite (digit_not_char c "-"), (digit_not_char c "+") by (exact Hc || reflexivity).
  rewrite map_lower_digits by exact Hall. cbn [string_of_list_ascii String.eqb].
  rewrite (digit_not_char c "i"), (digit_not_char c "n") by (exact Hc || reflexivity).
  cbn [orb]. rewrite (mantissa_digits _ Hn). cbn [parse_exponent]. rewrite app_nil_r.
  unfold decimal_to_float. cbn [List.length Z.of_nat].
  destruct (digits_value (c :: l') =? 0) eqn:E0; zbool; [rewrite E0; reflexivity|].
  rewrite Z.mul_1_r, round_pos_int by lia. destruct (308 <? _) eqn:E1; zbool; [lia|].
  destruct (_ <=? -324) eqn:E2; zbool; [lia|]. reflexivity.
Qed.
(** [float()] on sample inputs: 98.6 is the nearest binary64 number
    [3469179087958835 / 2^45], not 493/5; underscores are allowed only
    between digits; the special words in any case; 1e400 overflows to
    infinity; a decimal just below 50 rounds to 50.0 exactly. *)
Example float_of_string_cases :
  float_of_string "98.6" = Some (Finite (3469179087958835 # 35184372088832))
  /\ float_of_string "180.5" = Some (Finite (361 # 2))
  /\ float_of_string " 1_000 " = Some (Finite (inject_Z 1000))
  /\ float_of_string "1__0" = None
  /\ float_of_string "1_" = None
  /\ float_of_string "NaN" = Some NaN
  /\ float_of_string "-Infinity" = Some NegInf
  /\ float_of_string "1e400" = Some PosInf
  /\ float_of_string "49.99999999999999999" = Some (Finite (inject_Z 50))
  /\ float_of_string "1." = Some (Finite (inject_Z 1))
  /\ float_of_string ".5e1" = Some (Finite (inject_Z 5))
  /\ float_of_string "." = None
  /\ float_of_string "0x10" = None
  /\ float_of_string "" = None.
Proof. vm_compute. repeat split. Qed.
Lemma round_pos_half_ulp_witness :
  exists e, ((2 # 1) ^ e <= 493 # Z.to_pos 5 < (2 # 1) ^ (e + 1))%Q
    /\ ((2 # 1) * Qabs ((3469179087958835 # 35184372088832) - (493 # Z.to_pos 5))
         <= (2 # 1) ^ (Z.max e (-1022) - 52))%Q.
Proof. apply (round_pos_half_ulp 493 5); [lia|lia|vm_compute; reflexivity]. Defined.
End PyFloat.

Module NumericInput.
Import PyFloat.
Local Open Scope Z_scope.

(** Lines 6-8. *)
Definition PULSE_RATE_MIN : Z := 45.
Definition PULSE_RATE_MAX : Z := 250.
Definition WEIGHT_MIN : Z := 50.
Definition WEIGHT_MAX : Z := 500.
Definition TEMP_MIN : Z := 90.
Definition TEMP_MAX : Z := 115.

(** The test of line 109 on a float: an infinity or NaN fails it. *)
Definition in_range (min_val max_val : Z) (v : pyfloat) : option Q :=
  match v with
  | Finite q => if Qle_bool (inject_Z min_val) q && Qle_bool q (inject_Z max_val) then Some q else None
  | _ => None
  end.

(** The message of line 110 for integer bounds. *)
Definition range_msg (min_val max_val : Z) : string :=
  ("Please enter a value between " ++ string_of_list_ascii (py_str_nat min_val) ++ " and "
   ++ string_of_list_ascii (py_str_nat max_val) ++ ".")%string.

(** The fate of one line in the loop: the [ValueError] of line 108, the
    range complaint of line 110, or the value returned at line 112. *)
Inductive num_reading := NumValueError | NumOutOfRange | NumAccepted (q : Q).

Definition read_number (min_val max_val : Z) (line : string) : num_reading :=
  match float_of_string line with
  | None => NumValueError
  | Some v => match in_range min_val max_val v with Some q => NumAccepted q | None => NumOutOfRange end
  end.

(** [validate_numeric_input(prompt, min_val, max_val)]: lines 106-115. *)
Fixpoint validate_numeric_input (min_val max_val : Z) (inp : list string) : option (io Q) :=
  match inp with
  | [] => None
  | line :: rest =>
      match read_number min_val max_val line with
      | NumValueError =>
          io_print ["Invalid input. Please enter a number."%string]
                   (validate_numeric_input min_val max_val rest)
      | NumOutOfRange =>
          io_print [range_msg min_val max_val] (validate_numeric_input min_val max_val rest)
      | NumAccepted q => Some (IO q rest [])
      end
  end.

(** Line 119: [int(validate_numeric_input(...))]. *)
Definition get_pulse_rate (inp : list string) : option (io Z) :=
  io_map py_int (validate_numeric_input PULSE_RATE_MIN PULSE_RATE_MAX inp).

(** Line 123. *)
Definition get_weight (inp : list string) : option (io Q) :=
  validate_numeric_input WEIGHT_MIN WEIGHT_MAX inp.

(** Line 127. *)
Definition get_temp (inp : list string) : option (io Q) :=
  validate_numeric_input TEMP_MIN TEMP_MAX inp.

Definition num_accepted (r : num_reading) : bool :=
  match r with NumAccepted _ => true | _ => false end.

(** The complaints printed for refused lines. *)
Definition num_retry_msgs (min_val max_val : Z) (pre : list string) : list string :=
  map (fun l => match read_number min_val max_val l with
                | NumValueError => "Invalid input. Please enter a number."%string
                | _ => range_msg min_val max_val
                end) pre.
(** ** Lemmas *)

Lemma read_number_range mn mx line q :
  read_number mn mx line = NumAccepted q -> (inject_Z mn <= q <= inject_Z mx)%Q.
Proof.
  unfold read_number. destruct (float_of_string line) as [[q'| | |]|]; try discriminate.
  cbn. destruct (Qle_bool _ q' && Qle_bool q' _) eqn:E; [|discriminate].
  intros H. inversion H; subst. apply andb_true_iff in E as [E1 E2].
  split; apply Qle_bool_iff; assumption.
Qed.

Lemma py_int_bounds q lo hi :
  0 <= lo -> (inject_Z lo <= q <= inject_Z hi)%Q -> lo <= py_int q <= hi.
Proof.
  intros Hlo [H1 H2]. unfold py_int.
  assert (H0 : Qle_bool 0 q = true).
  { apply Qle_bool_iff. apply Qle_trans with (inject_Z lo); [|exact H1].
    change 0%Q with (inject_Z 0). rewrite <- Zle_Qle. exact Hlo. }
  rewrite H0. pose proof (Qfloor_resp_le _ _ H1). pose proof (Qfloor_resp_le _ _ H2).
  rewrite Qfloor_Z in *. lia.
Qed.

(** ** The prompting loop *)

(** The loop returns the first acceptable line, after one complaint per
    refused line before it. *)
Theorem validate_first_accepted mn mx pre line post q :
  Forall (fun l => num_accepted (read_number mn mx l) = false) pre ->
  read_number mn mx line = NumAccepted q ->
  validate_numeric_input mn mx (pre ++ line :: post) = Some (IO q post (num_retry_msgs mn mx pre)).
Proof.
  intros Hpre Hline. induction Hpre as [|l pre Hl Hpre IH]; cbn.
  - rewrite Hline. reflexivity.
  - destruct (read_number mn mx l); try discriminate; rewrite IH; reflexivity.
Qed.

(** Without an acceptable line the loop reads to the end of the input. *)
Theorem validate_no_accepted mn mx inp :
  Forall (fun l => num_accepted (read_number mn mx l) = false) inp ->
  validate_numeric_input mn mx inp = None.
Proof.
  induction 1 as [|l inp Hl Hinp IH]; cbn; [reflexivity|].
  destruct (read_number mn mx l); try discriminate; rewrite IH; reflexivity.
Qed.

(** The value returned passes the test of line 109: it is finite and
    between the bounds. *)
Lemma validate_in_range mn mx inp r :
  validate_numeric_input mn mx inp = Some r ->
  (inject_Z mn <= io_val r <= inject_Z mx)%Q.
Proof.
  revert r. induction inp as [|l inp IH]; intros r; cbn; [discriminate|].
  destruct (read_number mn mx l) as [| |q] eqn:E.
  1,2: destruct (validate_numeric_input mn mx inp) as [[v rest out]|] eqn:G; cbn; [|discriminate];
       intros H; inversion H; subst; exact (IH _ eq_refl).
  intros H. inversion H; subst. exact (read_number_range _ _ _ _ E).
Qed.

Lemma get_pulse_rate_range inp r :
  get_pulse_rate inp = Some r -> PULSE_RATE_MIN <= io_val r <= PULSE_RATE_MAX.
Proof.
  unfold get_pulse_rate. destruct (validate_numeric_input _ _ inp) as [[v rest out]|] eqn:G;
    cbn; [|discriminate].
  intros H. inversion H; subst. cbn.
  apply py_int_bounds; [unfold PULSE_RATE_MIN; lia|]. exact (validate_in_range _ _ _ _ G).
Qed.

(** C19. The three numeric prompts return values inside their bounds: the
    pulse rate an integer in 45..250, the weight in 50..500 and the
    temperature in 90..115. *)
Theorem numeric_prompt_bounds inp :
  (forall r, get_pulse_rate inp = Some r -> PULSE_RATE_MIN <= io_val r <= PULSE_RATE_MAX)
  /\ (forall r, get_weight inp = Some r -> (inject_Z WEIGHT_MIN <= io_val r <= inject_Z WEIGHT_MAX)%Q)
  /\ (forall r, get_temp inp = Some r -> (inject_Z TEMP_MIN <= io_val r <= inject_Z TEMP_MAX)%Q).
Proof.
  split; [apply get_pulse_rate_range|split; intros r; apply validate_in_range].
Qed.

(** C18. A weight typed as a whole number of pounds in range is returned as
    exactly that number. *)
Theorem get_weight_integer n rest :
  WEIGHT_MIN <= n <= WEIGHT_MAX ->
  get_weight (string_of_list_ascii (py_str_nat n) :: rest) = Some (IO (inject_Z n) rest []).
Proof.
  intros Hn. unfold WEIGHT_MIN, WEIGHT_MAX in Hn. unfold get_weight. cbn [validate_numeric_input].
  destruct (py_str_nat_spec n ltac:(lia)) as [Hnum Hval].
  unfold read_number. rewrite float_of_string_digits by (exact Hnum || (rewrite Hval; lia)).
  rewrite Hval. cbn [in_range]. unfold WEIGHT_MIN, WEIGHT_MAX.
  replace (Qle_bool (inject_Z 50) (inject_Z n)) with true
    by (symmetry; apply Qle_bool_iff; rewrite <- Zle_Qle; lia).
  replace (Qle_bool (inject_Z n) (inject_Z 500)) with true
    by (symmetry; apply Qle_bool_iff; rewrite <- Zle_Qle; lia).
  reflexivity.
Qed.

Lemma validate_no_accepted_witness : validate_numeric_input 45 250 ["inf"; "-70"; "seventy"]%string = None.
Proof. apply validate_no_accepted. repeat constructor. Defined.

Lemma validate_first_accepted_witness :
  validate_numeric_input 45 250 (["300"; "abc"]%string ++ "72"%string :: ["x"%string])
  = Some (IO (72 # 1)%Q ["x"%string] (num_retry_msgs 45 250 ["300"; "abc"]%string)).
Proof.
  apply (validate_first_accepted 45 250 ["300"; "abc"]%string "72"%string ["x"%string] (72 # 1)%Q).
  - repeat constructor.
  - vm_compute. reflexivity.
Defined.

Lemma numeric_prompt_bounds_witness :
  (45 <= io_val (IO 72 [] ["Please enter a value between 45 and 250."%string]) <= 250)
  /\ (inject_Z 50 <= io_val (IO (361 # 2) [] ["Please enter a value between 50 and 500."%string])
      <= inject_Z 500)%Q.
Proof.
  destruct (numeric_prompt_bounds ["300"; "72.9"]%string) as [Hp _].
  destruct (numeric_prompt_bounds ["600"; "180.5"]%string) as [_ [Hw _]].
  split; [apply Hp|apply Hw]; vm_compute; reflexivity.
Defined.

Lemma get_weight_integer_witness :
  get_weight (string_of_list_ascii (py_str_nat 180) :: ["next"%string]) = Some (IO (inject_Z 180) ["next"%string] []).
Proof. apply get_weight_integer. unfold WEIGHT_MIN, WEIGHT_MAX. lia. Defined.
End NumericInput.
