(* ===== verification/Store.v ===== *)
(** * Store: the CSV record store of [src/main.py]

    [csv_source.get_data] (lines 32-48) reads [vitals.csv] with the dtypes
    of [DATA_DICT] and [parse_dates=["date"]], or creates the file with the
    header only; [add_or_update_record] (lines 114-151) loads the table,
    overwrites the rows whose date equals the date entered or appends a
    row, and rewrites the whole file, reporting a [PermissionError]
    instead of raising it.

    A line of the file is a [rec string] (the date as the text [to_csv]
    wrote), a row of the loaded [DataFrame] a [rec dcell]: its date is a
    cell of the column [parse_dates] produced ([PandasDates]), a
    [Timestamp] when the whole column converts and the text otherwise.
    The table keeps its rows in file order, so a table with two rows for
    one day is representable, as it is in the program.  Reading applies
    what [read_csv] does with [DATA_DICT]: the integer [weight] column
    refuses a fractional value ([ValueError]), and the [notes] column reads
    the empty field and pandas' default missing-value markers as missing.

    The membership test of line 134 compares the text entered with the
    cells ([cell_is]): never equal to a [Timestamp].  So on a file whose
    dates convert, which is every file of [get_date] texts, the update
    path is not taken and the row is appended; the write then turns the
    old dates into [str(Timestamp)] texts, after which the column no
    longer converts. *)

From S2P Require Import Prelude Dates PandasDates Numeric.
From stdpp Require Import base list strings.
From Stdlib Require Import QArith Qround.

Module Table.
Import Calendar Timestamps.
Local Open Scope Z_scope.

(** One line of [vitals.csv] or row of the loaded table: [COLUMN_NAMES] of
    line 19, the [date] column of type [D].  [notes] is [None] for a
    missing value (pandas' [NaN]/[<NA>]). *)
Record rec (D : Type) := mkrow {
  date : D;
  bp_sys : Z;
  bp_dia : Z;
  pulse_rate : Z;
  weight : Q;
  temp : Q;
  notes : option string
}.
Arguments mkrow {D} _ _ _ _ _ _ _.
Arguments date {D} _.
Arguments bp_sys {D} _.
Arguments bp_dia {D} _.
Arguments pulse_rate {D} _.
Arguments weight {D} _.
Arguments temp {D} _.
Arguments notes {D} _.

(** A line of the file, and a row of the loaded [DataFrame]. *)
Abbreviation row := (rec string).
Abbreviation lrow := (rec dcell).

(** The five vitals of a row. *)
Definition vals {D} (r : rec D) : Z * Z * Z * Q * Q :=
  (bp_sys r, bp_dia r, pulse_rate r, weight r, temp r).

(** pandas' default [na_values]: the texts [read_csv] reads as missing. *)
Definition NA_VALUES : list string :=
  [""; "#N/A"; "#N/A N/A"; "#NA"; "-1.#IND"; "-1.#QNAN"; "-NaN"; "-nan";
   "1.#IND"; "1.#QNAN"; "<NA>"; "N/A"; "NA"; "NULL"; "NaN"; "None"; "n/a";
   "nan"; "null"]%string.

(** A [notes] cell written by [to_csv] (a missing value as the empty
    field) and read back with dtype ["string"]. *)
Definition csv_notes (n : option string) : option string :=
  match n with
  | Some s => if existsb (String.eqb s) NA_VALUES then None else Some s
  | None => None
  end.

(** A number is an integer. *)
Definition Q_is_int (q : Q) : bool := Qeq_bool (inject_Z (Qfloor q)) q.

(** Reading one written line back with [DATA_DICT], [c] its cell of the
    converted [date] column: [None] is the [ValueError] ("cannot safely
    convert passed user dtype of int64 for float64 dtyped data") of a
    fractional value in the [int] column [weight]. *)
Definition read_row (c : dcell) (r : row) : option lrow :=
  if Q_is_int (weight r)
  then Some {| date := c; bp_sys := bp_sys r; bp_dia := bp_dia r;
               pulse_rate := pulse_rate r; weight := weight r; temp := temp r;
               notes := csv_notes (notes r) |}
  else None.

Fixpoint read_rows (cs : list dcell) (rows : list row) : option (list lrow) :=
  match cs, rows with
  | c :: cs', r :: rs =>
      match read_row c r, read_rows cs' rs with
      | Some r', Some rs' => Some (r' :: rs')
      | _, _ => None
      end
  | _, _ => Some []
  end.

(** [pd.read_csv(FILE_NAME, dtype=DATA_DICT, parse_dates=["date"])] of a
    written file. *)
Definition read_csv (rows : list row) : option (list lrow) :=
  read_rows (parse_date_column (map date rows)) rows.

(** The rows [read_csv] returns when every weight is an integer. *)
Fixpoint norm_rows (cs : list dcell) (rows : list row) : list lrow :=
  match cs, rows with
  | c :: cs', r :: rs =>
      {| date := c; bp_sys := bp_sys r; bp_dia := bp_dia r; pulse_rate := pulse_rate r;
         weight := weight r; temp := temp r; notes := csv_notes (notes r) |} :: norm_rows cs' rs
  | _, _ => []
  end.

(** [to_csv] of a row of the table. *)
Definition write_row (r : lrow) : row :=
  {| date := write_cell (date r); bp_sys := bp_sys r; bp_dia := bp_dia r; pulse_rate := pulse_rate r;
     weight := weight r; temp := temp r; notes := notes r |}.

Definition all_int_weights {D} (rows : list (rec D)) : Prop :=
  Forall (fun r => Q_is_int (weight r) = true) rows.

Lemma read_rows_spec cs rows t :
  List.length cs = List.length rows ->
  read_rows cs rows = Some t <-> all_int_weights rows /\ t = norm_rows cs rows.
Proof.
  unfold all_int_weights. revert cs t.
  induction rows as [|r rows IH]; intros [|c cs] t L; cbn in L |- *; try discriminate.
  - split; [intros H; inversion H; subst; auto | intros [_ ->]; reflexivity].
  - unfold read_row. injection L as L.
    destruct (Q_is_int (weight r)) eqn:E; destruct (read_rows cs rows) as [t'|] eqn:Er.
    + split.
      * intros H; inversion H; subst. destruct (proj1 (IH cs t' L) Er) as [Hf ->].
        split; [constructor; auto|reflexivity].
      * intros [Hf ->]. inversion Hf; subst. destruct (proj1 (IH cs t' L) Er) as [_ ->].
        reflexivity.
    + split; [discriminate|]. intros [Hf _]. inversion Hf; subst.
      assert (Hc : read_rows cs rows = Some (norm_rows cs rows)) by (apply (IH cs _ L); auto).
      congruence.
    + split; [discriminate|]. intros [Hf _]. inversion Hf; congruence.
    + split; [discriminate|]. intros [Hf _]. inversion Hf; congruence.
Qed.

Lemma read_csv_spec rows t :
  read_csv rows = Some t
  <-> all_int_weights rows /\ t = norm_rows (parse_date_column (map date rows)) rows.
Proof.
  apply read_rows_spec. rewrite parse_date_column_length, length_map. reflexivity.
Qed.

Lemma Q_is_int_Z z : Q_is_int (inject_Z z) = true.
Proof. unfold Q_is_int. rewrite Qfloor_Z. apply Qeq_bool_refl. Qed.

Lemma norm_rows_dates cs rows :
  List.length cs = List.length rows -> map date (norm_rows cs rows) = cs.
Proof.
  revert cs. induction rows as [|r rows IH]; intros [|c cs] L; try discriminate; [reflexivity|].
  cbn. rewrite IH by (cbn in L; lia). reflexivity.
Qed.

Lemma norm_rows_vals cs rows :
  List.length cs = List.length rows -> map vals (norm_rows cs rows) = map vals rows.
Proof.
  revert cs. induction rows as [|r rows IH]; intros [|c cs] L; try discriminate; [reflexivity|].
  cbn. rewrite IH by (cbn in L; lia). reflexivity.
Qed.

Lemma norm_rows_int cs rows : all_int_weights rows -> all_int_weights (norm_rows cs rows).
Proof.
  unfold all_int_weights. revert cs. induction rows as [|r rows IH]; intros [|c cs] H; cbn; try constructor.
  - inversion H; assumption.
  - apply IH. inversion H; assumption.
Qed.

Lemma map_vals_write (df : list lrow) : map vals (map write_row df) = map vals df.
Proof. rewrite map_map. reflexivity. Qed.

Lemma map_date_write (df : list lrow) : map date (map write_row df) = map write_cell (map date df).
Proof. rewrite !map_map. reflexivity. Qed.

End Table.

Module CsvSource.
Import Calendar Strptime Timestamps Table PyFloat.

(** The file [vitals.csv]: absent, or the lines [to_csv] last wrote; and
    whether the process may write it. *)
Record fs := mkfs { vitals_csv : option (list row); writable : bool }.

(** The exceptions that escape: the [ValueError] of [read_csv] on a
    fractional weight, and the [PermissionError] of line 46, which is not
    caught (only the write of line 148 is). *)
Inductive store_error := IntCastError | CreatePermissionError.

Inductive outcome (A : Type) := Done (a : A) | Raised (e : store_error).
Arguments Done {A} _.
Arguments Raised {A} _.

(** [csv_source.get_data()]: the table and the lines printed. *)
Definition get_data (f : fs) : outcome (fs * list lrow * list string) :=
  match vitals_csv f with
  | Some rows =>
      match read_csv rows with
      | Some df => Done (f, df, [])
      | None => Raised IntCastError
      end
  | None =>
      if writable f then Done (mkfs (Some []) true, [], ["Created new file"%string])
      else Raised CreatePermissionError
  end.

(** Line 136: the assignment to the rows [df['date'] == date]. *)
Definition update_row (d : string) (sys_bp dia_bp pr : Z) (w t : Q) (n : string) (r : lrow) : lrow :=
  if cell_is d (date r)
  then {| date := date r; bp_sys := sys_bp; bp_dia := dia_bp; pulse_rate := pr;
          weight := inject_Z (py_int w); temp := t; notes := Some n |}
  else r.

(** Lines 141-145: the appended record, its date the text entered. *)
Definition new_record (d : string) (sys_bp dia_bp pr : Z) (w t : Q) (n : string) : lrow :=
  {| date := DText d; bp_sys := sys_bp; bp_dia := dia_bp; pulse_rate := pr;
     weight := w; temp := t; notes := Some n |}.

(** Line 134, [date in df['date'].values]. *)
Definition has_date (d : string) (df : list lrow) : bool :=
  existsb (fun r => cell_is d (date r)) df.

(** Lines 134-146 on the loaded table: overwrite the rows of date [d],
    or append a new record. *)
Definition upsert_table (d : string) (sys_bp dia_bp pr : Z) (w t : Q) (n : string) (df : list lrow)
  : list lrow :=
  if has_date d df
  then map (update_row d sys_bp dia_bp pr w t n) df
  else df ++ [new_record d sys_bp dia_bp pr w t n].

(** Line 138. *)
Definition upsert_msg (d : string) (df : list lrow) : list string :=
  if has_date d df then [("Updated existing record for " ++ d)%string] else [].

(** [add_or_update_record(date, sys_bp, dia_bp, pulse_rate, weight, temp,
    notes)]: the new file state and the lines printed; the write of line
    148 fails when the file is not writable. *)
Definition add_or_update_record (f : fs) (d : string) (sys_bp dia_bp pr : Z) (w t : Q) (n : string)
  : outcome (fs * list string) :=
  match get_data f with
  | Raised e => Raised e
  | Done (f1, df, out) =>
      let df' := upsert_table d sys_bp dia_bp pr w t n df in
      if writable f1
      then Done (mkfs (Some (map write_row df')) true,
                 out ++ upsert_msg d df ++ [("Added new record for " ++ d)%string])
      else Done (f1, out ++ upsert_msg d df ++ ["Unable to write to file"%string])
  end.

(** The file states the program can leave, starting from no file: a load
    (which may create the file), an upsert, or a change of permission
    from outside. *)
Inductive reachable : fs -> Prop :=
| reach_start w : reachable (mkfs None w)
| reach_load f f' df out : reachable f -> get_data f = Done (f', df, out) -> reachable f'
| reach_upsert f d s di p w t n f' out :
    reachable f -> add_or_update_record f d s di p w t n = Done (f', out) -> reachable f'
| reach_chmod f w : reachable f -> reachable (mkfs (vitals_csv f) w).

(** ** Loading *)

(** What a load returns: the file's lines read back (the file is left as
    it is), or the empty table of a new file. *)
Lemma get_data_spec f f1 df out :
  get_data f = Done (f1, df, out) ->
  writable f1 = writable f
  /\ ((exists rows, vitals_csv f = Some rows /\ f1 = f /\ out = [] /\ all_int_weights rows
        /\ df = norm_rows (parse_date_column (map date rows)) rows)
      \/ (vitals_csv f = None /\ f1 = mkfs (Some []) true /\ df = [] /\ out = ["Created new file"%string])).
Proof.
  unfold get_data. destruct (vitals_csv f) as [rows|] eqn:V.
  - destruct (read_csv rows) as [t|] eqn:E; intros H; inversion H; subst.
    apply read_csv_spec in E as [Hint ->]. split; [reflexivity|]. left. eauto 6.
  - destruct (writable f) eqn:W; [|discriminate]. intros H; inversion H; subst.
    split; [cbn; congruence|]. right. auto.
Qed.

(** The vitals of the loaded rows are those of the file's lines. *)
Lemma get_data_vals f f1 df out :
  get_data f = Done (f1, df, out) ->
  map vals df = match vitals_csv f with Some rows => map vals rows | None => [] end.
Proof.
  intros G. destruct (get_data_spec f f1 df out G) as [_ [(rows & V & _ & _ & _ & ->)|(V & _ & -> & _)]];
    rewrite V; [|reflexivity].
  apply norm_rows_vals. rewrite parse_date_column_length, length_map. reflexivity.
Qed.

Lemma get_data_int f f1 df out : get_data f = Done (f1, df, out) -> all_int_weights df.
Proof.
  intros G. destruct (get_data_spec f f1 df out G) as [_ [(rows & _ & _ & _ & Hint & ->)|(_ & _ & -> & _)]].
  - apply norm_rows_int, Hint.
  - constructor.
Qed.

(** Loading again the file a load left gives the same table and prints
    nothing. *)
Lemma get_data_again f f0 df out : get_data f = Done (f0, df, out) -> get_data f0 = Done (f0, df, []).
Proof.
  unfold get_data. destruct (vitals_csv f) as [rows|] eqn:V.
  - destruct (read_csv rows) eqn:R; intros H; inversion H; subst. rewrite V, R. reflexivity.
  - destruct (writable f); intros H; inversion H; subst. reflexivity.
Qed.

(** A file of [get_date] texts of dates a [Timestamp] can hold loads as a
    [datetime64] column. *)
Lemma get_data_stamps f rows :
  vitals_csv f = Some rows -> all_int_weights rows -> Forall (fun r => mdY_in_bounds (date r)) rows ->
  exists ds, map date rows = map strftime_mdY ds
    /\ Forall (fun dt => valid_date dt = true /\ ts_in_bounds dt = true) ds
    /\ get_data f = Done (f, norm_rows (map DStamp ds) rows, []).
Proof.
  intros V Hint Hd. rewrite <- Forall_map in Hd.
  destruct (mdY_column_parses _ Hd) as (ds & E & Hds & F). exists ds. split; [exact Hds|]. split; [exact F|].
  unfold get_data. rewrite V.
  rewrite (proj2 (read_csv_spec rows _) (conj Hint eq_refl)), E. reflexivity.
Qed.

(** Line 134 never holds on a [datetime64] column. *)
Lemma has_date_stamps d (df : list lrow) : Forall (fun r => is_stamp (date r) = true) df -> has_date d df = false.
Proof.
  unfold has_date. induction 1 as [|r df Hr _ IH]; [reflexivity|]. cbn.
  destruct (date r); [discriminate|]. exact IH.
Qed.

Lemma norm_rows_stamps ds rows :
  Forall (fun r => is_stamp (date r) = true) (norm_rows (map DStamp ds) rows).
Proof.
  revert rows. induction ds as [|dt ds IH]; intros [|r rows]; cbn; constructor; [reflexivity|apply IH].
Qed.

(** ** Writing *)

(** The file after a successful write is the upserted table. *)
Lemma add_or_update_record_write f f1 df out d s di p w t n :
  get_data f = Done (f1, df, out) -> writable f = true ->
  add_or_update_record f d s di p w t n
  = Done (mkfs (Some (map write_row (upsert_table d s di p w t n df))) true,
          out ++ upsert_msg d df ++ [("Added new record for " ++ d)%string]).
Proof.
  intros G W. destruct (get_data_spec f f1 df out G) as [W1 _].
  unfold add_or_update_record. rewrite G, W1, W. reflexivity.
Qed.

(** C15. [get_data] creates the file when it is absent and writable, and a
    second load is idempotent: it returns the same table, leaves the file
    as it is and prints nothing. *)
Theorem get_data_idempotent f f0 df out :
  get_data f = Done (f0, df, out) ->
  get_data f0 = Done (f0, df, [])
  /\ (vitals_csv f = None -> f0 = mkfs (Some []) true /\ df = [] /\ out = ["Created new file"%string])
  /\ (vitals_csv f <> None -> f0 = f /\ out = []).
Proof.
  intros G. split; [exact (get_data_again f f0 df out G)|].
  unfold get_data in G. destruct (vitals_csv f) as [rows|] eqn:V.
  - destruct (read_csv rows); inversion G; subst. split; [discriminate|auto].
  - destruct (writable f); inversion G; subst. split; [auto|congruence].
Qed.

(** C7. A fractional weight appended for a new date is written as such, and
    from then on [get_data] raises [ValueError]: the [weight] column of
    [DATA_DICT] is an integer column. *)
Theorem append_fractional_weight_unreadable f f1 df out0 d s di p w t n :
  get_data f = Done (f1, df, out0) -> writable f = true ->
  has_date d df = false -> Q_is_int w = false ->
  exists f' out, add_or_update_record f d s di p w t n = Done (f', out)
                 /\ get_data f' = Raised IntCastError.
Proof.
  intros G W Hd Hw. rewrite (add_or_update_record_write f f1 df out0 d s di p w t n G W).
  do 2 eexists. split; [reflexivity|]. unfold get_data. cbn [vitals_csv].
  destruct (read_csv _) as [tbl|] eqn:E; [|reflexivity].
  apply read_csv_spec in E as [Hint _]. unfold upsert_table in Hint. rewrite Hd in Hint.
  unfold all_int_weights in Hint. rewrite map_app, Forall_app in Hint. destruct Hint as [_ Hint].
  inversion Hint; subst. cbn in *. congruence.
Qed.

(** On a file of [get_date] texts of dates in range, an upsert appends. *)
Lemma append_on_stamps f rows d s di p w t n :
  vitals_csv f = Some rows -> writable f = true -> all_int_weights rows ->
  Forall (fun r => mdY_in_bounds (date r)) rows ->
  exists ds rows',
    map date rows = map strftime_mdY ds
    /\ Forall (fun dt => valid_date dt = true /\ ts_in_bounds dt = true) ds
    /\ add_or_update_record f d s di p w t n
       = Done (mkfs (Some rows') true, [("Added new record for " ++ d)%string])
    /\ map date rows' = map ts_str ds ++ [d]
    /\ map vals rows' = map vals rows ++ [(s, di, p, w, t)].
Proof.
  intros V W Hint Hd. destruct (get_data_stamps f rows V Hint Hd) as (ds & Hds & F & G).
  assert (L : List.length (map DStamp ds) = List.length rows).
  { rewrite length_map. rewrite <- (length_map strftime_mdY ds), <- Hds, length_map. reflexivity. }
  exists ds. eexists. split; [exact Hds|]. split; [exact F|].
  rewrite (add_or_update_record_write f f _ [] d s di p w t n G W).
  unfold upsert_msg, upsert_table. rewrite has_date_stamps by apply norm_rows_stamps.
  split; [reflexivity|]. split.
  - rewrite map_date_write, map_app, norm_rows_dates by exact L. rewrite map_app, !map_map. reflexivity.
  - rewrite map_vals_write, map_app, norm_rows_vals by exact L. reflexivity.
Qed.

(** C4. On a file of [get_date] texts of dates a [Timestamp] can hold, the
    test of line 134 is false whatever the date entered, even a date of
    the file: the record is appended (a second row for that day) and only
    "Added new record" is printed; the write turns every old date into the
    text [str(Timestamp)]. *)
Theorem normalized_file_appends f rows d s di p w t n :
  vitals_csv f = Some rows -> writable f = true -> all_int_weights rows ->
  Forall (fun r => mdY_in_bounds (date r)) rows ->
  exists ds rows',
    map date rows = map strftime_mdY ds
    /\ add_or_update_record f d s di p w t n
       = Done (mkfs (Some rows') true, [("Added new record for " ++ d)%string])
    /\ map date rows' = map ts_str ds ++ [d]
    /\ map vals rows' = map vals rows ++ [(s, di, p, w, t)].
Proof.
  intros V W Hint Hd.
  destruct (append_on_stamps f rows d s di p w t n V W Hint Hd) as (ds & rows' & H1 & _ & H2 & H3 & H4).
  exists ds, rows'. auto.
Qed.

(** ** Witnesses *)

Lemma get_data_idempotent_witness :
  get_data (mkfs (Some []) true) = Done (mkfs (Some []) true, [], [])
  /\ (vitals_csv (mkfs None true) = None ->
      mkfs (Some []) true = mkfs (Some []) true /\ @nil lrow = [] /\ ["Created new file"%string] = ["Created new file"%string])
  /\ (vitals_csv (mkfs None true) <> None -> mkfs (Some []) true = mkfs None true /\ ["Created new file"%string] = []).
Proof. apply (get_data_idempotent (mkfs None true)). reflexivity. Defined.

Lemma append_fractional_weight_unreadable_witness :
  exists f' out,
    add_or_update_record (mkfs None true) "01/05/2024" 120 80 70 (1801 # 10) (986 # 10) ""
    = Done (f', out) /\ get_data f' = Raised IntCastError.
Proof.
  apply (append_fractional_weight_unreadable (mkfs None true) (mkfs (Some []) true) []
           ["Created new file"]); reflexivity.
Defined.

Lemma normalized_file_appends_witness :
  exists ds rows',
    map date [mkrow "01/05/2024" 118 76 64 (inject_Z 181) (986 # 10) None]%string
      = map strftime_mdY ds
    /\ add_or_update_record (mkfs (Some [mkrow "01/05/2024" 118 76 64 (inject_Z 181) (986 # 10) None]) true)
         "01/05/2024" 120 80 70 (inject_Z 180) (981 # 10) ""
       = Done (mkfs (Some rows') true, [("Added new record for " ++ "01/05/2024")%string])
    /\ map date rows' = map ts_str ds ++ ["01/05/2024"%string]
    /\ map vals rows' = map vals [mkrow "01/05/2024" 118 76 64 (inject_Z 181) (986 # 10) None]%string
                        ++ [(120%Z, 80%Z, 70%Z, inject_Z 180, 981 # 10)].
Proof.
  apply normalized_file_appends; [reflexivity|reflexivity|repeat constructor|].
  repeat constructor. exists (mkdate 2024 1 5). vm_compute. auto.
Defined.
End CsvSource.
