(* ===== verification/Materializer.v ===== *)
(** * Materializer: the data pipeline of [csv_source.show_range]

    [show_range(begin_date, end_date)] ([src/main.py] lines 51-111) loads
    the table, parses the dates (line 65-67), keeps the rows inside the
    window (line 69), fills missing notes with [''] (line 70), resamples to
    one row per calendar day between the least and the greatest date kept,
    filling absent days with zeros (lines 76-77), marks every row whose
    five vitals are all zero as ["missing day"] (lines 84-87), copies the
    day into [date_index] (line 90) and prints the last ten rows (line 105).

    The pipeline is generic in the row type: the class [DatedRow] is what
    it reads of a row, and the loaded rows of the store
    ([Store.Table.lrow]) are an instance, whose date is line 65 on its cell
    ([Timestamps.cell_to_datetime]: a [Timestamp] is kept, a text is
    parsed with ["%m/%d/%Y"]).  A day is its ordinal ([Calendar.ymd2ord]);
    a pandas timestamp at midnight is determined by it.

    Module [ShowRange] composes the pipeline with [get_data].  Its theorem
    about the store shows the consequence of [Store]'s finding: once an
    entry has been added to a non-empty file of [get_date] texts, the
    column reads as text with a ["YYYY-MM-DD 00:00:00"] first cell, and
    every view raises at line 65. *)

From S2P Require Import Prelude Dates PandasDates Store.
From Stdlib Require Import QArith.

(** What the materializer reads of a row: its date as line 65
    ([pd.to_datetime(df["date"], format=DATE_FORMAT)]) converts it, [None]
    where that raises, and the six other columns. *)
Class DatedRow (R : Type) := {
  row_date : R -> option Calendar.date;
  row_bp_sys : R -> Z;
  row_bp_dia : R -> Z;
  row_pulse_rate : R -> Z;
  row_weight : R -> Q;
  row_temp : R -> Q;
  row_notes : R -> option string
}.

#[export] Instance table_row_dated : DatedRow Store.Table.lrow := {|
  row_date := fun r => Timestamps.cell_to_datetime (Store.Table.date r);
  row_bp_sys := Store.Table.bp_sys;
  row_bp_dia := Store.Table.bp_dia;
  row_pulse_rate := Store.Table.pulse_rate;
  row_weight := Store.Table.weight;
  row_temp := Store.Table.temp;
  row_notes := Store.Table.notes
|}.

Module Resample.
Import Calendar Strptime.
Local Open Scope Z_scope.

(** The [notes] cell of the resampled frame: a text, or the integer 0
    that [asfreq(fill_value = 0)] puts in a filled row. *)
Inductive note_cell := NoteText (s : string) | NoteFillZero.

(** One row of [filtered_df] after line 90. [date_col] is the [date]
    column kept by [set_index(..., drop = False)]: the row's date, or the
    fill value 0 of an added day. *)
Record slot := mkslot {
  date_index : Z;
  date_col : option date;
  s_bp_sys : Z;
  s_bp_dia : Z;
  s_pulse_rate : Z;
  s_weight : Q;
  s_temp : Q;
  s_notes : note_cell
}.

(** Why [show_range] raises: the [ValueError] of [pd.to_datetime] or
    [strptime] on a malformed date, and the [ValueError] "cannot reindex
    on an axis with duplicate labels" of [asfreq] when two kept rows
    share a day. *)
Inductive range_error := DateParseError | DuplicateDayError.

Section Pipeline.
Context {R : Type} `{DatedRow R}.

(** Line 65: every [date] cell converted, paired with its day. *)
Fixpoint parse_dates (t : list R) : option (list (Z * date * R)) :=
  match t with
  | [] => Some []
  | r :: rs =>
      match row_date r, parse_dates rs with
      | Some dt, Some ds => Some ((ymd2ord dt, dt, r) :: ds)
      | _, _ => None
      end
  end.

Definition day_of (x : Z * date * R) : Z := fst (fst x).

(** Line 69: [(df["date"] >= begin_date) & (df["date"] <= end_date)]. *)
Definition in_window (b e : Z) (x : Z * date * R) : bool := (b <=? day_of x) && (day_of x <=? e).

(** The least and greatest day of a non-empty index. *)
Definition list_min (k : Z) (ks : list Z) : Z := fold_left Z.min ks k.
Definition list_max (k : Z) (ks : list Z) : Z := fold_left Z.max ks k.

(** The calendar days [lo], [lo + 1], ..., [hi]. *)
Definition day_range (lo hi : Z) : list Z :=
  map (fun i => lo + Z.of_nat i) (seq 0 (Z.to_nat (hi - lo + 1))).

(** A kept row as a slot; line 70 turns a missing note into [''].*)
Definition slot_of_row (x : Z * date * R) : slot :=
  let '(k, dt, r) := x in
  {| date_index := k; date_col := Some dt;
     s_bp_sys := row_bp_sys r; s_bp_dia := row_bp_dia r; s_pulse_rate := row_pulse_rate r;
     s_weight := row_weight r; s_temp := row_temp r;
     s_notes := NoteText (match row_notes r with Some s => s | None => ""%string end) |}.

(** A day [asfreq(fill_value = 0)] adds. *)
Definition fill_slot (k : Z) : slot :=
  {| date_index := k; date_col := None; s_bp_sys := 0; s_bp_dia := 0; s_pulse_rate := 0;
     s_weight := 0%Q; s_temp := 0%Q; s_notes := NoteFillZero |}.

(** The row of day [k] after reindexing. *)
Definition slot_at (kept : list (Z * date * R)) (k : Z) : slot :=
  match find (fun x => day_of x =? k) kept with
  | Some x => slot_of_row x
  | None => fill_slot k
  end.

(** Two kept rows on one day. *)
Fixpoint has_dup (ks : list Z) : bool :=
  match ks with
  | [] => false
  | k :: ks' => existsb (Z.eqb k) ks' || has_dup ks'
  end.

(** Line 77: [resample('D').asfreq(fill_value = 0)] over the kept rows'
    own extent. *)
Definition resample_daily (kept : list (Z * date * R)) : option (list slot) :=
  match map day_of kept with
  | [] => Some []
  | k :: ks =>
      if has_dup (k :: ks) then None
      else Some (map (slot_at kept) (day_range (list_min k ks) (list_max k ks)))
  end.

(** Line 87: the five vitals all equal to zero. *)
Definition all_vitals_zero (s : slot) : bool :=
  (s_bp_sys s =? 0) && (s_bp_dia s =? 0) && (s_pulse_rate s =? 0)
  && Qeq_bool (s_weight s) 0 && Qeq_bool (s_temp s) 0.

Definition mark_missing (s : slot) : slot :=
  if all_vitals_zero s
  then {| date_index := date_index s; date_col := date_col s; s_bp_sys := s_bp_sys s;
          s_bp_dia := s_bp_dia s; s_pulse_rate := s_pulse_rate s; s_weight := s_weight s;
          s_temp := s_temp s; s_notes := NoteText "missing day" |}
  else s.

(** Lines 65-90 on a loaded table: [inr frame], or the error raised. *)
Definition materialize (t : list R) (begin_date end_date : string) : range_error + list slot :=
  match strptime_mdY begin_date, strptime_mdY end_date, parse_dates t with
  | Some b, Some e, Some dated =>
      match resample_daily (filter (in_window (ymd2ord b) (ymd2ord e)) dated) with
      | Some frame => inr (map mark_missing frame)
      | None => inl DuplicateDayError
      end
  | _, _, _ => inl DateParseError
  end.

(** What line 94-105 shows: nothing, or the last ten rows. *)
Inductive range_view := NoEntries | MostRecent (rows : list slot).

Definition view_of (frame : list slot) : range_view :=
  match frame with
  | [] => NoEntries
  | _ => MostRecent (skipn (List.length frame - 10) frame)
  end.

(** ** Lemmas *)

Lemma In_day_range k lo hi : In k (day_range lo hi) <-> lo <= k <= hi.
Proof.
  unfold day_range. rewrite in_map_iff. split.
  - intros (i & <- & Hi). apply in_seq in Hi. lia.
  - intros Hk. exists (Z.to_nat (k - lo)). split; [lia|]. apply in_seq. lia.
Qed.

Lemma day_range_length lo hi : lo <= hi -> Z.of_nat (List.length (day_range lo hi)) = hi - lo + 1.
Proof. intros Hle. unfold day_range. rewrite length_map, length_seq. lia. Qed.

Lemma fold_min_le (ks : list Z) k0 : fold_left Z.min ks k0 <= k0 /\ Forall (fun k => fold_left Z.min ks k0 <= k) ks.
Proof.
  revert k0. induction ks as [|k ks IH]; intros k0; cbn; [split; [lia|constructor]|].
  destruct (IH (Z.min k0 k)) as [H1 H2]. split; [lia|]. constructor; [lia|exact H2].
Qed.

Lemma fold_max_ge (ks : list Z) k0 : k0 <= fold_left Z.max ks k0 /\ Forall (fun k => k <= fold_left Z.max ks k0) ks.
Proof.
  revert k0. induction ks as [|k ks IH]; intros k0; cbn; [split; [lia|constructor]|].
  destruct (IH (Z.max k0 k)) as [H1 H2]. split; [lia|]. constructor; [lia|exact H2].
Qed.

Lemma fold_min_in (ks : list Z) k0 : In (fold_left Z.min ks k0) (k0 :: ks).
Proof.
  revert k0. induction ks as [|k ks IH]; intros k0; cbn; [left; reflexivity|].
  destruct (IH (Z.min k0 k)) as [E|E]; [|right; right; exact E].
  destruct (Z.min_spec k0 k) as [[_ M]|[_ M]]; [left|right; left]; rewrite <- E; symmetry; exact M.
Qed.

Lemma fold_max_in (ks : list Z) k0 : In (fold_left Z.max ks k0) (k0 :: ks).
Proof.
  revert k0. induction ks as [|k ks IH]; intros k0; cbn; [left; reflexivity|].
  destruct (IH (Z.max k0 k)) as [E|E]; [|right; right; exact E].
  destruct (Z.max_spec k0 k) as [[_ M]|[_ M]]; [right; left|left]; rewrite <- E; symmetry; exact M.
Qed.

(** The extent of a non-empty index: its least and greatest day belong to
    it and bound it. *)
Lemma extent_spec k ks :
  In (list_min k ks) (k :: ks) /\ In (list_max k ks) (k :: ks)
  /\ Forall (fun j => list_min k ks <= j <= list_max k ks) (k :: ks).
Proof.
  unfold list_min, list_max.
  destruct (fold_min_le ks k) as [M1 M2], (fold_max_ge ks k) as [X1 X2].
  split; [apply fold_min_in|]. split; [apply fold_max_in|].
  constructor; [lia|]. rewrite Forall_forall in *. intros j Hj. specialize (M2 j Hj). specialize (X2 j Hj). lia.
Qed.

Lemma has_dup_NoDup (ks : list Z) : has_dup ks = false <-> NoDup ks.
Proof.
  induction ks as [|k ks IH]; cbn; [split; [constructor|reflexivity]|].
  rewrite orb_false_iff, NoDup_cons_iff, <- IH. split.
  - intros [H1 H2]. split; [|exact H2]. intros Hin.
    assert (existsb (Z.eqb k) ks = true) by (apply existsb_exists; exists k; split; [exact Hin|apply Z.eqb_refl]).
    congruence.
  - intros [H1 H2]. split; [|exact H2]. apply not_true_iff_false. intros Hex.
    apply existsb_exists in Hex as (j & Hj & E). apply Z.eqb_eq in E. subst. contradiction.
Qed.

Lemma mark_missing_index s : date_index (mark_missing s) = date_index s.
Proof. unfold mark_missing. destruct (all_vitals_zero s); reflexivity. Qed.

Lemma slot_at_index kept k : date_index (slot_at kept k) = k.
Proof.
  unfold slot_at. destruct (find _ kept) as [x|] eqn:F; [|reflexivity].
  apply find_some in F as [_ F]. apply Z.eqb_eq in F. destruct x as [[k' dt] r]. exact F.
Qed.

(** With distinct days, the row of day [k] is the kept row of that day. *)
Lemma find_day_unique (kept : list (Z * date * R)) x :
  NoDup (map day_of kept) -> In x kept -> find (fun y => day_of y =? day_of x) kept = Some x.
Proof.
  induction kept as [|y kept IH]; [intros _ []|]. cbn. intros Hnd Hin.
  apply NoDup_cons_iff in Hnd as [Hy Hnd].
  destruct Hin as [<-|Hin]; [rewrite Z.eqb_refl; reflexivity|].
  destruct (Z.eqb_spec (day_of y) (day_of x)) as [E|E]; [|apply IH; assumption].
  exfalso. apply Hy. rewrite E. apply in_map. exact Hin.
Qed.

(** The frame [materialize] builds, by cases on the kept rows. *)
Lemma materialize_frame t bs es b e dated frame :
  strptime_mdY bs = Some b -> strptime_mdY es = Some e -> parse_dates t = Some dated ->
  materialize t bs es = inr frame ->
  (filter (in_window (ymd2ord b) (ymd2ord e)) dated = [] /\ frame = [])
  \/ (exists k ks,
        map day_of (filter (in_window (ymd2ord b) (ymd2ord e)) dated) = k :: ks
        /\ NoDup (k :: ks)
        /\ frame = map mark_missing (map (slot_at (filter (in_window (ymd2ord b) (ymd2ord e)) dated))
                                         (day_range (list_min k ks) (list_max k ks)))).
Proof.
  intros Hb He Hd. unfold materialize. rewrite Hb, He, Hd. unfold resample_daily.
  set (kept := filter _ dated).
  destruct (map day_of kept) as [|k ks] eqn:K.
  - intros Hf. inversion Hf; subst. left. split; [|reflexivity].
    destruct kept; [reflexivity|discriminate].
  - destruct (has_dup (k :: ks)) eqn:D; [discriminate|]. intros Hf. inversion Hf; subst.
    right. exists k, ks. split; [reflexivity|split; [apply has_dup_NoDup, D|reflexivity]].
Qed.

Lemma filter_nil_iff {A} (f : A -> bool) (l : list A) :
  filter f l = [] <-> Forall (fun x => f x = false) l.
Proof.
  induction l as [|x l IH]; cbn; [split; [constructor|reflexivity]|].
  destruct (f x) eqn:E; split; intros Hl.
  - discriminate.
  - inversion Hl; congruence.
  - constructor; [exact E|apply IH, Hl].
  - apply IH. inversion Hl; assumption.
Qed.

Lemma NoDup_map_filter {A B} (g : A -> B) (f : A -> bool) (l : list A) :
  NoDup (map g l) -> NoDup (map g (filter f l)).
Proof.
  induction l as [|x l IH]; cbn; [constructor|]. intros Hnd. apply NoDup_cons_iff in Hnd as [Hx Hnd].
  destruct (f x); cbn; [|apply IH, Hnd]. constructor; [|apply IH, Hnd].
  intros Hin. apply Hx. apply in_map_iff in Hin as (y & Ey & Hy). apply filter_In in Hy as [Hy _].
  rewrite <- Ey. apply in_map, Hy.
Qed.

Section WithWindow.
Variables (t : list R) (bs es : string) (b e : date) (dated : list (Z * date * R)).
Hypothesis Hb : strptime_mdY bs = Some b.
Hypothesis He : strptime_mdY es = Some e.
Hypothesis Hd : parse_dates t = Some dated.

(** The rows [show_range] keeps (line 69). *)
Let kept := filter (in_window (ymd2ord b) (ymd2ord e)) dated.

(** C12. The frame is empty exactly when no row falls in the window: an
    empty window does not produce a zero-filled range. *)
Theorem materialize_empty_iff frame :
  materialize t bs es = inr frame ->
  (frame = [] <-> Forall (fun x => in_window (ymd2ord b) (ymd2ord e) x = false) dated).
Proof.
  intros Hm. rewrite <- filter_nil_iff. fold kept.
  destruct (materialize_frame t bs es b e dated frame Hb He Hd Hm)
    as [[Hk ->]|(k & ks & Hk & _ & ->)]; fold kept in Hk |- *.
  - rewrite Hk. tauto.
  - destruct (extent_spec k ks) as (Hmin & _ & Hall). rewrite Forall_forall in Hall.
    pose proof (Hall _ Hmin).
    assert (Hr : In (list_min k ks) (day_range (list_min k ks) (list_max k ks)))
      by (apply In_day_range; lia).
    split; intros Hf.
    + destruct (day_range _ _); [destruct Hr|discriminate].
    + rewrite Hf in Hk. discriminate.
Qed.

(** C8. One slot per day from the least to the greatest kept day, in
    ascending order, all inside the requested window. *)
Theorem materialize_days frame k ks :
  materialize t bs es = inr frame -> map day_of kept = k :: ks ->
  map date_index frame = day_range (list_min k ks) (list_max k ks)
  /\ Z.of_nat (List.length frame) = list_max k ks - list_min k ks + 1
  /\ ymd2ord b <= list_min k ks /\ list_max k ks <= ymd2ord e.
Proof.
  intros Hm Hk.
  destruct (materialize_frame t bs es b e dated frame Hb He Hd Hm)
    as [[Hk' _]|(k' & ks' & Hk' & _ & ->)]; fold kept in Hk' |- *.
  { rewrite Hk' in Hk. discriminate. }
  rewrite Hk in Hk'. inversion Hk'; subst k' ks'. clear Hk'.
  destruct (extent_spec k ks) as (Hmin & Hmax & Hall). rewrite Forall_forall in Hall.
  pose proof (Hall _ Hmin) as Hlo.
  assert (Hw : forall j, In j (k :: ks) -> ymd2ord b <= j <= ymd2ord e).
  { intros j Hj. rewrite <- Hk in Hj. apply in_map_iff in Hj as (x & <- & Hx).
    apply filter_In in Hx as [_ Hx]. unfold in_window in Hx. zbool. lia. }
  rewrite !map_map. split; [|split; [|split]].
  - erewrite map_ext; [apply map_id|]. intros j. cbn. rewrite mark_missing_index. apply slot_at_index.
  - rewrite !length_map. apply day_range_length. lia.
  - apply (Hw _ Hmin).
  - apply (Hw _ Hmax).
Qed.

(** C9. Every row in the window is in the frame, with its own values (its
    notes become ["missing day"] when its five vitals are zero). *)
Theorem materialize_keeps_rows frame x :
  materialize t bs es = inr frame ->
  In x dated -> in_window (ymd2ord b) (ymd2ord e) x = true ->
  In (mark_missing (slot_of_row x)) frame.
Proof.
  intros Hm Hx Hw. assert (Hkx : In x kept) by (apply filter_In; auto).
  destruct (materialize_frame t bs es b e dated frame Hb He Hd Hm)
    as [[Hk _]|(k & ks & Hk & Hnd & ->)]; fold kept in Hk |- *.
  { rewrite Hk in Hkx. destruct Hkx. }
  apply in_map. replace (slot_of_row x) with (slot_at kept (day_of x)).
  - apply in_map, In_day_range. destruct (extent_spec k ks) as (_ & _ & Hall).
    rewrite Forall_forall in Hall. apply Hall. rewrite <- Hk. apply in_map, Hkx.
  - unfold slot_at. rewrite find_day_unique; [reflexivity| |exact Hkx]. rewrite Hk. exact Hnd.
Qed.

(** C10. A day of the frame on which no row of the window falls is a zero
    slot marked ["missing day"]. *)
Theorem materialize_fills_gaps frame j :
  materialize t bs es = inr frame -> In j (map date_index frame) ->
  (forall x, In x dated -> in_window (ymd2ord b) (ymd2ord e) x = true -> day_of x <> j) ->
  In {| date_index := j; date_col := None; s_bp_sys := 0; s_bp_dia := 0; s_pulse_rate := 0;
        s_weight := 0%Q; s_temp := 0%Q; s_notes := NoteText "missing day" |} frame.
Proof.
  intros Hm Hj Hnone.
  destruct (materialize_frame t bs es b e dated frame Hb He Hd Hm)
    as [[_ ->]|(k & ks & Hk & Hnd & ->)]; [destruct Hj|]. fold kept in Hk |- *.
  rewrite !map_map in Hj. apply in_map_iff in Hj as (j' & Ej & Hj').
  rewrite mark_missing_index, slot_at_index in Ej. subst j'.
  apply in_map_iff. exists (slot_at kept j). split; [|apply in_map, Hj'].
  unfold slot_at. destruct (find _ kept) as [x|] eqn:F; [|reflexivity].
  apply find_some in F as [Fx Fd]. apply filter_In in Fx as [Fx Fw]. apply Z.eqb_eq in Fd.
  exfalso. exact (Hnone x Fx Fw Fd).
Qed.

Lemma materialize_inr :
  NoDup (map day_of dated) -> exists frame, materialize t bs es = inr frame.
Proof.
  intros Hnd. unfold materialize. rewrite Hb, He, Hd. unfold resample_daily.
  pose proof (NoDup_map_filter day_of (in_window (ymd2ord b) (ymd2ord e)) dated Hnd) as Hk.
  destruct (map day_of (filter (in_window (ymd2ord b) (ymd2ord e)) dated)) as [|k ks];
    [eexists; reflexivity|].
  apply has_dup_NoDup in Hk. rewrite Hk. eexists. reflexivity.
Qed.

(** C11. Once the dates parse, [show_range] raises exactly when two rows of
    the window share a day: the [asfreq] of line 77 fails on a repeated
    label and on nothing else. *)
Theorem materialize_total :
  (exists frame, materialize t bs es = inr frame) <-> NoDup (map day_of kept).
Proof.
  unfold materialize. rewrite Hb, He, Hd. fold kept. unfold resample_daily.
  rewrite <- has_dup_NoDup.
  destruct (map day_of kept) as [|k ks]; [|destruct (has_dup (k :: ks))].
  - split; [reflexivity|eexists; reflexivity].
  - split; [intros [? H']|intros H']; discriminate.
  - split; [reflexivity|eexists; reflexivity].
Qed.
End WithWindow.

End Pipeline.

(** ** Witnesses: a three-day window with readings on its first and last
    day (the spec's example). *)

(** The parsed rows and the frame of a concrete table, computed. *)
Ltac computed_dated t :=
  let d := eval vm_compute in (parse_dates t) in
  match d with Some ?dl => constr:(dl) end.

Ltac computed_frame t bs es :=
  let r := eval vm_compute in (materialize t bs es) in
  match r with inr ?fr => constr:(fr) end.

Lemma materialize_days_witness :
  exists frame,
    materialize [Store.Table.mkrow (Timestamps.DStamp (mkdate 2024 1 3)) 118 76 64 (inject_Z 181) (986 # 10) None;
                 Store.Table.mkrow (Timestamps.DStamp (mkdate 2024 1 1)) 120 80 70 (inject_Z 180) (981 # 10) (Some "ok"%string)]
                "01/01/2024"%string "01/03/2024"%string = inr frame
    /\ map date_index frame = day_range 738886 738888
    /\ Z.of_nat (List.length frame) = 738888 - 738886 + 1
    /\ ymd2ord (mkdate 2024 1 1) <= 738886 /\ 738888 <= ymd2ord (mkdate 2024 1 3).
Proof.
  match goal with |- exists frame, materialize ?t ?bs ?es = _ /\ _ =>
    let dl := computed_dated t in let fr := computed_frame t bs es in
    exists fr; split; [vm_compute; reflexivity|];
    exact (materialize_days t bs es (mkdate 2024 1 1) (mkdate 2024 1 3) dl
             eq_refl eq_refl eq_refl fr 738888 [738886] eq_refl eq_refl)
  end.
Defined.

Lemma materialize_keeps_rows_witness :
  exists frame,
    materialize [Store.Table.mkrow (Timestamps.DStamp (mkdate 2024 1 3)) 0 0 0 0 0 (Some "x"%string);
                 Store.Table.mkrow (Timestamps.DStamp (mkdate 2024 1 1)) 120 80 70 (inject_Z 180) (981 # 10) None]
                "01/01/2024"%string "01/03/2024"%string = inr frame
    /\ In {| date_index := 738888; date_col := Some (mkdate 2024 1 3); s_bp_sys := 0; s_bp_dia := 0;
             s_pulse_rate := 0; s_weight := 0; s_temp := 0; s_notes := NoteText "missing day" |} frame.
Proof.
  match goal with |- exists frame, materialize ?t ?bs ?es = _ /\ _ =>
    let dl := computed_dated t in let fr := computed_frame t bs es in
    exists fr; split; [vm_compute; reflexivity|];
    exact (materialize_keeps_rows t bs es (mkdate 2024 1 1) (mkdate 2024 1 3) dl
             eq_refl eq_refl eq_refl fr (hd (0, mkdate 1 1 1, hd (Store.Table.mkrow (Timestamps.DText "") 0 0 0 0 0 None) t) dl)
             eq_refl (or_introl eq_refl) eq_refl)
  end.
Defined.

Lemma materialize_fills_gaps_witness :
  exists frame,
    materialize [Store.Table.mkrow (Timestamps.DStamp (mkdate 2024 1 3)) 118 76 64 (inject_Z 181) (986 # 10) None;
                 Store.Table.mkrow (Timestamps.DStamp (mkdate 2024 1 1)) 120 80 70 (inject_Z 180) (981 # 10) None]
                "01/01/2024"%string "01/03/2024"%string = inr frame
    /\ In 738887 (map date_index frame)
    /\ In {| date_index := 738887; date_col := None; s_bp_sys := 0; s_bp_dia := 0; s_pulse_rate := 0;
             s_weight := 0%Q; s_temp := 0%Q; s_notes := NoteText "missing day" |} frame.
Proof.
  match goal with |- exists frame, materialize ?t ?bs ?es = _ /\ _ =>
    let dl := computed_dated t in let fr := computed_frame t bs es in
    exists fr; split; [vm_compute; reflexivity|]; split; [vm_compute; right; left; reflexivity|];
    apply (materialize_fills_gaps t bs es (mkdate 2024 1 1) (mkdate 2024 1 3) dl ltac:(vm_compute; reflexivity) ltac:(vm_compute; reflexivity) ltac:(vm_compute; reflexivity) fr);
      [vm_compute; reflexivity|vm_compute; right; left; reflexivity|]
  end.
  intros x Hx _. vm_compute in Hx. destruct Hx as [<-|[<-|[]]]; vm_compute; congruence.
Defined.

Lemma materialize_empty_iff_witness :
  exists frame,
    materialize [Store.Table.mkrow (Timestamps.DStamp (mkdate 2024 1 3)) 118 76 64 (inject_Z 181) (986 # 10) None]
                "02/01/2024"%string "02/29/2024"%string = inr frame
    /\ frame = [].
Proof.
  match goal with |- exists frame, materialize ?t ?bs ?es = _ /\ _ =>
    let dl := computed_dated t in let fr := computed_frame t bs es in
    exists fr; split; [vm_compute; reflexivity|];
    exact (proj2 (materialize_empty_iff t bs es (mkdate 2024 2 1) (mkdate 2024 2 29) dl
                    ltac:(vm_compute; reflexivity) ltac:(vm_compute; reflexivity)
                    ltac:(vm_compute; reflexivity) fr ltac:(vm_compute; reflexivity))
                 ltac:(repeat constructor; vm_compute; reflexivity))
  end.
Defined.

Lemma materialize_total_witness :
  (exists frame,
    materialize [Store.Table.mkrow (Timestamps.DStamp (mkdate 2024 1 3)) 118 76 64 (inject_Z 181) (986 # 10) None;
                 Store.Table.mkrow (Timestamps.DStamp (mkdate 2024 1 1)) 120 80 70 (inject_Z 180) (981 # 10) None]
                "12/01/2023"%string "01/31/2024"%string = inr frame)
  <-> NoDup (map day_of (filter (in_window (ymd2ord (mkdate 2023 12 1)) (ymd2ord (mkdate 2024 1 31)))
        [(ymd2ord (mkdate 2024 1 3), mkdate 2024 1 3,
          Store.Table.mkrow (Timestamps.DStamp (mkdate 2024 1 3)) 118 76 64 (inject_Z 181) (986 # 10) None);
         (ymd2ord (mkdate 2024 1 1), mkdate 2024 1 1,
          Store.Table.mkrow (Timestamps.DStamp (mkdate 2024 1 1)) 120 80 70 (inject_Z 180) (981 # 10) None)])).
Proof.
  apply materialize_total; vm_compute; reflexivity.
Defined.
End Resample.

Module ShowRange.
Import Calendar Strptime Timestamps Store.Table Store.CsvSource Resample.

(** How [show_range] ends: an exception of the load, an exception of the
    pipeline, or the frame [filtered_df] of line 90, which lines 94-111
    show (its last ten rows, then the chart on request). *)
Inductive show_outcome := LoadRaised (e : store_error) | RangeRaised (e : range_error) | Shown (frame : list slot).

(** [csv_source.show_range(begin_date, end_date)] up to line 90: the
    file after [get_data] (which may create it), the lines [get_data]
    printed, and how it ends. *)
Definition show_range (f : fs) (bs es : string) : fs * list string * show_outcome :=
  match get_data f with
  | Raised err => (f, [], LoadRaised err)
  | Done (f1, df, out) =>
      match materialize df bs es with
      | inl err => (f1, out, RangeRaised err)
      | inr frame => (f1, out, Shown frame)
      end
  end.

(** Line 65 raises on a table whose first date does not convert. *)
Lemma materialize_first_unparsed (r : lrow) (t : list lrow) bs es :
  row_date r = None -> materialize (r :: t) bs es = inl DateParseError.
Proof.
  intros Hr. unfold materialize. cbn [parse_dates]. rewrite Hr.
  destruct (strptime_mdY bs), (strptime_mdY es); reflexivity.
Qed.

Lemma all_int_vals {D E} (l1 : list (rec D)) (l2 : list (rec E)) :
  map vals l1 = map vals l2 -> all_int_weights l1 -> all_int_weights l2.
Proof.
  unfold all_int_weights. revert l2. induction l1 as [|r1 l1 IH]; intros [|r2 l2] Hm H; try discriminate.
  - constructor.
  - cbn in Hm. unfold vals at 1 2 in Hm. injection Hm as _ _ _ Hw _ El.
    inversion H as [|? ? Hr Hl]; subst. constructor; [rewrite <- Hw; exact Hr|exact (IH l2 El Hl)].
Qed.

(** C5. Once a file of [get_date] texts holds a record, the next upsert
    makes it unviewable: the file still loads, but its date column now
    mixes [str(Timestamp)] texts with a [get_date] text, [parse_dates]
    leaves it as text, and [show_range] raises [ValueError] at line 65
    whatever the window asked for. *)
Theorem append_breaks_view f rows dt s di p wz t n f' out bs es :
  vitals_csv f = Some rows -> rows <> [] -> writable f = true -> all_int_weights rows ->
  Forall (fun r => mdY_in_bounds (date r)) rows -> valid_date dt = true ->
  add_or_update_record f (strftime_mdY dt) s di p (inject_Z wz) t n = Done (f', out) ->
  exists df, get_data f' = Done (f', df, []) /\ show_range f' bs es = (f', [], RangeRaised DateParseError).
Proof.
  intros V Hne W Hint Hd Hv A.
  destruct (append_on_stamps f rows (strftime_mdY dt) s di p (inject_Z wz) t n V W Hint Hd)
    as (ds & rows' & Hds & F & A' & Hdates & Hvals).
  rewrite A in A'. injection A' as -> _.
  destruct ds as [|d0 ds]; [destruct rows; [congruence|discriminate]|].
  inversion F as [|? ? [Hv0 _] _]; subst.
  assert (Hint' : all_int_weights rows').
  { apply (all_int_vals (rows ++ [mkrow (strftime_mdY dt) s di p (inject_Z wz) t None])).
    - rewrite Hvals, map_app. reflexivity.
    - apply Forall_app. split; [exact Hint|constructor; [apply Q_is_int_Z|constructor]]. }
  assert (Hcol : parse_date_column (map date rows') = map DText (map date rows')).
  { rewrite Hdates. cbn [map app]. apply mixed_column_text, Hv0. }
  assert (G : get_data (mkfs (Some rows') true)
              = Done (mkfs (Some rows') true, norm_rows (map DText (map date rows')) rows', [])).
  { unfold get_data. cbn [vitals_csv]. rewrite (proj2 (read_csv_spec rows' _) (conj Hint' eq_refl)), Hcol.
    reflexivity. }
  eexists. split; [exact G|]. unfold show_range. rewrite G.
  destruct rows' as [|r0 rows'']; [discriminate Hdates|].
  cbn [map] in Hdates |- *. injection Hdates as Hr0 _. cbn [norm_rows].
  rewrite materialize_first_unparsed; [reflexivity|].
  cbn [row_date table_row_dated Store.Table.date]. rewrite Hr0. apply cell_to_datetime_ts_str, Hv0.
Qed.

(** ** Witnesses *)

Lemma append_breaks_view_witness :
  exists f' out,
    add_or_update_record (mkfs (Some [mkrow "01/05/2024"%string 118 76 64 (inject_Z 181) (986 # 10) None]) true)
      (strftime_mdY (mkdate 2024 1 6)) 120 80 70 (inject_Z 180) (981 # 10) ""%string = Done (f', out)
    /\ exists df, get_data f' = Done (f', df, [])
       /\ show_range f' "01/01/2024"%string "01/31/2024"%string = (f', [], RangeRaised DateParseError).
Proof.
  match goal with |- exists f' out, add_or_update_record ?f ?d ?s ?di ?p ?w ?t ?n = _ /\ _ =>
    let g := eval vm_compute in (add_or_update_record f d s di p w t n) in
    match g with Done (?f', ?o) =>
      exists f', o; assert (A : add_or_update_record f d s di p w t n = Done (f', o)) by (vm_compute; reflexivity);
      split; [exact A|]
    end
  end.
  refine (append_breaks_view
            (mkfs (Some [mkrow "01/05/2024"%string 118 76 64 (inject_Z 181) (986 # 10) None]) true)
            [mkrow "01/05/2024"%string 118 76 64 (inject_Z 181) (986 # 10) None]
            (mkdate 2024 1 6) _ _ _ 180 _ _ _ _ _ _ eq_refl _ eq_refl _ _ eq_refl A).
  - discriminate.
  - repeat constructor.
  - repeat constructor. exists (mkdate 2024 1 5). vm_compute. auto.
Defined.

End ShowRange.
