(* ===== verification/Chart.v ===== *)
(** * Chart: [vitals_display] of [src/main.py] (lines 178-242)

    [vitals_display(df, begin_date, end_date)] builds a matplotlib figure
    of four panels sharing their x axis and shows it.  Every call of the
    function mutates the figure or one of its panels; the model threads a
    [figure] value through the calls in the order of the source, with the
    state matplotlib keeps for each of them:

    - [plt.subplots(4, figsize = (15, 8), sharex=True)]: four panels whose
      x axis shares one ticker (locator and formatter) and of which only
      the bottom one draws x tick labels;
    - [plot]: a [Line2D] appended to the panel, with the colour of the
      panel's property cycle when none is given (which advances the cycle)
      and the label [_child<n>] when none is given;
    - [Line2D.set_label], [Axes.legend()] (the labels of the panel's lines
      that do not start with an underscore, at the time of the call),
      [Axes.grid()] (which toggles the grid when called without argument);
    - [Figure.autofmt_xdate(rotation=45)]: the bottom panel's tick labels
      turned to 45 degrees, the other panels' tick labels hidden and their
      x label cleared.

    [plt.tight_layout()] and the [bottom] margin of [autofmt_xdate] only
    place the panels and are not modelled; [plt.show()] is the event
    [ShowChart] of the session. *)

From S2P Require Import Prelude Materializer.
From Stdlib Require Import QArith.

Module Figure.
Import Resample.
Local Open Scope Z_scope.
Local Open Scope string_scope.

(** The format string of [plot]: ['o'] draws markers only; without one
    the line is solid. *)
Inductive linestyle := Markers | Solid.

Record line2d := mkline {
  l_xs : list Z;
  l_ys : list Q;
  l_style : linestyle;
  l_color : string;
  l_label : string
}.

(** The ticker of the shared x axis. *)
Inductive locator := AutoDateLocator | DayLocator.
Inductive formatter := AutoDateFormatter | DateFormatter (fmt : string).

Record axes := mkaxes {
  ax_title : string;
  ax_xlabel : string;
  ax_ylabel : string;
  ax_lines : list line2d;
  ax_cycle : nat;
  ax_grid : bool;
  ax_legend : option (list string);
  ax_tick_rotation : Z;
  ax_ticklabels_visible : bool
}.

Record figure := mkfigure {
  fig_size : Z * Z;
  fig_axes : list axes;
  fig_locator : locator;
  fig_formatter : formatter
}.

(** A line is [(panel, position of the line in the panel)]. *)
Definition handle : Type := nat * nat.

(** ** The matplotlib calls *)

Definition new_axes (labels_visible : bool) : axes :=
  {| ax_title := ""; ax_xlabel := ""; ax_ylabel := ""; ax_lines := []; ax_cycle := 0;
     ax_grid := false; ax_legend := None; ax_tick_rotation := 0;
     ax_ticklabels_visible := labels_visible |}.

(** [plt.subplots(n, figsize = size, sharex=True)]: with a shared x axis
    only the last row keeps its tick labels. *)
Definition subplots (n : nat) (size : Z * Z) : figure :=
  {| fig_size := size;
     fig_axes := map (fun i => new_axes (Nat.eqb (S i) n)) (seq 0 n);
     fig_locator := AutoDateLocator; fig_formatter := AutoDateFormatter |}.

Fixpoint modify_nth {A} (i : nat) (f : A -> A) (l : list A) : list A :=
  match l, i with
  | [], _ => []
  | x :: l', O => f x :: l'
  | x :: l', S i' => x :: modify_nth i' f l'
  end.

Definition modify_ax (i : nat) (f : axes -> axes) (fig : figure) : figure :=
  {| fig_size := fig_size fig; fig_axes := modify_nth i f (fig_axes fig);
     fig_locator := fig_locator fig; fig_formatter := fig_formatter fig |}.

Definition with_title (s : string) (a : axes) : axes :=
  {| ax_title := s; ax_xlabel := ax_xlabel a; ax_ylabel := ax_ylabel a; ax_lines := ax_lines a;
     ax_cycle := ax_cycle a; ax_grid := ax_grid a; ax_legend := ax_legend a;
     ax_tick_rotation := ax_tick_rotation a; ax_ticklabels_visible := ax_ticklabels_visible a |}.

Definition with_xlabel (s : string) (a : axes) : axes :=
  {| ax_title := ax_title a; ax_xlabel := s; ax_ylabel := ax_ylabel a; ax_lines := ax_lines a;
     ax_cycle := ax_cycle a; ax_grid := ax_grid a; ax_legend := ax_legend a;
     ax_tick_rotation := ax_tick_rotation a; ax_ticklabels_visible := ax_ticklabels_visible a |}.

Definition with_ylabel (s : string) (a : axes) : axes :=
  {| ax_title := ax_title a; ax_xlabel := ax_xlabel a; ax_ylabel := s; ax_lines := ax_lines a;
     ax_cycle := ax_cycle a; ax_grid := ax_grid a; ax_legend := ax_legend a;
     ax_tick_rotation := ax_tick_rotation a; ax_ticklabels_visible := ax_ticklabels_visible a |}.

Definition with_lines (ls : list line2d) (cyc : nat) (a : axes) : axes :=
  {| ax_title := ax_title a; ax_xlabel := ax_xlabel a; ax_ylabel := ax_ylabel a; ax_lines := ls;
     ax_cycle := cyc; ax_grid := ax_grid a; ax_legend := ax_legend a;
     ax_tick_rotation := ax_tick_rotation a; ax_ticklabels_visible := ax_ticklabels_visible a |}.

Definition with_grid (g : bool) (a : axes) : axes :=
  {| ax_title := ax_title a; ax_xlabel := ax_xlabel a; ax_ylabel := ax_ylabel a; ax_lines := ax_lines a;
     ax_cycle := ax_cycle a; ax_grid := g; ax_legend := ax_legend a;
     ax_tick_rotation := ax_tick_rotation a; ax_ticklabels_visible := ax_ticklabels_visible a |}.

Definition with_legend (lg : option (list string)) (a : axes) : axes :=
  {| ax_title := ax_title a; ax_xlabel := ax_xlabel a; ax_ylabel := ax_ylabel a; ax_lines := ax_lines a;
     ax_cycle := ax_cycle a; ax_grid := ax_grid a; ax_legend := lg;
     ax_tick_rotation := ax_tick_rotation a; ax_ticklabels_visible := ax_ticklabels_visible a |}.

Definition with_ticks (rot : Z) (vis : bool) (a : axes) : axes :=
  {| ax_title := ax_title a; ax_xlabel := ax_xlabel a; ax_ylabel := ax_ylabel a; ax_lines := ax_lines a;
     ax_cycle := ax_cycle a; ax_grid := ax_grid a; ax_legend := ax_legend a;
     ax_tick_rotation := rot; ax_ticklabels_visible := vis |}.

(** [ax[i].set_title(s)], [set_xlabel], [set_ylabel]. *)
Definition set_title (i : nat) (s : string) := modify_ax i (with_title s).
Definition set_xlabel (i : nat) (s : string) := modify_ax i (with_xlabel s).
Definition set_ylabel (i : nat) (s : string) := modify_ax i (with_ylabel s).

(** [ax[i].xaxis.set_tick_params(rotation = r)]. *)
Definition set_tick_rotation (i : nat) (r : Z) :=
  modify_ax i (fun a => with_ticks r (ax_ticklabels_visible a) a).

(** [ax[i].xaxis.set_major_locator] / [set_major_formatter]: the ticker is
    shared by the four panels. *)
Definition set_major_locator (l : locator) (fig : figure) : figure :=
  {| fig_size := fig_size fig; fig_axes := fig_axes fig; fig_locator := l;
     fig_formatter := fig_formatter fig |}.

Definition set_major_formatter (fm : formatter) (fig : figure) : figure :=
  {| fig_size := fig_size fig; fig_axes := fig_axes fig; fig_locator := fig_locator fig;
     fig_formatter := fm |}.

(** The colours [C0] to [C9] of the default property cycle. *)
Definition cycle_color (n : nat) : string :=
  String "C" (string_of_list_ascii (py_str_nat (Z.of_nat (n mod 10)))).

Definition nth_ax (i : nat) (fig : figure) : axes := nth i (fig_axes fig) (new_axes true).

(** [ax[i].plot(xs, ys, fmt, label=..., color=...)]: the new line and
    its handle.  A missing colour is the next of the panel's cycle; a
    missing label is [_child<n>], [n] the panel's number of children. *)
Definition plot (i : nat) (xs : list Z) (ys : list Q) (st : linestyle)
  (color label : option string) (fig : figure) : figure * handle :=
  let a := nth_ax i fig in
  let n := List.length (ax_lines a) in
  let '(c, cyc) := match color with
                   | Some c => (c, ax_cycle a)
                   | None => (cycle_color (ax_cycle a), S (ax_cycle a))
                   end in
  let lb := match label with
            | Some s => s
            | None => String.append "_child" (string_of_list_ascii (py_str_nat (Z.of_nat n)))
            end in
  let l := {| l_xs := xs; l_ys := ys; l_style := st; l_color := c; l_label := lb |} in
  (modify_ax i (with_lines (ax_lines a ++ [l]) cyc) fig, (i, n)).

(** [ax_k.set_label(s)] on the line [h]. *)
Definition set_label (h : handle) (s : string) : figure -> figure :=
  modify_ax (fst h) (fun a =>
    with_lines (modify_nth (snd h)
                  (fun l => {| l_xs := l_xs l; l_ys := l_ys l; l_style := l_style l;
                               l_color := l_color l; l_label := s |}) (ax_lines a))
               (ax_cycle a) a).

(** [ax[i].grid()]: without arguments, toggles the grid. *)
Definition grid (i : nat) := modify_ax i (fun a => with_grid (negb (ax_grid a)) a).

(** A label the legend leaves out. *)
Definition hidden_label (s : string) : bool :=
  match s with String "_" _ => true | _ => false end.

(** [ax[i].legend()]: the labels of the panel's lines at the time of the
    call. *)
Definition legend (i : nat) :=
  modify_ax i (fun a => with_legend (Some (filter (fun s => negb (hidden_label s))
                                                  (map l_label (ax_lines a)))) a).

(** [fig.autofmt_xdate(rotation = r)] on a figure of several panels. *)
Definition autofmt_xdate (r : Z) (fig : figure) : figure :=
  let n := List.length (fig_axes fig) in
  {| fig_size := fig_size fig;
     fig_axes := map (fun '(i, a) =>
                        if Nat.eqb (S i) n then with_ticks r (ax_ticklabels_visible a) a
                        else with_xlabel "" (with_ticks (ax_tick_rotation a) false a))
                     (combine (seq 0 n) (fig_axes fig));
     fig_locator := fig_locator fig; fig_formatter := fig_formatter fig |}.

(** ** [vitals_display] *)

(** The columns of the frame as [plot] receives them. *)
Definition col_x (df : list slot) : list Z := map date_index df.
Definition col_Z (c : slot -> Z) (df : list slot) : list Q := map (fun s => inject_Z (c s)) df.
Definition col_Q (c : slot -> Q) (df : list slot) : list Q := map c df.

(** Lines 191-207: the four panels, their ticker, titles and labels. *)
Definition display_frame (begin_date end_date : string) : figure :=
  let fig := subplots 4 (15, 8) in
  let fig := set_major_locator DayLocator fig in
  let fig := set_major_formatter (DateFormatter "%m/%d") fig in
  let fig := set_tick_rotation 0 90 fig in
  let fig := set_title 0 ("Vital signs from " ++ begin_date ++ " to " ++ end_date ++ ".") fig in
  let fig := set_xlabel 3 "Date" fig in
  let fig := set_ylabel 0 "Pressure" fig in
  let fig := set_ylabel 1 "Weight lbs" fig in
  let fig := set_ylabel 2 "Temperature F." fig in
  let fig := set_ylabel 3 "Pulse Rate" fig in
  set_tick_rotation 3 90 fig.

(** Lines 210-222: the five series, drawn as markers for a single row and
    as lines otherwise; the five handles [ax1] ... [ax5]. *)
Definition plot_series (df : list slot) (fig : figure)
  : figure * (handle * handle * handle * handle * handle) :=
  let x := col_x df in
  if Nat.eqb (List.length df) 1 then
    let '(fig, ax1) := plot 0 x (col_Z s_bp_sys df) Markers (Some "blue") (Some "Systolic BP") fig in
    let '(fig, ax2) := plot 0 x (col_Z s_bp_dia df) Markers (Some "cyan") (Some "Diastolic BP") fig in
    let '(fig, ax3) := plot 1 x (col_Q s_weight df) Markers (Some "orange") (Some "Weight") fig in
    let '(fig, ax4) := plot 2 x (col_Q s_temp df) Markers (Some "green") (Some "Temperature") fig in
    let '(fig, ax5) := plot 3 x (col_Z s_pulse_rate df) Markers (Some "red") (Some "Pulse Rate") fig in
    (fig, (ax1, ax2, ax3, ax4, ax5))
  else
    let '(fig, ax1) := plot 0 x (col_Z s_bp_sys df) Solid None (Some "BP Systolic") fig in
    let '(fig, ax2) := plot 0 x (col_Z s_bp_dia df) Solid None (Some "BP Diastolic") fig in
    let '(fig, ax3) := plot 1 x (col_Q s_weight df) Solid None None fig in
    let '(fig, ax4) := plot 2 x (col_Q s_temp df) Solid (Some "green") None fig in
    let '(fig, ax5) := plot 3 x (col_Z s_pulse_rate df) Solid (Some "red") None fig in
    (fig, (ax1, ax2, ax3, ax4, ax5)).

(** [vitals_display(df, begin_date, end_date)]: lines 191-239; line 242
    shows the figure. *)
Definition vitals_display (df : list slot) (begin_date end_date : string) : figure :=
  let '(fig, (ax1, ax2, ax3, ax4, ax5)) := plot_series df (display_frame begin_date end_date) in
  let fig := grid 3 (grid 2 (grid 1 (grid 0 fig))) in
  let fig := set_label ax1 "Systolic" fig in
  let fig := set_label ax2 "Diastolic" fig in
  let fig := set_label ax3 "Weight" fig in
  let fig := set_label ax4 "Temperaure F" fig in
  let fig := set_label ax5 "Pulse rate" fig in
  let fig := legend 0 fig in
  autofmt_xdate 45 fig.

(** ** The contract of the presentation

    Spec 4.4: the chart consumes the ordered daily rows and draws four
    panels: blood pressure with two series, weight, temperature and
    pulse, against the days, labelled by day, a window of a single row as
    markers and any other as connected lines. *)

Definition series_of (l : line2d) : list Z * list Q := (l_xs l, l_ys l).

Definition presentation (df : list slot) (fig : figure) : Prop :=
  let st := if Nat.eqb (List.length df) 1 then Markers else Solid in
  map (fun a => map series_of (ax_lines a)) (fig_axes fig)
    = [[(col_x df, col_Z s_bp_sys df); (col_x df, col_Z s_bp_dia df)];
       [(col_x df, col_Q s_weight df)]; [(col_x df, col_Q s_temp df)];
       [(col_x df, col_Z s_pulse_rate df)]]
  /\ map (fun a => map l_style (ax_lines a)) (fig_axes fig) = [[st; st]; [st]; [st]; [st]]
  /\ fig_locator fig = DayLocator.

(** The figure is a straight-line program once the branch of line 210 is
    taken. *)
Ltac display_cases df :=
  unfold vitals_display, plot_series; destruct (Nat.eqb (List.length df) 1); reflexivity.

(** C13. [vitals_display] implements the presentation contract: four
    panels drawing, against [date_index], the systolic and diastolic
    pressure, the weight, the temperature and the pulse rate of every row
    in order, on a day locator, as markers exactly when the frame has one
    row. *)
Theorem vitals_display_presents df b e : presentation df (vitals_display df b e).
Proof. unfold presentation. repeat split; display_cases df. Qed.

End Figure.
