(* ===== verification/App.v ===== *)
(** * App: [new_entry] and the menu loop [main] of [src/main.py]

    [new_entry()] (lines 156-175) loads the file, prompts for the date (with
    today's date as default), the blood pressure, the pulse rate, the
    weight, the temperature and the notes, and calls [add_or_update_record].
    [main()] (lines 246-273) prints the menu, reads a choice and runs
    [new_entry], asks for two dates and runs [show_range], leaves, or
    complains, until the user chooses 3.

    The session is a function of the file state, the date [datetime.today()]
    returns (fixed for the session) and the list of input lines.  What the
    program shows is a list of events: a printed line, the table of
    [show_range] (its rows) or the figure [vitals_display] builds
    ([Chart]) and [plt.show()] draws.  A session ends by the choice 3, by
    an exception (from the store, from the pipeline of [show_range], or
    [EOFError] when the input runs out), or, in the fuel-bounded loop
    only, by running out of fuel, which [main_terminates] excludes for the
    fuel [main] gives.

    The invariants of a run ([StepInvariant]) are proved once for any
    property of file states kept by a load and by an upsert of an entry
    the prompts accept: the record invariant of the spec ([records_valid])
    and the two forms of the date column ([dates_wellformed]). *)

From S2P Require Import Prelude Dates PandasDates Validator Numeric Store Materializer Chart.
From stdpp Require Import base list strings.
From Stdlib Require Import QArith.

Module Session.
Import Calendar Strptime Timestamps BloodPressure DateInput Notes PyFloat NumericInput.
Import Store.Table CsvSource Resample ShowRange Figure.

(** What the user sees. *)
Inductive event := PrintLine (s : string) | ShowTable (rows : list slot) | ShowChart (fig : figure).

(** The exceptions that end the program. *)
Inductive crash := StoreCrash (e : store_error) | RangeCrash (e : range_error) | InputEOF.

(** Why a pass of the menu loop stops the program: the choice 3, or an
    exception. *)
Inductive stop_reason := Quit | Fail (c : crash).

(** How a run ends; [OutOfFuel] only in the fuel-bounded loop. *)
Inductive exit_status := Exited | Crashed (c : crash) | OutOfFuel.

Definition status_of (r : stop_reason) : exit_status :=
  match r with Quit => Exited | Fail c => Crashed c end.

(** One pass of the menu loop: it continues with a file state, the unread
    input and the events shown, or the program stops. *)
Inductive step :=
| Continue (f : fs) (inp : list string) (evs : list event)
| Stop (f : fs) (evs : list event) (r : stop_reason).

Definition prints (out : list string) : list event := map PrintLine out.

Definition step_fs (s : step) : fs := match s with Continue f _ _ | Stop f _ _ => f end.

Definition prepend (evs : list event) (s : step) : step :=
  match s with
  | Continue f inp evs' => Continue f inp (evs ++ evs')
  | Stop f evs' e => Stop f (evs ++ evs') e
  end.

(** Run a prompt: [EOFError] when the input runs out, otherwise continue
    with its value, the rest of the input and its lines printed. *)
Definition with_input {A} (r : option (io A)) (f : fs) (evs : list event)
  (k : A -> list string -> list event -> step) : step :=
  match r with
  | None => Stop f evs (Fail InputEOF)
  | Some (IO v rest out) => k v rest (evs ++ prints out)
  end.

(** [new_entry()]: lines 164-175. *)
Definition new_entry (today : Calendar.date) (f : fs) (inp : list string) : step :=
  match get_data f with
  | Raised e => Stop f [] (Fail (StoreCrash e))
  | Done (f0, _, out0) =>
      with_input (get_date today true inp) f0 (prints out0) (fun d inp1 evs1 =>
      with_input (get_bp inp1) f0 evs1 (fun bp inp2 evs2 =>
      with_input (get_pulse_rate inp2) f0 evs2 (fun pr inp3 evs3 =>
      with_input (get_weight inp3) f0 evs3 (fun w inp4 evs4 =>
      with_input (get_temp inp4) f0 evs4 (fun t inp5 evs5 =>
      with_input (get_notes inp5) f0 evs5 (fun n inp6 evs6 =>
      match add_or_update_record f0 d (fst bp) (snd bp) pr w t n with
      | Raised e => Stop f0 evs6 (Fail (StoreCrash e))
      | Done (f1, out) => Continue f1 inp6 (evs6 ++ prints out)
      end))))))
  end.

(** [datetime.strptime(s, DATE_FORMAT).strftime(DATE_FORMAT)], as lines
    99-100 print the bounds. *)
Definition reformat (s : string) : string :=
  match strptime_mdY s with Some d => strftime_mdY d | None => s end.

(** [input(...).lower() == 'y'] *)
Definition answers_y (line : string) : bool :=
  match map lower_char (list_ascii_of_string line) with
  | [c] => (c =? "y")%char
  | _ => false
  end.

(** Choice 2: lines 266-268, then lines 94-111 of [show_range]. *)
Definition view_range (today : Calendar.date) (f : fs) (inp : list string) (evs : list event) : step :=
  with_input (get_date today true inp) f evs (fun bs inp1 evs1 =>
  with_input (get_date today true inp1) f evs1 (fun es inp2 evs2 =>
  match show_range f bs es with
  | (f1, out, LoadRaised e) => Stop f1 (evs2 ++ prints out) (Fail (StoreCrash e))
  | (f1, out, RangeRaised e) => Stop f1 (evs2 ++ prints out) (Fail (RangeCrash e))
  | (f1, out, Shown frame) =>
      match view_of frame with
      | NoEntries =>
          Continue f1 inp2 (evs2 ++ prints out ++ [PrintLine "No entries found within given range."])
      | MostRecent rows =>
          let evs3 := evs2 ++ prints out
                      ++ [PrintLine ("Here are the most recent 10 entries from " ++ reformat bs
                                     ++ " to " ++ reformat es); ShowTable rows] in
          match inp2 with
          | [] => Stop f1 evs3 (Fail InputEOF)
          | ans :: inp3 =>
              Continue f1 inp3
                (if answers_y ans
                 then evs3 ++ [ShowChart (vitals_display frame (reformat bs) (reformat es))]
                 else evs3)
          end
      end
  end)).

(** Lines 256-259. *)
Definition menu_lines : list string :=
  [String (ascii_of_nat 10) "Please choose from the following options.";
   "1. Add new entry."; "2. View records in a date range."; "3. Exit"].

(** One pass of the [while True] loop of [main()]: lines 256-273. *)
Definition menu_step (today : Calendar.date) (f : fs) (inp : list string) : step :=
  let evs := prints menu_lines in
  match inp with
  | [] => Stop f evs (Fail InputEOF)
  | choice :: rest =>
      if String.eqb choice "1" then prepend evs (new_entry today f rest)
      else if String.eqb choice "2" then view_range today f rest evs
      else if String.eqb choice "3" then Stop f (evs ++ [PrintLine "Now leaving the program."]) Quit
      else Continue f rest (evs ++ [PrintLine "Invalid entry. Please select 1, 2 or 3"])
  end.

(** A whole run: the final file state, everything shown, how it ended. *)
Record session := mksession { final : fs; events : list event; ending : exit_status }.

Fixpoint main_loop (fuel : nat) (today : Calendar.date) (f : fs) (inp : list string) : session :=
  match fuel with
  | O => mksession f [] OutOfFuel
  | S fuel' =>
      match menu_step today f inp with
      | Stop f' evs r => mksession f' evs (status_of r)
      | Continue f' inp' evs =>
          let s := main_loop fuel' today f' inp' in mksession (final s) (evs ++ events s) (ending s)
      end
  end.

(** [main()]: each pass reads at least one line, so one pass per line and
    one more suffice. *)
Definition main (today : Calendar.date) (f : fs) (inp : list string) : session :=
  main_loop (S (List.length inp)) today f inp.

(** What the prompts guarantee of an entry: the guard of [get_bp] and the
    ranges of the numeric prompts (the record invariant of the spec). *)
Definition entry_ok (s di p : Z) (w t : Q) : Prop :=
  bp_realistic s di = true /\ (PULSE_RATE_MIN <= p <= PULSE_RATE_MAX)%Z
  /\ (inject_Z WEIGHT_MIN <= w <= inject_Z WEIGHT_MAX)%Q
  /\ (inject_Z TEMP_MIN <= t <= inject_Z TEMP_MAX)%Q.

Definition row_valid {D} (r : rec D) : Prop :=
  entry_ok (bp_sys r) (bp_dia r) (pulse_rate r) (weight r) (temp r).

Definition records_valid (f : fs) : Prop :=
  match vitals_csv f with Some rows => Forall row_valid rows | None => True end.

(** The [date] column of the file holds only the two forms the program
    writes: [get_date]'s text, or [str(Timestamp)] of a date in range. *)
Definition dates_wellformed (f : fs) : Prop :=
  match vitals_csv f with Some rows => Forall (fun r => date_text_ok (date r)) rows | None => True end.

(** A cell of the loaded table whose [to_csv] text is of those forms. *)
Definition cell_ok (c : dcell) : Prop := date_text_ok (write_cell c).

(** ** Each prompt reads at least one line *)

Local Open Scope nat_scope.

Lemma get_date_shortens today ad inp r :
  get_date today ad inp = Some r -> List.length (io_rest r) < List.length inp.
Proof.
  revert r. induction inp as [inp IH] using list_length_ind. intros r.
  destruct inp as [|l rest]; cbn [get_date]; [discriminate|].
  destruct (ad && String.eqb l ""); [destruct rest as [|y rest']; [discriminate|]|].
  - destruct (answers_yes y); [intros H; inversion H; subst; cbn; lia|].
    intros H. pose proof (IH rest' ltac:(cbn; lia) r H). cbn. lia.
  - destruct (strptime_mdY l); [intros H; inversion H; subst; cbn; lia|].
    destruct (get_date today ad rest) as [[v rest'' out]|] eqn:G; cbn; [|discriminate].
    intros H; inversion H; subst. pose proof (IH rest ltac:(cbn; lia) _ G). cbn in *. lia.
Qed.

Lemma get_bp_shortens inp r : get_bp inp = Some r -> List.length (io_rest r) < List.length inp.
Proof.
  revert r. induction inp as [|l inp IH]; intros r; cbn; [discriminate|].
  destruct (read_bp l).
  - intros H. pose proof (IH r H). lia.
  - destruct (get_bp inp) as [[v rest out]|] eqn:G; cbn; [|discriminate].
    intros H; inversion H; subst. pose proof (IH _ eq_refl). cbn in *. lia.
  - intros H; inversion H; subst. cbn. lia.
Qed.

Lemma validate_shortens mn mx inp r :
  validate_numeric_input mn mx inp = Some r -> List.length (io_rest r) < List.length inp.
Proof.
  revert r. induction inp as [|l inp IH]; intros r; cbn; [discriminate|].
  destruct (read_number mn mx l); [| |intros H; inversion H; subst; cbn; lia];
    destruct (validate_numeric_input mn mx inp) as [[v rest out]|] eqn:G; cbn; try discriminate;
    intros H; inversion H; subst; pose proof (IH _ eq_refl); cbn in *; lia.
Qed.

Lemma get_pulse_rate_shortens inp r :
  get_pulse_rate inp = Some r -> List.length (io_rest r) < List.length inp.
Proof.
  unfold get_pulse_rate. destruct (validate_numeric_input _ _ inp) as [[v rest out]|] eqn:G;
    cbn; [|discriminate].
  intros H; inversion H; subst. exact (validate_shortens _ _ _ _ G).
Qed.

Lemma get_notes_shortens inp r : get_notes inp = Some r -> List.length (io_rest r) < List.length inp.
Proof. destruct inp; cbn; [discriminate|]. intros H; inversion H; subst. cbn. lia. Qed.

(** Run the prompts of a step one after the other: each either runs out of
    input or returns a value, which reads at least one line. *)
Ltac run_prompts :=
  repeat match goal with
  | |- context [with_input ?r _ _ _] =>
      let G := fresh "G" in
      destruct r as [[? ? ?]|] eqn:G; cbn [with_input];
      [ first [ pose proof (get_date_shortens _ _ _ _ G)
              | pose proof (get_bp_shortens _ _ G)
              | pose proof (get_pulse_rate_shortens _ _ G)
              | pose proof (validate_shortens _ _ _ _ G)
              | pose proof (get_notes_shortens _ _ G) ] | ]
  end.

(** The three branches of a pass of the menu loop. *)
Ltac menu_cases c :=
  destruct (String.eqb c "1"); [|destruct (String.eqb c "2"); [|destruct (String.eqb c "3")]].

Lemma menu_step_shortens today f inp f' inp' evs :
  menu_step today f inp = Continue f' inp' evs -> List.length inp' < List.length inp.
Proof.
  destruct inp as [|c rest]; cbn [menu_step]; [discriminate|]. menu_cases c.
  - unfold new_entry. destruct (get_data f) as [[[f0 df] o]|e]; cbn [prepend]; [|discriminate].
    run_prompts; cbn [prepend]; try discriminate.
    destruct (add_or_update_record _ _ _ _ _ _ _ _) as [[f1 out]|e]; cbn [prepend]; [|discriminate].
    intros Hs; inversion Hs; subst. cbn in *. lia.
  - unfold view_range. run_prompts; try discriminate.
    destruct (show_range f _ _) as [[f1 out] [e|e|[|rows]]]; try discriminate.
    + intros Hs; inversion Hs; subst. cbn in *. lia.
    + match goal with |- context [match ?x with [] => _ | _ :: _ => _ end] =>
        destruct x as [|ans inp3] eqn:E end; [discriminate|].
      intros Hs; inversion Hs; subst. cbn in *. lia.
  - discriminate.
  - intros Hs; inversion Hs; subst. cbn. lia.
Qed.

(** ** Termination *)

Lemma main_loop_enough fuel today f inp :
  List.length inp < fuel -> ending (main_loop fuel today f inp) <> OutOfFuel.
Proof.
  revert f inp. induction fuel as [|fuel IH]; intros f inp Hf; [lia|]. cbn [main_loop].
  destruct (menu_step today f inp) as [f' inp' evs|f' evs [|c]] eqn:E; cbn; try discriminate.
  apply IH. pose proof (menu_step_shortens _ _ _ _ _ _ E). lia.
Qed.

Lemma main_loop_fuel fuel1 fuel2 today f inp :
  List.length inp < fuel1 -> List.length inp < fuel2 ->
  main_loop fuel1 today f inp = main_loop fuel2 today f inp.
Proof.
  revert fuel2 f inp. induction fuel1 as [|fuel1 IH]; intros [|fuel2] f inp H1 H2; try lia.
  cbn [main_loop]. destruct (menu_step today f inp) as [f' inp' evs|] eqn:E; [|reflexivity].
  pose proof (menu_step_shortens _ _ _ _ _ _ E). rewrite (IH fuel2); [reflexivity|lia|lia].
Qed.

(** ** Invariants of a run *)

Lemma step_fs_prepend evs s : step_fs (prepend evs s) = step_fs s.
Proof. destruct s; reflexivity. Qed.

Lemma show_range_fs f bs es f1 out o :
  show_range f bs es = (f1, out, o) -> f1 = f \/ exists df out0, get_data f = Done (f1, df, out0).
Proof.
  unfold show_range. destruct (get_data f) as [[[g df] out0]|e]; [|intros H; inversion H; auto].
  destruct (materialize df bs es); intros H; inversion H; subst; eauto.
Qed.

Lemma prompts_entry_ok i1 i2 i3 i4 r1 r2 r3 r4 :
  get_bp i1 = Some r1 -> get_pulse_rate i2 = Some r2 -> get_weight i3 = Some r3 -> get_temp i4 = Some r4 ->
  entry_ok (fst (io_val r1)) (snd (io_val r1)) (io_val r2) (io_val r3) (io_val r4).
Proof.
  intros G1 G2 G3 G4. split; [exact (get_bp_realistic _ _ G1)|].
  split; [exact (get_pulse_rate_range _ _ G2)|].
  split; [exact (validate_in_range _ _ _ _ G3)|exact (validate_in_range _ _ _ _ G4)].
Qed.

Section StepInvariant.
(** A property of file states kept by loading and by an upsert of a date
    in [get_date]'s form with values the prompts accept is kept by every
    run. *)
Variable P : fs -> Prop.
Hypothesis P_load : forall f f0 df out, P f -> get_data f = Done (f0, df, out) -> P f0.
Hypothesis P_upsert : forall f d s di p w t n f' out,
  P f -> mdY_text d -> entry_ok s di p w t ->
  add_or_update_record f d s di p w t n = Done (f', out) -> P f'.
Variable today : Calendar.date.
Hypothesis Htoday : valid_date today = true.

Lemma menu_step_preserves f inp : P f -> P (step_fs (menu_step today f inp)).
Proof.
  intros Hf. destruct inp as [|c rest]; cbn [menu_step]; [exact Hf|]. menu_cases c.
  - rewrite step_fs_prepend. unfold new_entry.
    destruct (get_data f) as [[[f0 df] o]|e] eqn:G; [|exact Hf].
    pose proof (P_load _ _ _ _ Hf G) as Hf0. run_prompts; try exact Hf0.
    destruct (add_or_update_record _ _ _ _ _ _ _ _) as [[f1 out]|e] eqn:A; [|exact Hf0].
    refine (P_upsert _ _ _ _ _ _ _ _ _ _ Hf0 _ (prompts_entry_ok _ _ _ _ _ _ _ _ G1 G2 G3 G4) A).
    destruct (get_date_valid _ _ _ _ Htoday G0) as (dt & Hv & Hs). exists dt. auto.
  - unfold view_range. run_prompts; try exact Hf.
    destruct (show_range f _ _) as [[f1 out] o] eqn:S.
    assert (Hf1 : P f1).
    { destruct (show_range_fs _ _ _ _ _ _ S) as [->|(df & out0 & GL)]; [exact Hf|exact (P_load _ _ _ _ Hf GL)]. }
    destruct o as [e|e|[|rows]]; try exact Hf1.
    match goal with |- context [match ?x with [] => _ | _ :: _ => _ end] => destruct x end; exact Hf1.
  - exact Hf.
  - exact Hf.
Qed.

Lemma main_loop_preserves fuel f inp : P f -> P (final (main_loop fuel today f inp)).
Proof.
  revert f inp. induction fuel as [|fuel IH]; intros f inp Hf; [exact Hf|]. cbn [main_loop].
  pose proof (menu_step_preserves f inp Hf) as Hs.
  destruct (menu_step today f inp); cbn in *; [apply IH|]; exact Hs.
Qed.
End StepInvariant.



(** ** The chart of a pass *)

Definition step_events (s : step) : list event :=
  match s with Continue _ _ evs | Stop _ evs _ => evs end.

Lemma step_events_prepend evs s : step_events (prepend evs s) = evs ++ step_events s.
Proof. destruct s; reflexivity. Qed.

Lemma no_chart_prints fig out : ~ In (ShowChart fig) (prints out).
Proof. unfold prints. rewrite in_map_iff. intros (x & E & _). discriminate. Qed.

(** Take apart a membership in a list of events built by a pass: every
    piece that is printed lines or a table is discarded. *)
Ltac chart_source Hin :=
  cbn [step_events] in Hin; repeat rewrite in_app_iff in Hin; cbn [In] in Hin;
  repeat match type of Hin with _ \/ _ => destruct Hin as [Hin|Hin] end;
  try (exfalso; exact (no_chart_prints _ _ Hin)); try discriminate Hin; try contradiction Hin.

Lemma new_entry_no_chart today f inp fig : ~ In (ShowChart fig) (step_events (new_entry today f inp)).
Proof.
  unfold new_entry. destruct (get_data f) as [[[f0 df] o]|e]; cbn [step_events]; [|intros []].
  run_prompts; cbn [step_events]; intros Hin; try (chart_source Hin; fail).
  destruct (add_or_update_record _ _ _ _ _ _ _ _) as [[f1 out]|e]; cbn [step_events] in Hin;
    chart_source Hin.
Qed.

(** A chart a pass shows is drawn from the frame of the [show_range] of
    that pass, whose last ten rows the pass shows as the table. *)
Lemma menu_step_charts today f inp fig :
  In (ShowChart fig) (step_events (menu_step today f inp)) ->
  exists bs es g out frame,
    show_range f bs es = (g, out, Shown frame)
    /\ fig = vitals_display frame (reformat bs) (reformat es)
    /\ In (ShowTable (skipn (List.length frame - 10) frame)) (step_events (menu_step today f inp)).
Proof.
  destruct inp as [|c rest]; cbn [menu_step step_events]; [intros Hin; chart_source Hin|].
  menu_cases c.
  - rewrite step_events_prepend. intros Hin. chart_source Hin.
    exfalso. exact (new_entry_no_chart _ _ _ _ Hin).
  - unfold view_range. run_prompts; cbn [step_events]; intros Hin; try (chart_source Hin; fail).
    destruct (show_range f _ _) as [[g out] [e|e|frame]] eqn:S; cbn [step_events] in Hin |- *;
      try (chart_source Hin; fail).
    destruct frame as [|s0 fr]; cbn [view_of step_events] in Hin |- *; [chart_source Hin|].
    match goal with |- context [match ?x with [] => _ | _ :: _ => _ end] =>
      destruct x as [|ans inp3] end; cbn [step_events] in Hin |- *; [chart_source Hin|].
    destruct (answers_y ans); [|chart_source Hin].
    do 5 eexists. split; [exact S|]. split.
    + chart_source Hin. congruence.
    + rewrite !in_app_iff. cbn [In]. tauto.
  - intros Hin. chart_source Hin.
  - intros Hin. chart_source Hin.
Qed.

(** The invariants of the file, in the form [StepInvariant] takes. *)
Lemma reachable_upsert f d s di p w t n f' out :
  reachable f -> mdY_text d -> entry_ok s di p w t ->
  add_or_update_record f d s di p w t n = Done (f', out) -> reachable f'.
Proof. intros Hf _ _ A. exact (reach_upsert _ _ _ _ _ _ _ _ _ _ Hf A). Qed.

Lemma records_valid_load f f0 df out :
  records_valid f -> get_data f = Done (f0, df, out) -> records_valid f0.
Proof.
  intros Hf G. destruct (get_data_spec f f0 df out G) as [_ [(rows & _ & -> & _)|(_ & -> & _)]];
    [exact Hf|constructor].
Qed.

(** [row_valid] reads only the vitals of a row. *)
Lemma row_valid_vals {D1 D2} (r1 : rec D1) (r2 : rec D2) :
  vals r1 = vals r2 -> row_valid r1 -> row_valid r2.
Proof.
  unfold vals, row_valid. intros E. injection E as E1 E2 E3 E4 E5.
  rewrite E1, E2, E3, E4, E5. exact id.
Qed.

Lemma Forall_row_valid_vals {D1 D2} (l1 : list (rec D1)) (l2 : list (rec D2)) :
  map vals l1 = map vals l2 -> Forall row_valid l1 -> Forall row_valid l2.
Proof.
  revert l2. induction l1 as [|r1 l1 IH]; intros [|r2 l2] E H; try discriminate; [constructor|].
  cbn [map] in E. assert (E1 : vals r1 = vals r2) by congruence.
  assert (E2 : map vals l1 = map vals l2) by congruence. apply Forall_cons_iff in H as [Hr Hl].
  constructor; [exact (row_valid_vals r1 r2 E1 Hr)|exact (IH l2 E2 Hl)].
Qed.

Lemma get_data_valid f f1 df out : records_valid f -> get_data f = Done (f1, df, out) -> Forall row_valid df.
Proof.
  intros Hf G. pose proof (get_data_vals f f1 df out G) as E. unfold records_valid in Hf.
  destruct (vitals_csv f) as [rows|].
  - exact (Forall_row_valid_vals rows df (eq_sym E) Hf).
  - destruct df; [constructor|discriminate].
Qed.

(** The row the update path leaves: [int(weight)] of a weight in range is
    in range. *)
Lemma row_valid_update d s di p w t n r :
  entry_ok s di p w t -> row_valid r -> row_valid (update_row d s di p w t n r).
Proof.
  intros (Hbp & Hp & Hw & Ht) Hr. unfold update_row. destruct (cell_is d (date r)); [|exact Hr].
  unfold row_valid, entry_ok. cbn [bp_sys bp_dia pulse_rate weight temp].
  split; [exact Hbp|split; [exact Hp|split; [|exact Ht]]].
  destruct (py_int_bounds w WEIGHT_MIN WEIGHT_MAX ltac:(unfold WEIGHT_MIN; lia) Hw) as [Hlo Hhi].
  split; rewrite <- Zle_Qle; assumption.
Qed.

Lemma records_valid_upsert f d s di p w t n f' out :
  records_valid f -> mdY_text d -> entry_ok s di p w t ->
  add_or_update_record f d s di p w t n = Done (f', out) -> records_valid f'.
Proof.
  intros Hf _ He. unfold add_or_update_record.
  destruct (get_data f) as [[[f1 df] o]|e] eqn:G; [|discriminate].
  pose proof (get_data_valid f f1 df o Hf G) as Hdf.
  pose proof (records_valid_load f f1 df o Hf G) as Hf1.
  destruct (writable f1); intros H; inversion H; subst; [|exact Hf1].
  unfold records_valid. cbn [vitals_csv].
  apply (Forall_row_valid_vals (upsert_table d s di p w t n df)); [symmetry; apply map_vals_write|].
  unfold upsert_table. destruct (has_date d df).
  - apply Forall_map. eapply Forall_impl; [exact Hdf|]. intros r. exact (row_valid_update _ _ _ _ _ _ _ r He).
  - apply Forall_app. split; [exact Hdf|constructor; [exact He|constructor]].
Qed.

(** [parse_dates] keeps the two forms: a converted date was in range, and
    [to_csv] writes it as [str(Timestamp)]. *)
Lemma parse_date_column_ok ts : Forall date_text_ok ts -> Forall cell_ok (parse_date_column ts).
Proof.
  intros H. destruct (parse_date_column_cases ts) as [(ds & -> & F & _)| ->]; apply Forall_map.
  - eapply Forall_impl; [exact F|]. intros dt [Hv Hb]. right. eauto.
  - exact H.
Qed.

Lemma get_data_dates_ok f f1 df out :
  dates_wellformed f -> get_data f = Done (f1, df, out) -> Forall (fun r => cell_ok (date r)) df.
Proof.
  intros Hf G.
  destruct (get_data_spec f f1 df out G) as [_ [(rows & V & _ & _ & _ & ->)|(_ & _ & -> & _)]];
    [|constructor].
  unfold dates_wellformed in Hf. rewrite V in Hf.
  apply (Forall_map date cell_ok).
  rewrite norm_rows_dates by (rewrite parse_date_column_length, length_map; reflexivity).
  apply parse_date_column_ok, Forall_map, Hf.
Qed.

Lemma dates_wellformed_load f f0 df out :
  dates_wellformed f -> get_data f = Done (f0, df, out) -> dates_wellformed f0.
Proof.
  intros Hf G. destruct (get_data_spec f f0 df out G) as [_ [(rows & _ & -> & _)|(_ & -> & _)]];
    [exact Hf|constructor].
Qed.

Lemma dates_wellformed_upsert f d s di p w t n f' out :
  dates_wellformed f -> mdY_text d -> entry_ok s di p w t ->
  add_or_update_record f d s di p w t n = Done (f', out) -> dates_wellformed f'.
Proof.
  intros Hf Hd _. unfold add_or_update_record.
  destruct (get_data f) as [[[f1 df] o]|e] eqn:G; [|discriminate].
  pose proof (get_data_dates_ok f f1 df o Hf G) as Hdf.
  pose proof (dates_wellformed_load f f1 df o Hf G) as Hf1.
  destruct (writable f1); intros H; inversion H; subst; [|exact Hf1].
  unfold dates_wellformed. cbn [vitals_csv]. apply (Forall_map write_row).
  unfold upsert_table. destruct (has_date d df).
  - apply Forall_map. eapply Forall_impl; [exact Hdf|].
    intros r Hr. unfold update_row. destruct (cell_is d (date r)); exact Hr.
  - apply Forall_app. split; [exact Hdf|constructor; [left; exact Hd|constructor]].
Qed.

Lemma main_loop_charts today fuel f inp fig :
  valid_date today = true -> reachable f ->
  In (ShowChart fig) (events (main_loop fuel today f inp)) ->
  exists g bs es g' out frame,
    reachable g /\ show_range g bs es = (g', out, Shown frame)
    /\ fig = vitals_display frame (reformat bs) (reformat es)
    /\ In (ShowTable (skipn (List.length frame - 10) frame)) (events (main_loop fuel today f inp)).
Proof.
  intros Ht. revert f inp. induction fuel as [|fuel IH]; intros f inp Hr; cbn [main_loop]; [intros []|].
  pose proof (menu_step_charts today f inp fig) as Hstep.
  pose proof (menu_step_preserves reachable reach_load reachable_upsert today Ht f inp Hr) as Hr'.
  destruct (menu_step today f inp) as [f' inp' evs|f' evs r]; cbn [events step_events step_fs] in *.
  - intros Hin. apply in_app_or in Hin as [Hin|Hin].
    + destruct (Hstep Hin) as (bs & es & g' & out & frame & S & E & T).
      exists f, bs, es, g', out, frame. repeat split; auto. apply in_or_app. left. exact T.
    + destruct (IH f' inp' Hr' Hin) as (g & bs & es & g' & out & frame & Hg & S & E & T).
      exists g, bs, es, g', out, frame. repeat split; auto. apply in_or_app. right. exact T.
  - intros Hin. destruct (Hstep Hin) as (bs & es & g' & out & frame & S & E & T).
    exists f, bs, es, g', out, frame. auto.
Qed.

(** ** Runs of the program *)

(** [main] always ends: by the choice 3, by an exception or at the end of
    the input, never for lack of fuel. *)
Lemma main_terminates today f inp : ending (main today f inp) <> OutOfFuel.
Proof. apply main_loop_enough. lia. Qed.

(** C14. Every chart a run shows is drawn by [vitals_display] from the
    whole frame that [show_range] materialized, on a file state the run
    reached and for the dates the user gave; the table the run shows with
    it is only the last ten rows of that same frame. *)
Theorem main_charts today f inp fig :
  valid_date today = true -> reachable f ->
  In (ShowChart fig) (events (main today f inp)) ->
  exists g bs es g' out frame,
    reachable g /\ show_range g bs es = (g', out, Shown frame)
    /\ fig = vitals_display frame (reformat bs) (reformat es)
    /\ In (ShowTable (skipn (List.length frame - 10) frame)) (events (main today f inp)).
Proof. unfold main. apply main_loop_charts. Qed.

(** C3. Every row of the file a run leaves satisfies the record invariant of
    the spec: systolic above diastolic, both in range, and pulse rate,
    weight and temperature in their ranges. *)
Theorem main_records_valid today f inp :
  valid_date today = true -> records_valid f -> records_valid (final (main today f inp)).
Proof.
  intros Ht. unfold main. apply main_loop_preserves; [exact records_valid_load|exact records_valid_upsert|exact Ht].
Qed.

(** C6. Every text a run leaves in the [date] column of the file is of one
    of two forms: the ["%m/%d/%Y"] text [get_date] returns for a valid
    date, or the ["YYYY-MM-DD 00:00:00"] text [to_csv] writes for a
    [Timestamp] that [read_csv] converted, a valid date within pandas'
    [Timestamp] range. *)
Theorem main_dates_wellformed today f inp :
  valid_date today = true -> dates_wellformed f -> dates_wellformed (final (main today f inp)).
Proof.
  intros Ht. unfold main.
  apply main_loop_preserves; [exact dates_wellformed_load|exact dates_wellformed_upsert|exact Ht].
Qed.

(** ** Sessions *)

(** Two entries on a new file, then a view: the second entry is appended,
    the first date is rewritten as ["2024-11-05 00:00:00"], and the view
    ends the program with the [ValueError] of line 65. *)
Example session_second_entry_breaks_view :
  let s := main (mkdate 2024 11 9) (mkfs None true)
             ["1"; "11/05/2024"; "120/80"; "70"; "180"; "98.6"; "";
              "1"; "11/06/2024"; "125/82"; "72"; "181"; "98.2"; "";
              "2"; "11/01/2024"; "11/30/2024"; "3"] in
  ending s = Crashed (RangeCrash DateParseError)
  /\ option_map (map date) (vitals_csv (final s)) = Some ["2024-11-05 00:00:00"; "11/06/2024"].
Proof. vm_compute. split; reflexivity. Qed.

(** ** Witnesses *)

Lemma main_records_valid_witness :
  records_valid (final (main (mkdate 2024 11 9) (mkfs None true)
                          ["1"; "11/05/2024"; "120/80"; "70"; "180.9"; "98.6"; "";
                           "1"; "11/05/2024"; "135/90"; "66"; "179"; "99.1"; ""; "3"])).
Proof. apply main_records_valid; [vm_compute; reflexivity|exact I]. Defined.

Lemma main_dates_wellformed_witness :
  dates_wellformed (final (main (mkdate 2024 11 9) (mkfs None true)
                            ["1"; "1/5/2024"; "120/80"; "70"; "180"; "98.6"; "";
                             "1"; ""; "y"; "125/82"; "72"; "181"; "98.2"; ""; "3"])).
Proof. apply main_dates_wellformed; [vm_compute; reflexivity|exact I]. Defined.

Lemma main_charts_witness :
  exists fig,
    In (ShowChart fig)
       (events (main (mkdate 2024 11 9) (mkfs None true)
                  ["1"; "11/05/2024"; "120/80"; "70"; "180"; "98.6"; "";
                   "2"; "11/01/2024"; "11/30/2024"; "y"; "3"]))
    /\ exists g bs es g' out frame,
         reachable g /\ show_range g bs es = (g', out, Shown frame)
         /\ fig = vitals_display frame (reformat bs) (reformat es)
         /\ In (ShowTable (skipn (List.length frame - 10) frame))
               (events (main (mkdate 2024 11 9) (mkfs None true)
                          ["1"; "11/05/2024"; "120/80"; "70"; "180"; "98.6"; "";
                           "2"; "11/01/2024"; "11/30/2024"; "y"; "3"])).
Proof.
  match eval vm_compute in (events (main (mkdate 2024 11 9) (mkfs None true)
                  ["1"; "11/05/2024"; "120/80"; "70"; "180"; "98.6"; "";
                   "2"; "11/01/2024"; "11/30/2024"; "y"; "3"])) with
  | context [ShowChart ?fig] => exists fig
  end.
  match goal with |- In (ShowChart ?fig) _ /\ _ => set (chart := fig) end.
  assert (Hin : In (ShowChart chart)
       (events (main (mkdate 2024 11 9) (mkfs None true)
                  ["1"; "11/05/2024"; "120/80"; "70"; "180"; "98.6"; "";
                   "2"; "11/01/2024"; "11/30/2024"; "y"; "3"]))).
  { vm_compute. repeat (first [left; reflexivity | right]). }
  split; [exact Hin|]. exact (main_charts (mkdate 2024 11 9) _ _ _ eq_refl (reach_start true) Hin).
Defined.

End Session.
